(** * VulkanTextureDepth: swap chain, buffers, textures, descriptors and
      frame synchronisation, embedded from [devices.cpp] and [graphics.cpp].

    Integers of the C++ code are [Z] with their wrap-around written out,
    [std::vector]s are lists read with stdpp's [!!], handles are [Z] with
    [0] for [VK_NULL_HANDLE]/[nullptr].  Member functions that throw or
    mutate their object run in the monad [M], which threads the object
    and device state and returns an [outcome]. *)

From Stdlib Require Import ZArith List Bool Lia.
From Stdlib.Init Require Import Byte.
From stdpp Require Import base numbers option list strings gmap pretty.

Local Open Scope Z_scope.

(** ** Outcomes of a C++ call *)

(** The exception classes the sources throw.  [std::out_of_range] and
    [std::invalid_argument] derive from [std::logic_error], and
    [std::bad_optional_access] from [std::exception], so a handler for
    [const std::runtime_error&] catches none of them. *)
Inductive exn : Type :=
  | runtime_error (what : string)
  | out_of_range (what : string)
  | invalid_argument (what : string)
  | bad_optional_access.

(** A call returns, leaves through an exception, has no defined
    behaviour (an out-of-bounds [operator[]], relocking a held
    [std::mutex]), or blocks for ever (a wait nothing will end). *)
Inductive outcome (A : Type) : Type :=
  | Ret (a : A)
  | Throw (e : exn)
  | Undefined
  | Blocked.
Arguments Ret {A} a.
Arguments Throw {A} e.
Arguments Undefined {A}.
Arguments Blocked {A}.

Definition is_throw {A} (r : outcome A) : bool :=
  match r with Throw _ => true | _ => false end.

Definition is_ret {A} (r : outcome A) : bool :=
  match r with Ret _ => true | _ => false end.

(** Member functions: the state [St] holds the object's fields and the
    part of the device the function touches.  What was written before a
    [throw] stays written. *)
Definition M (St A : Type) : Type := St -> outcome A * St.

Definition ret {St A} (a : A) : M St A := fun s => (Ret a, s).

Definition bind {St A B} (m : M St A) (k : A -> M St B) : M St B :=
  fun s =>
    match m s with
    | (Ret a, s') => k a s'
    | (Throw e, s') => (Throw e, s')
    | (Undefined, s') => (Undefined, s')
    | (Blocked, s') => (Blocked, s')
    end.

Definition throw {St A} (e : exn) : M St A := fun s => (Throw e, s).
Definition undefined {St A} : M St A := fun s => (Undefined, s).
Definition blocked {St A} : M St A := fun s => (Blocked, s).
Definition get {St} : M St St := fun s => (Ret s, s).
Definition gets {St A} (f : St -> A) : M St A := fun s => (Ret (f s), s).
Definition modify {St} (f : St -> St) : M St unit := fun s => (Ret tt, f s).

(** [try { body } catch (const std::runtime_error& e) { handler }] *)
Definition try_catch_runtime_error {St A}
    (body : M St A) (handler : string -> M St A) : M St A :=
  fun s =>
    match body s with
    | (Throw (runtime_error what), s') => handler what s'
    | r => r
    end.

Declare Scope cpp_scope.
Delimit Scope cpp_scope with cpp.
Notation "x <- m ;; k" := (bind m (fun x => k))
  (at level 100, m at next level, right associativity) : cpp_scope.
Notation "m ;;; k" := (bind m (fun _ => k))
  (at level 100, right associativity) : cpp_scope.

(** [for (auto x : xs) body(x);] *)
Fixpoint for_each {St A} (xs : list A) (body : A -> M St unit) : M St unit :=
  match xs with
  | [] => ret tt
  | x :: rest => bind (body x) (fun _ => for_each rest body)
  end.

(** A statement that builds an exception object and drops it: without
    the [throw] keyword, [std::runtime_error("...");] has no effect. *)
Definition discarded_temporary {St} (e : exn) : M St unit := ret tt.

(** ** Fixed-width integers and handles *)

Definition UINT32_MAX : Z := 4294967295.
Definition UINT64_MAX : Z := 18446744073709551615.

(** [static_cast<uint32_t>(x)] *)
Definition to_uint32 (x : Z) : Z := x mod 2 ^ 32.

Definition handle : Type := Z.
Definition VK_NULL_HANDLE : handle := 0.

(** [include/graphics.hpp]: [static constexpr uint32_t MAX_FRAMES_IN_FLIGHT = 2;] *)
Definition MAX_FRAMES_IN_FLIGHT : nat := 2.

(** ** Vulkan enumerators used by the sources (values of [vulkan_core.h]) *)

Definition VkFormat : Type := Z.
Definition VK_FORMAT_R8G8B8A8_SRGB : VkFormat := 43.
Definition VK_FORMAT_B8G8R8A8_SRGB : VkFormat := 50.
Definition VK_FORMAT_D32_SFLOAT : VkFormat := 126.
Definition VK_FORMAT_D24_UNORM_S8_UINT : VkFormat := 129.
Definition VK_FORMAT_D32_SFLOAT_S8_UINT : VkFormat := 130.

Definition VkColorSpaceKHR : Type := Z.
Definition VK_COLOR_SPACE_SRGB_NONLINEAR_KHR : VkColorSpaceKHR := 0.

Definition VkPresentModeKHR : Type := Z.
Definition VK_PRESENT_MODE_IMMEDIATE_KHR : VkPresentModeKHR := 0.
Definition VK_PRESENT_MODE_MAILBOX_KHR : VkPresentModeKHR := 1.
Definition VK_PRESENT_MODE_FIFO_KHR : VkPresentModeKHR := 2.
Definition VK_PRESENT_MODE_FIFO_RELAXED_KHR : VkPresentModeKHR := 3.

Record VkSurfaceFormatKHR : Type := {
  format : VkFormat;
  colorSpace : VkColorSpaceKHR
}.

Record VkExtent2D : Type := {
  width : Z;
  height : Z
}.

Record VkSurfaceCapabilitiesKHR : Type := {
  minImageCount : Z;
  maxImageCount : Z;
  currentExtent : VkExtent2D;
  minImageExtent : VkExtent2D;
  maxImageExtent : VkExtent2D;
  currentTransform : Z
}.

(** [std::clamp(v, lo, hi)]: [(v < lo) ? lo : (hi < v) ? hi : v]. *)
Definition std_clamp (v lo hi : Z) : Z :=
  if v <? lo then lo else if hi <? v then hi else v.

(** ** Swap-chain selection helpers ([devices.cpp]) *)

Module SwapChainSelect.

Definition is_preferred (availableFormat : VkSurfaceFormatKHR) : bool :=
  (format availableFormat =? VK_FORMAT_B8G8R8A8_SRGB)
  && (colorSpace availableFormat =? VK_COLOR_SPACE_SRGB_NONLINEAR_KHR).

(** The range-for of [chooseSwapSurfaceFormat]: [Some f] when the loop
    body returns [f], [None] when the loop runs to its end. *)
Fixpoint chooseSwapSurfaceFormat_loop
    (availableFormats : list VkSurfaceFormatKHR) : option VkSurfaceFormatKHR :=
  match availableFormats with
  | [] => None
  | availableFormat :: rest =>
      if is_preferred availableFormat then Some availableFormat
      else chooseSwapSurfaceFormat_loop rest
  end.

(** [SwapChain::chooseSwapSurfaceFormat]; [availableFormats[0]] on an
    empty vector is an out-of-bounds read. *)
Definition chooseSwapSurfaceFormat
    (availableFormats : list VkSurfaceFormatKHR) : outcome VkSurfaceFormatKHR :=
  match chooseSwapSurfaceFormat_loop availableFormats with
  | Some availableFormat => Ret availableFormat
  | None =>
      match availableFormats !! 0%nat with
      | Some first => Ret first
      | None => Undefined
      end
  end.

Fixpoint chooseSwapPresentMode_loop
    (availablePresentModes : list VkPresentModeKHR) : option VkPresentModeKHR :=
  match availablePresentModes with
  | [] => None
  | availablePresentMode :: rest =>
      if availablePresentMode =? VK_PRESENT_MODE_MAILBOX_KHR
      then Some availablePresentMode
      else chooseSwapPresentMode_loop rest
  end.

(** [SwapChain::chooseSwapPresentMode] *)
Definition chooseSwapPresentMode
    (availablePresentModes : list VkPresentModeKHR) : VkPresentModeKHR :=
  match chooseSwapPresentMode_loop availablePresentModes with
  | Some availablePresentMode => availablePresentMode
  | None => VK_PRESENT_MODE_FIFO_KHR
  end.

(** [SwapChain::chooseSwapExtent]; [framebufferSize] is what
    [glfwGetFramebufferSize] stores in the two [int]s. *)
Definition chooseSwapExtent
    (capabilities : VkSurfaceCapabilitiesKHR) (framebufferSize : Z * Z) : VkExtent2D :=
  if negb (width (currentExtent capabilities) =? UINT32_MAX) then
    currentExtent capabilities
  else
    let '(w, h) := framebufferSize in
    let actualExtent := {| width := to_uint32 w; height := to_uint32 h |} in
    let actualExtent :=
      {| width := std_clamp (width actualExtent)
                    (width (minImageExtent capabilities))
                    (width (maxImageExtent capabilities));
         height := height actualExtent |} in
    let actualExtent :=
      {| width := width actualExtent;
         height := std_clamp (height actualExtent)
                     (height (minImageExtent capabilities))
                     (height (maxImageExtent capabilities)) |} in
    actualExtent.

(** The preferred surface format: 8-bit BGRA, sRGB, nonlinear colour space. *)
Definition preferred_format : VkSurfaceFormatKHR :=
  {| format := VK_FORMAT_B8G8R8A8_SRGB;
     colorSpace := VK_COLOR_SPACE_SRGB_NONLINEAR_KHR |}.

End SwapChainSelect.

(** ** The driver behind the Vulkan, VMA and stb calls

    The sources only see whether a driver call succeeded and the handle
    it produced.  [results] scripts the successive fallible calls
    ([true] for [VK_SUCCESS]; an exhausted script means success) and
    [nextHandle] numbers the objects handed out; a driver that starts
    above [VK_NULL_HANDLE] never hands that out. *)
Record Driver : Type := {
  results : list bool;
  nextHandle : Z
}.

Definition driver_pop (d : Driver) : bool * Driver :=
  match results d with
  | [] => (true, d)
  | ok :: rest => (ok, {| results := rest; nextHandle := nextHandle d |})
  end.

Definition driver_fresh (d : Driver) : handle * Driver :=
  (nextHandle d, {| results := results d; nextHandle := nextHandle d + 1 |}).

(** The next [n] fallible calls all succeed. *)
Definition driver_succeeds (n : nat) (d : Driver) : bool :=
  forallb (fun ok => ok) (take n (results d)).

(** The driver after one successful creation: a result consumed, a
    handle handed out. *)
Definition driver_served (d : Driver) : Driver :=
  snd (driver_fresh (snd (driver_pop d))).

(** [std::vector::resize(n)] with value-initialised new elements. *)
Definition vector_resize {A} (n : nat) (dflt : A) (v : list A) : list A :=
  take n v ++ replicate (n - length v) dflt.

(** ** [SwapChain] ([devices.cpp]) *)

Module SwapChain.
Import SwapChainSelect.

Record SwapChainSupportDetails : Type := {
  capabilities : VkSurfaceCapabilitiesKHR;
  formats : list VkSurfaceFormatKHR;
  presentModes : list VkPresentModeKHR
}.

Record QueueFamilyIndices : Type := {
  graphicsFamily : option Z;
  presentFamily : option Z
}.

Definition VK_SHARING_MODE_EXCLUSIVE : Z := 0.
Definition VK_SHARING_MODE_CONCURRENT : Z := 1.
Definition VK_IMAGE_USAGE_COLOR_ATTACHMENT_BIT : Z := 16.
Definition VK_COMPOSITE_ALPHA_OPAQUE_BIT_KHR : Z := 1.

Record VkSwapchainCreateInfoKHR : Type := {
  ci_minImageCount : Z;
  ci_imageFormat : VkFormat;
  ci_imageColorSpace : VkColorSpaceKHR;
  ci_imageExtent : VkExtent2D;
  ci_imageArrayLayers : Z;
  ci_imageUsage : Z;
  ci_imageSharingMode : Z;
  ci_pQueueFamilyIndices : list Z;
  ci_preTransform : Z;
  ci_compositeAlpha : Z;
  ci_presentMode : VkPresentModeKHR;
  ci_clipped : bool;
  ci_oldSwapchain : handle
}.

(** The device calls a [SwapChain] makes, in the order it makes them. *)
Inductive VkCall : Type :=
  | vkCreateSwapchainKHR (createInfo : VkSwapchainCreateInfoKHR) (ok : bool)
  (** [fetch] is [false] for the count query (a null array) and
      [true] for the call that fills [swapChainImages] *)
  | vkGetSwapchainImagesKHR (chain : handle) (fetch : bool)
  | vkCreateImageView (image : handle) (fmt : VkFormat) (ok : bool)
  | vkDestroyImageView (imageView : handle)
  | vkDestroySwapchainKHR (chain : handle).

Definition is_destroy (c : VkCall) : bool :=
  match c with
  | vkDestroyImageView _ | vkDestroySwapchainKHR _ => true
  | _ => false
  end.

Definition is_create (c : VkCall) : bool :=
  match c with
  | vkCreateSwapchainKHR _ _ | vkCreateImageView _ _ _ => true
  | _ => false
  end.

(** What the surface, the window and the physical device report when
    asked; it may differ from one query to the next, so it is part of
    the state. *)
Record Surface : Type := {
  support : SwapChainSupportDetails;
  framebufferSize : Z * Z;
  queueFamilies : QueueFamilyIndices;
  (** the images the driver attaches to a swap chain created with
      this minimum count *)
  imagesFor : Z -> handle -> list handle
}.

Record State : Type := {
  surface : Surface;
  driver : Driver;
  calls : list VkCall;
  swapChain : handle;
  swapChainImages : list handle;
  swapChainImageFormat : VkFormat;
  swapChainExtent : VkExtent2D;
  swapChainImageViews : list handle
}.

Definition set_driver (d : Driver) (s : State) : State :=
  {| surface := surface s; driver := d; calls := calls s;
     swapChain := swapChain s; swapChainImages := swapChainImages s;
     swapChainImageFormat := swapChainImageFormat s;
     swapChainExtent := swapChainExtent s;
     swapChainImageViews := swapChainImageViews s |}.

Definition log (c : VkCall) : M State unit :=
  modify (fun s =>
    {| surface := surface s; driver := driver s; calls := calls s ++ [c];
       swapChain := swapChain s; swapChainImages := swapChainImages s;
       swapChainImageFormat := swapChainImageFormat s;
       swapChainExtent := swapChainExtent s;
       swapChainImageViews := swapChainImageViews s |}).

Definition set_chain (chain : handle) (images : list handle)
    (fmt : VkFormat) (extent : VkExtent2D) : M State unit :=
  modify (fun s =>
    {| surface := surface s; driver := driver s; calls := calls s;
       swapChain := chain; swapChainImages := images;
       swapChainImageFormat := fmt; swapChainExtent := extent;
       swapChainImageViews := swapChainImageViews s |}).

Definition set_views (views : list handle) : M State unit :=
  modify (fun s =>
    {| surface := surface s; driver := driver s; calls := calls s;
       swapChain := swapChain s; swapChainImages := swapChainImages s;
       swapChainImageFormat := swapChainImageFormat s;
       swapChainExtent := swapChainExtent s;
       swapChainImageViews := views |}).

(** A fallible driver call that yields a handle on success. *)
Definition driver_create : M State (option handle) :=
  fun s =>
    let '(ok, d) := driver_pop (driver s) in
    if ok then
      let '(h, d') := driver_fresh d in (Ret (Some h), set_driver d' s)
    else (Ret None, set_driver d s).

(** [std::optional::value()] *)
Definition optional_value {A} (o : option A) : M State A :=
  match o with
  | Some a => ret a
  | None => throw bad_optional_access
  end.

Local Open Scope cpp_scope.

(** [SwapChain::cleanupSwapChain] *)
Definition cleanupSwapChain : M State unit :=
  views <- gets swapChainImageViews ;;
  for_each views (fun imageView => log (vkDestroyImageView imageView)) ;;;
  chain <- gets swapChain ;;
  log (vkDestroySwapchainKHR chain).

(** [SwapChain::createSwapChain] *)
Definition createSwapChain : M State unit :=
  swapChainSupport <- gets (fun s => support (surface s)) ;;
  fbsize <- gets (fun s => framebufferSize (surface s)) ;;
  surfaceFormat <-
    (fun s => (chooseSwapSurfaceFormat (formats swapChainSupport), s)) ;;
  let presentMode := chooseSwapPresentMode (presentModes swapChainSupport) in
  let extent := chooseSwapExtent (capabilities swapChainSupport) fbsize in
  let imageCount := to_uint32 (minImageCount (capabilities swapChainSupport) + 1) in
  let imageCount :=
    if (0 <? maxImageCount (capabilities swapChainSupport))
       && (maxImageCount (capabilities swapChainSupport) <? imageCount)
    then maxImageCount (capabilities swapChainSupport)
    else imageCount in
  indices <- gets (fun s => queueFamilies (surface s)) ;;
  g <- optional_value (graphicsFamily indices) ;;
  p <- optional_value (presentFamily indices) ;;
  let concurrent := negb (g =? p) in
  let createInfo :=
    {| ci_minImageCount := imageCount;
       ci_imageFormat := format surfaceFormat;
       ci_imageColorSpace := colorSpace surfaceFormat;
       ci_imageExtent := extent;
       ci_imageArrayLayers := 1;
       ci_imageUsage := VK_IMAGE_USAGE_COLOR_ATTACHMENT_BIT;
       ci_imageSharingMode :=
         if concurrent then VK_SHARING_MODE_CONCURRENT
         else VK_SHARING_MODE_EXCLUSIVE;
       ci_pQueueFamilyIndices := if concurrent then [g; p] else [];
       ci_preTransform := currentTransform (capabilities swapChainSupport);
       ci_compositeAlpha := VK_COMPOSITE_ALPHA_OPAQUE_BIT_KHR;
       ci_presentMode := presentMode;
       ci_clipped := true;
       ci_oldSwapchain := VK_NULL_HANDLE |} in
  created <- driver_create ;;
  log (vkCreateSwapchainKHR createInfo (bool_decide (is_Some created))) ;;;
  match created with
  | None => throw (runtime_error "failed to create swap chain!")
  | Some chain =>
      log (vkGetSwapchainImagesKHR chain false) ;;;
      images <- gets (fun s => imagesFor (surface s) imageCount chain) ;;
      log (vkGetSwapchainImagesKHR chain true) ;;;
      set_chain chain images (format surfaceFormat) extent
  end.

(** [SwapChain::createImageView] *)
Definition createImageView (image : handle) (fmt : VkFormat) : M State handle :=
  created <- driver_create ;;
  log (vkCreateImageView image fmt (bool_decide (is_Some created))) ;;;
  match created with
  | None => throw (runtime_error "failed to create image views for swap chain!")
  | Some imageView => ret imageView
  end.

(** [SwapChain::createImageViews] *)
Definition createImageViews : M State unit :=
  images <- gets swapChainImages ;;
  views <- gets swapChainImageViews ;;
  set_views (vector_resize (length images) VK_NULL_HANDLE views) ;;;
  for_each (seq 0 (length images)) (fun i =>
    images <- gets swapChainImages ;;
    fmt <- gets swapChainImageFormat ;;
    match images !! i with
    | None => undefined
    | Some image =>
        imageView <- createImageView image fmt ;;
        views <- gets swapChainImageViews ;;
        set_views (<[i := imageView]> views)
    end).

(** [SwapChain::recreateSwapChain] *)
Definition recreateSwapChain : M State unit :=
  createSwapChain ;;;
  createImageViews.

(** [VulkanApplication::recreateSwapChain], the swap-chain part: the
    caller runs [cleanupSwapChain] itself before [recreateSwapChain]. *)
Definition application_recreateSwapChain : M State unit :=
  cleanupSwapChain ;;;
  recreateSwapChain.

End SwapChain.

(** ** Host-visible memory *)

(** [memcpy(dst, src, n)] into mapped memory, bytes by address. *)
Fixpoint memcpy (heap : gmap Z byte) (dst : Z) (src : list byte) : gmap Z byte :=
  match src with
  | [] => heap
  | b :: rest => <[dst := b]> (memcpy heap (dst + 1) rest)
  end.

(** [VmaMemoryUsage] as the sources use it. *)
Inductive VmaMemoryUsage : Type :=
  | VMA_MEMORY_USAGE_GPU_ONLY
  | VMA_MEMORY_USAGE_CPU_ONLY
  | VMA_MEMORY_USAGE_CPU_TO_GPU.

(** VMA's contract for the usages: the CPU ones are mappable by the
    host, [GPU_ONLY] is device-local. *)
Definition host_visible (u : VmaMemoryUsage) : bool :=
  match u with
  | VMA_MEMORY_USAGE_GPU_ONLY => false
  | VMA_MEMORY_USAGE_CPU_ONLY | VMA_MEMORY_USAGE_CPU_TO_GPU => true
  end.

Definition device_local (u : VmaMemoryUsage) : bool :=
  match u with
  | VMA_MEMORY_USAGE_GPU_ONLY => true
  | VMA_MEMORY_USAGE_CPU_ONLY | VMA_MEMORY_USAGE_CPU_TO_GPU => false
  end.

Definition VK_BUFFER_USAGE_TRANSFER_SRC_BIT : Z := 1.
Definition VK_BUFFER_USAGE_TRANSFER_DST_BIT : Z := 2.
Definition VK_BUFFER_USAGE_UNIFORM_BUFFER_BIT : Z := 16.
Definition VK_BUFFER_USAGE_INDEX_BUFFER_BIT : Z := 64.
Definition VK_BUFFER_USAGE_VERTEX_BUFFER_BIT : Z := 128.

(** [sizeof(UniformBufferObject)]: three [glm::mat4]. *)
Definition sizeof_UniformBufferObject : Z := 192.

(** ** [BufferManager] ([graphics.cpp]) over [AllocatorManager] ([memory.cpp]) *)

Module BufferManager.

Inductive VmaCall : Type :=
  | vmaCreateBuffer (size : Z) (usage : Z) (memoryUsage : VmaMemoryUsage) (ok : bool)
  | vmaMapMemory (allocation : handle) (ok : bool)
  | vmaUnmapMemory (allocation : handle)
  | vmaDestroyBuffer (buffer allocation : handle)
  | copyBufferCmd (srcBuffer dstBuffer : handle) (size : Z) (commandPool : handle).

Definition is_failed_create (c : VmaCall) : bool :=
  match c with
  | vmaCreateBuffer _ _ _ ok => negb ok
  | _ => false
  end.

Record State : Type := {
  driver : Driver;
  calls : list VmaCall;
  stderr : list string;
  heap : gmap Z byte;
  (** where the driver maps an allocation *)
  mapAddress : handle -> Z;
  (** [commandBufferManager]'s pool, as [getCommandPool] sees it *)
  commandPool : handle;
  (** the bytes behind [vertices.data()] and [indices.data()] *)
  vertices : list byte;
  indices : list byte;
  vertexBuffer : handle;
  vertexBufferAllocation : handle;
  indexBuffer : handle;
  indexBufferAllocation : handle;
  uniformBuffers : list handle;
  uniformBuffersMapped : list Z;
  uniformBuffersMemory : list handle
}.

Definition with_device (d : Driver) (c : list VmaCall) (e : list string)
    (h : gmap Z byte) (s : State) : State :=
  {| driver := d; calls := c; stderr := e; heap := h;
     mapAddress := mapAddress s; commandPool := commandPool s;
     vertices := vertices s; indices := indices s;
     vertexBuffer := vertexBuffer s;
     vertexBufferAllocation := vertexBufferAllocation s;
     indexBuffer := indexBuffer s;
     indexBufferAllocation := indexBufferAllocation s;
     uniformBuffers := uniformBuffers s;
     uniformBuffersMapped := uniformBuffersMapped s;
     uniformBuffersMemory := uniformBuffersMemory s |}.

Definition with_vertex (b a : handle) (s : State) : State :=
  {| driver := driver s; calls := calls s; stderr := stderr s; heap := heap s;
     mapAddress := mapAddress s; commandPool := commandPool s;
     vertices := vertices s; indices := indices s;
     vertexBuffer := b; vertexBufferAllocation := a;
     indexBuffer := indexBuffer s;
     indexBufferAllocation := indexBufferAllocation s;
     uniformBuffers := uniformBuffers s;
     uniformBuffersMapped := uniformBuffersMapped s;
     uniformBuffersMemory := uniformBuffersMemory s |}.

Definition with_index (b a : handle) (s : State) : State :=
  {| driver := driver s; calls := calls s; stderr := stderr s; heap := heap s;
     mapAddress := mapAddress s; commandPool := commandPool s;
     vertices := vertices s; indices := indices s;
     vertexBuffer := vertexBuffer s;
     vertexBufferAllocation := vertexBufferAllocation s;
     indexBuffer := b; indexBufferAllocation := a;
     uniformBuffers := uniformBuffers s;
     uniformBuffersMapped := uniformBuffersMapped s;
     uniformBuffersMemory := uniformBuffersMemory s |}.

Definition with_uniform (bs : list handle) (ps : list Z) (ms : list handle)
    (s : State) : State :=
  {| driver := driver s; calls := calls s; stderr := stderr s; heap := heap s;
     mapAddress := mapAddress s; commandPool := commandPool s;
     vertices := vertices s; indices := indices s;
     vertexBuffer := vertexBuffer s;
     vertexBufferAllocation := vertexBufferAllocation s;
     indexBuffer := indexBuffer s;
     indexBufferAllocation := indexBufferAllocation s;
     uniformBuffers := bs; uniformBuffersMapped := ps;
     uniformBuffersMemory := ms |}.

Definition log (c : VmaCall) : M State unit :=
  modify (fun s => with_device (driver s) (calls s ++ [c]) (stderr s) (heap s) s).

(** [std::cerr << "Error: " << e.what() << std::endl;] *)
Definition cerr_error (what : string) : M State unit :=
  modify (fun s =>
    with_device (driver s) (calls s) (stderr s ++ ["Error: " +:+ what]) (heap s) s).

Definition host_memcpy (dst : Z) (src : list byte) : M State unit :=
  modify (fun s =>
    with_device (driver s) (calls s) (stderr s) (memcpy (heap s) dst src) s).

Local Open Scope cpp_scope.

(** [AllocatorManager::createBuffer]: the buffer and its allocation,
    or [runtime_error] when [vmaCreateBuffer] fails. *)
Definition createBuffer (size usage : Z) (memoryUsage : VmaMemoryUsage)
    : M State (handle * handle) :=
  fun s =>
    let '(ok, d) := driver_pop (driver s) in
    if ok then
      let '(buffer, d1) := driver_fresh d in
      let '(allocation, d2) := driver_fresh d1 in
      (Ret (buffer, allocation),
       with_device d2 (calls s ++ [vmaCreateBuffer size usage memoryUsage true])
         (stderr s) (heap s) s)
    else
      (Throw (runtime_error "Failed to create buffer!"),
       with_device d (calls s ++ [vmaCreateBuffer size usage memoryUsage false])
         (stderr s) (heap s) s).

(** [AllocatorManager::mapMemory] *)
Definition mapMemory (allocation : handle) : M State Z :=
  fun s =>
    let '(ok, d) := driver_pop (driver s) in
    let s' := with_device d (calls s ++ [vmaMapMemory allocation ok])
                (stderr s) (heap s) s in
    if ok then (Ret (mapAddress s allocation), s')
    else (Throw (runtime_error "Failed to map memory!"), s').

(** [AllocatorManager::unmapMemory] *)
Definition unmapMemory (allocation : handle) : M State unit :=
  log (vmaUnmapMemory allocation).

(** [AllocatorManager::destroyBuffer] *)
Definition destroyBuffer (buffer allocation : handle) : M State unit :=
  log (vmaDestroyBuffer buffer allocation).

(** [AllocatorManager::copyBuffer]: records, submits and waits; it
    checks none of its Vulkan results and throws nothing. *)
Definition copyBuffer (srcBuffer dstBuffer : handle) (size : Z) (pool : handle)
    : M State unit :=
  log (copyBufferCmd srcBuffer dstBuffer size pool).

(** [CommandBufferManager::getCommandPool] *)
Definition getCommandPool : M State handle :=
  pool <- gets commandPool ;;
  if pool =? VK_NULL_HANDLE
  then throw (runtime_error "Command pool is not initialized.")
  else ret pool.

(** The shared body of [createVertexBuffer] and [createIndexBuffer]:
    the two differ in the payload, the usage bit and the members they
    store the device-local buffer in. *)
Definition createDeviceLocalBuffer (payload : list byte) (usageBit : Z)
    (store : handle -> handle -> State -> State)
    (stored : State -> handle * handle) : M State bool :=
  let bufferSize := Z.of_nat (length payload) in
  (* Step 1: staging buffer *)
  staging <- try_catch_runtime_error
    (r <- createBuffer bufferSize VK_BUFFER_USAGE_TRANSFER_SRC_BIT
            VMA_MEMORY_USAGE_CPU_ONLY ;; ret (Some r))
    (fun what => cerr_error what ;;; ret None) ;;
  match staging with
  | None => ret false
  | Some (stagingBuffer, stagingBufferAllocation) =>
      (* Step 2: map and copy *)
      mapped <- try_catch_runtime_error
        (data <- mapMemory stagingBufferAllocation ;; ret (Some data))
        (fun what =>
           cerr_error what ;;;
           destroyBuffer stagingBuffer stagingBufferAllocation ;;;
           ret None) ;;
      match mapped with
      | None => ret false
      | Some data =>
          host_memcpy data payload ;;;
          unmapMemory stagingBufferAllocation ;;;
          (* Step 3: the buffer on the GPU *)
          created <- try_catch_runtime_error
            (r <- createBuffer bufferSize
                    (Z.lor VK_BUFFER_USAGE_TRANSFER_DST_BIT usageBit)
                    VMA_MEMORY_USAGE_GPU_ONLY ;;
             modify (store (fst r) (snd r)) ;;;
             ret true)
            (fun what =>
               cerr_error what ;;;
               destroyBuffer stagingBuffer stagingBufferAllocation ;;;
               ret false) ;;
          if negb created then ret false else
          (* Step 4: staging -> device-local *)
          copied <- try_catch_runtime_error
            (dst <- gets stored ;;
             pool <- getCommandPool ;;
             copyBuffer stagingBuffer (fst dst) bufferSize pool ;;;
             ret true)
            (fun what =>
               cerr_error what ;;;
               dst <- gets stored ;;
               destroyBuffer stagingBuffer stagingBufferAllocation ;;;
               destroyBuffer (fst dst) (snd dst) ;;;
               ret false) ;;
          if negb copied then ret false else
          (* Step 5 *)
          destroyBuffer stagingBuffer stagingBufferAllocation ;;;
          ret true
      end
  end.

(** [BufferManager::createVertexBuffer] *)
Definition createVertexBuffer : M State bool :=
  payload <- gets vertices ;;
  createDeviceLocalBuffer payload VK_BUFFER_USAGE_VERTEX_BUFFER_BIT
    with_vertex (fun s => (vertexBuffer s, vertexBufferAllocation s)).

(** [BufferManager::createIndexBuffer] *)
Definition createIndexBuffer : M State bool :=
  payload <- gets indices ;;
  createDeviceLocalBuffer payload VK_BUFFER_USAGE_INDEX_BUFFER_BIT
    with_index (fun s => (indexBuffer s, indexBufferAllocation s)).

(** The cleanup loops of [createUniformBuffers]:
    [for (j = 0; j < bound; j++) destroyBuffer(uniformBuffers[j], uniformBuffersMemory[j])]. *)
Definition destroy_uniform_prefix (bound : nat) : M State unit :=
  for_each (seq 0 bound) (fun j =>
    bs <- gets uniformBuffers ;;
    ms <- gets uniformBuffersMemory ;;
    match bs !! j, ms !! j with
    | Some b, Some m => destroyBuffer b m
    | _, _ => undefined
    end).

(** The frame loop of [createUniformBuffers]; [false] is the
    [return false] inside a handler. *)
Fixpoint createUniformBuffers_loop (frames : list nat) : M State bool :=
  match frames with
  | [] => ret true
  | i :: rest =>
      created <- try_catch_runtime_error
        (r <- createBuffer sizeof_UniformBufferObject
                VK_BUFFER_USAGE_UNIFORM_BUFFER_BIT VMA_MEMORY_USAGE_CPU_TO_GPU ;;
         modify (fun s =>
           with_uniform (<[i := fst r]> (uniformBuffers s))
             (uniformBuffersMapped s)
             (<[i := snd r]> (uniformBuffersMemory s)) s) ;;;
         ret true)
        (fun what =>
           cerr_error what ;;;
           destroy_uniform_prefix i ;;;
           ret false) ;;
      if negb created then ret false else
      mapped <- try_catch_runtime_error
        (ms <- gets uniformBuffersMemory ;;
         match ms !! i with
         | None => undefined
         | Some m =>
             data <- mapMemory m ;;
             modify (fun s =>
               with_uniform (uniformBuffers s)
                 (<[i := data]> (uniformBuffersMapped s))
                 (uniformBuffersMemory s) s) ;;;
             ret true
         end)
        (fun what =>
           cerr_error what ;;;
           destroy_uniform_prefix (S i) ;;;
           ret false) ;;
      if negb mapped then ret false else
      createUniformBuffers_loop rest
  end.

(** [BufferManager::createUniformBuffers] *)
Definition createUniformBuffers : M State bool :=
  modify (fun s =>
    with_uniform
      (vector_resize MAX_FRAMES_IN_FLIGHT VK_NULL_HANDLE (uniformBuffers s))
      (vector_resize MAX_FRAMES_IN_FLIGHT 0 (uniformBuffersMapped s))
      (vector_resize MAX_FRAMES_IN_FLIGHT VK_NULL_HANDLE (uniformBuffersMemory s))
      s) ;;;
  createUniformBuffers_loop (seq 0 MAX_FRAMES_IN_FLIGHT).

(** [BufferManager::BufferManager]: the three [bool]s are dropped. *)
Definition constructor : M State unit :=
  modify (fun s =>
    with_uniform
      (vector_resize MAX_FRAMES_IN_FLIGHT VK_NULL_HANDLE (uniformBuffers s))
      (uniformBuffersMapped s)
      (vector_resize MAX_FRAMES_IN_FLIGHT VK_NULL_HANDLE (uniformBuffersMemory s))
      s) ;;;
  _ <- createVertexBuffer ;;
  _ <- createIndexBuffer ;;
  _ <- createUniformBuffers ;;
  ret tt.

(** [BufferManager::updateUniformBuffer]; [ubo] is the object
    representation of the struct, [sizeof(ubo)] bytes of it are copied. *)
Definition updateUniformBuffer (currentFrame : Z) (ubo : list byte) : M State unit :=
  if Z.of_nat MAX_FRAMES_IN_FLIGHT <=? currentFrame then
    throw (out_of_range "Frame index out of bounds.")
  else
    mapped <- gets uniformBuffersMapped ;;
    match mapped !! Z.to_nat currentFrame with
    | None => undefined
    | Some data =>
        if data =? 0 then
          throw (runtime_error
                   ("Failed to map uniform buffer for frame " +:+ pretty currentFrame))
        else
          host_memcpy data (take (Z.to_nat sizeof_UniformBufferObject) ubo)
    end.

End BufferManager.

(** ** [GraphicsPipeline] accessors ([graphics.cpp]) *)

Module GraphicsPipeline.
Local Open Scope cpp_scope.

(** The accessors are [const]; the state is the [framebuffers] member. *)
Definition State : Type := list handle.

(** [GraphicsPipeline::getFrameBuffers] *)
Definition getFrameBuffers : M State (list handle) :=
  framebuffers <- get ;;
  (if bool_decide (framebuffers = [])
   then discarded_temporary (runtime_error "Frame buffers vector is not populated!")
   else ret tt) ;;;
  ret framebuffers.

(** [GraphicsPipeline::getFrameBuffer] *)
Definition getFrameBuffer (frameIndex : Z) : M State handle :=
  framebuffers <- get ;;
  (if bool_decide (framebuffers = [])
   then discarded_temporary (runtime_error "Frame buffers vector is not populated!")
   else ret tt) ;;;
  (if Z.of_nat (length framebuffers) <? frameIndex
   then discarded_temporary (runtime_error "Frame index is out of bounds!")
   else ret tt) ;;;
  match framebuffers !! Z.to_nat frameIndex with
  | Some framebuffer => ret framebuffer
  | None => undefined
  end.

(** [GraphicsPipeline::getRenderPass], a sibling accessor, over the
    [renderPass] member. *)
Definition getRenderPass : M handle handle :=
  renderPass <- get ;;
  if renderPass =? VK_NULL_HANDLE
  then throw (runtime_error "Render pass is not initialized!")
  else ret renderPass.

End GraphicsPipeline.

(** ** [TextureManager] ([graphics.cpp]) *)

Definition VkImageLayout : Type := Z.
Definition VK_IMAGE_LAYOUT_UNDEFINED : VkImageLayout := 0.
Definition VK_IMAGE_LAYOUT_SHADER_READ_ONLY_OPTIMAL : VkImageLayout := 5.
Definition VK_IMAGE_LAYOUT_TRANSFER_DST_OPTIMAL : VkImageLayout := 7.

Definition INT_MAX : Z := 2147483647.

Module TextureManager.

Definition VK_IMAGE_TILING_OPTIMAL : Z := 0.
Definition VK_IMAGE_USAGE_TRANSFER_DST_BIT : Z := 2.
Definition VK_IMAGE_USAGE_SAMPLED_BIT : Z := 4.
Definition VK_IMAGE_ASPECT_COLOR_BIT : Z := 1.
Definition VK_IMAGE_ASPECT_DEPTH_BIT : Z := 2.
Definition VK_IMAGE_ASPECT_STENCIL_BIT : Z := 4.
Definition VK_ACCESS_SHADER_READ_BIT : Z := 32.
Definition VK_ACCESS_TRANSFER_WRITE_BIT : Z := 4096.
Definition VK_PIPELINE_STAGE_TOP_OF_PIPE_BIT : Z := 1.
Definition VK_PIPELINE_STAGE_FRAGMENT_SHADER_BIT : Z := 128.
Definition VK_PIPELINE_STAGE_TRANSFER_BIT : Z := 4096.
Definition VK_COMMAND_BUFFER_USAGE_ONE_TIME_SUBMIT_BIT : Z := 1.

Record VkImageMemoryBarrier : Type := {
  oldLayout : VkImageLayout;
  newLayout : VkImageLayout;
  image : handle;
  aspectMask : Z;
  srcAccessMask : Z;
  dstAccessMask : Z
}.

(** What [stbi_load] decodes from a file. *)
Record DecodedImage : Type := {
  texWidth : Z;
  texHeight : Z;
  pixels : list byte
}.

Inductive Call : Type :=
  | stbi_load (path : string) (ok : bool)
  | stbi_image_free
  | vmaCreateBuffer (size : Z) (usage : Z) (memoryUsage : VmaMemoryUsage)
      (ok : bool) (buffer : handle)
  | vmaMapMemory (allocation : handle) (ok : bool)
  | host_memcpy (dst : Z) (size : Z)
  | vmaUnmapMemory (allocation : handle)
  | vmaCreateImage (w h : Z) (fmt : VkFormat) (tiling usage : Z)
      (memoryUsage : VmaMemoryUsage) (ok : bool) (img : handle)
  | vkAllocateCommandBuffers (pool : handle) (commandBuffer : handle)
  | vkBeginCommandBuffer (commandBuffer : handle) (flags : Z)
  | vkCmdPipelineBarrier (commandBuffer : handle) (sourceStage destinationStage : Z)
      (barrier : VkImageMemoryBarrier)
  | vkCmdCopyBufferToImage (commandBuffer buffer img : handle)
      (dstImageLayout : VkImageLayout) (w h : Z)
  | vkEndCommandBuffer (commandBuffer : handle)
  | vkQueueSubmit (commandBuffer : handle)
  | vkQueueWaitIdle
  | vkFreeCommandBuffers (pool : handle) (commandBuffer : handle)
  | vmaDestroyBuffer (buffer allocation : handle).

Record State : Type := {
  driver : Driver;
  calls : list Call;
  heap : gmap Z byte;
  mapAddress : handle -> Z;
  files : string -> option DecodedImage;
  commandPool : handle;
  textureMutex : bool;
  imagePath : string;
  textureImage : handle;
  textureImageMemory : handle
}.

Definition with_device (d : Driver) (c : list Call) (h : gmap Z byte)
    (s : State) : State :=
  {| driver := d; calls := c; heap := h;
     mapAddress := mapAddress s; files := files s;
     commandPool := commandPool s; textureMutex := textureMutex s;
     imagePath := imagePath s;
     textureImage := textureImage s;
     textureImageMemory := textureImageMemory s |}.

Definition with_mutex (held : bool) (s : State) : State :=
  {| driver := driver s; calls := calls s; heap := heap s;
     mapAddress := mapAddress s; files := files s;
     commandPool := commandPool s; textureMutex := held;
     imagePath := imagePath s;
     textureImage := textureImage s;
     textureImageMemory := textureImageMemory s |}.

Definition with_texture (img mem : handle) (s : State) : State :=
  {| driver := driver s; calls := calls s; heap := heap s;
     mapAddress := mapAddress s; files := files s;
     commandPool := commandPool s; textureMutex := textureMutex s;
     imagePath := imagePath s;
     textureImage := img; textureImageMemory := mem |}.

Definition log (c : Call) : M State unit :=
  modify (fun s => with_device (driver s) (calls s ++ [c]) (heap s) s).

Definition pop_result : M State bool :=
  fun s =>
    let '(ok, d) := driver_pop (driver s) in
    (Ret ok, with_device d (calls s) (heap s) s).

Definition fresh : M State handle :=
  fun s =>
    let '(h, d) := driver_fresh (driver s) in
    (Ret h, with_device d (calls s) (heap s) s).

(** [std::lock_guard<std::mutex> lock(m);] around the rest of the
    body: locking a mutex the thread already holds is undefined, and
    the guard releases on return and on throw alike. *)
Definition lock_guard {A} (body : M State A) : M State A :=
  fun s =>
    if textureMutex s then (Undefined, s)
    else
      let '(r, s') := body (with_mutex true s) in
      (r, with_mutex false s').

Local Open Scope cpp_scope.

(** [AllocatorManager::createBuffer] *)
Definition createBuffer (size usage : Z) (memoryUsage : VmaMemoryUsage)
    : M State (handle * handle) :=
  ok <- pop_result ;;
  if ok then
    buffer <- fresh ;;
    allocation <- fresh ;;
    log (vmaCreateBuffer size usage memoryUsage true buffer) ;;;
    ret (buffer, allocation)
  else
    log (vmaCreateBuffer size usage memoryUsage false VK_NULL_HANDLE) ;;;
    throw (runtime_error "Failed to create buffer!").

(** [CommandBufferManager::getCommandPool] *)
Definition getCommandPool : M State handle :=
  pool <- gets commandPool ;;
  if pool =? VK_NULL_HANDLE
  then throw (runtime_error "Command pool is not initialized.")
  else ret pool.

(** [TextureManager::createImage] *)
Definition createImage (w h : Z) (fmt : VkFormat) (tiling usage : Z)
    (memoryUsage : VmaMemoryUsage) : M State unit :=
  ok <- pop_result ;;
  if ok then
    img <- fresh ;;
    mem <- fresh ;;
    log (vmaCreateImage w h fmt tiling usage memoryUsage true img) ;;;
    modify (with_texture img mem)
  else
    log (vmaCreateImage w h fmt tiling usage memoryUsage false VK_NULL_HANDLE) ;;;
    throw (runtime_error
             ("TextureManager::createImage: Failed to create image with properties:"
              +:+ " Width: " +:+ pretty w +:+ ", Height: " +:+ pretty h
              +:+ ", Format: " +:+ pretty fmt +:+ ", Usage: " +:+ pretty usage)).

(** [TextureManager::allocateCommandBuffer] *)
Definition allocateCommandBuffer : M State handle :=
  pool <- getCommandPool ;;
  commandBuffer <- fresh ;;
  log (vkAllocateCommandBuffers pool commandBuffer) ;;;
  ret commandBuffer.

(** [TextureManager::beginSingleTimeCommands] *)
Definition beginSingleTimeCommands : M State handle :=
  commandBuffer <- allocateCommandBuffer ;;
  log (vkBeginCommandBuffer commandBuffer
         VK_COMMAND_BUFFER_USAGE_ONE_TIME_SUBMIT_BIT) ;;;
  ret commandBuffer.

(** [TextureManager::submitSingleTimeCommandBuffer] *)
Definition submitSingleTimeCommandBuffer (commandBuffer : handle) : M State unit :=
  log (vkQueueSubmit commandBuffer) ;;;
  log vkQueueWaitIdle ;;;
  pool <- getCommandPool ;;
  log (vkFreeCommandBuffers pool commandBuffer).

(** [TextureManager::endSingleTimeCommands] *)
Definition endSingleTimeCommands (commandBuffer : handle) : M State unit :=
  log (vkEndCommandBuffer commandBuffer) ;;;
  submitSingleTimeCommandBuffer commandBuffer.

(** [TextureManager::hasStencilComponent] *)
Definition hasStencilComponent (fmt : VkFormat) : bool :=
  (fmt =? VK_FORMAT_D32_SFLOAT_S8_UINT) || (fmt =? VK_FORMAT_D24_UNORM_S8_UINT).

(** [TextureManager::createImageMemoryBarrier] *)
Definition createImageMemoryBarrier (img : handle) (fmt : VkFormat)
    (old new : VkImageLayout) : VkImageMemoryBarrier :=
  {| oldLayout := old; newLayout := new; image := img;
     aspectMask :=
       if (fmt =? VK_FORMAT_D32_SFLOAT) || (fmt =? VK_FORMAT_D32_SFLOAT_S8_UINT)
       then if hasStencilComponent fmt
            then Z.lor VK_IMAGE_ASPECT_DEPTH_BIT VK_IMAGE_ASPECT_STENCIL_BIT
            else VK_IMAGE_ASPECT_DEPTH_BIT
       else VK_IMAGE_ASPECT_COLOR_BIT;
     srcAccessMask := 0; dstAccessMask := 0 |}.

Definition with_access (src dst : Z) (b : VkImageMemoryBarrier) : VkImageMemoryBarrier :=
  {| oldLayout := oldLayout b; newLayout := newLayout b; image := image b;
     aspectMask := aspectMask b; srcAccessMask := src; dstAccessMask := dst |}.

(** [TextureManager::transitionImageLayout] *)
Definition transitionImageLayout (img : handle) (fmt : VkFormat)
    (old new : VkImageLayout) : M State unit :=
  commandBuffer <- beginSingleTimeCommands ;;
  let barrier := createImageMemoryBarrier img fmt old new in
  staged <-
    (if (old =? VK_IMAGE_LAYOUT_UNDEFINED)
        && (new =? VK_IMAGE_LAYOUT_TRANSFER_DST_OPTIMAL) then
       ret (with_access 0 VK_ACCESS_TRANSFER_WRITE_BIT barrier,
            VK_PIPELINE_STAGE_TOP_OF_PIPE_BIT, VK_PIPELINE_STAGE_TRANSFER_BIT)
     else if (old =? VK_IMAGE_LAYOUT_TRANSFER_DST_OPTIMAL)
             && (new =? VK_IMAGE_LAYOUT_SHADER_READ_ONLY_OPTIMAL) then
       ret (with_access VK_ACCESS_TRANSFER_WRITE_BIT VK_ACCESS_SHADER_READ_BIT barrier,
            VK_PIPELINE_STAGE_TRANSFER_BIT, VK_PIPELINE_STAGE_FRAGMENT_SHADER_BIT)
     else throw (invalid_argument "unsupported layout transition!")) ;;
  let '(barrier, sourceStage, destinationStage) := staged in
  log (vkCmdPipelineBarrier commandBuffer sourceStage destinationStage barrier) ;;;
  endSingleTimeCommands commandBuffer.

(** [TextureManager::copyBufferToImage] *)
Definition copyBufferToImage (buffer img : handle) (w h : Z) : M State unit :=
  commandBuffer <- beginSingleTimeCommands ;;
  log (vkCmdCopyBufferToImage commandBuffer buffer img
         VK_IMAGE_LAYOUT_TRANSFER_DST_OPTIMAL w h) ;;;
  endSingleTimeCommands commandBuffer.

(** [TextureManager::createTextureImage].  [texWidth * texHeight * 4]
    is [int] arithmetic, undefined past [INT_MAX]; on a failed load
    the product is of values [stbi_load] never wrote and the function
    throws right after it. *)
Definition createTextureImage : M State unit :=
  lock_guard (
    img <- gets textureImage ;;
    mem <- gets textureImageMemory ;;
    if negb (img =? VK_NULL_HANDLE) && negb (mem =? VK_NULL_HANDLE) then
      ret tt
    else
      path <- gets imagePath ;;
      if bool_decide (path = "") then
        throw (invalid_argument
          "TextureManager: imagePath is empty, please provide a valid texture file path.")
      else
        loaded <- gets (fun s => files s path) ;;
        log (stbi_load path (bool_decide (is_Some loaded))) ;;;
        match loaded with
        | None => throw (runtime_error "Failed to load texture image!")
        | Some decoded =>
            let w := texWidth decoded in
            let h := texHeight decoded in
            if INT_MAX <? w * h * 4 then undefined else
            let imageSize := w * h * 4 in
            staging <- createBuffer imageSize VK_BUFFER_USAGE_TRANSFER_SRC_BIT
                         VMA_MEMORY_USAGE_CPU_TO_GPU ;;
            let '(stagingBuffer, stagingBufferMemory) := staging in
            mapped <- pop_result ;;
            log (vmaMapMemory stagingBufferMemory mapped) ;;;
            if negb mapped then
              throw (runtime_error
                "TextureManager::createTextureImage: Failed to map memory for staging buffer.")
            else
              data <- gets (fun s => mapAddress s stagingBufferMemory) ;;
              modify (fun s =>
                with_device (driver s) (calls s)
                  (memcpy (heap s) data (take (Z.to_nat imageSize) (pixels decoded))) s) ;;;
              log (host_memcpy data imageSize) ;;;
              log (vmaUnmapMemory stagingBufferMemory) ;;;
              log stbi_image_free ;;;
              createImage (to_uint32 w) (to_uint32 h) VK_FORMAT_R8G8B8A8_SRGB
                VK_IMAGE_TILING_OPTIMAL
                (Z.lor VK_IMAGE_USAGE_TRANSFER_DST_BIT VK_IMAGE_USAGE_SAMPLED_BIT)
                VMA_MEMORY_USAGE_GPU_ONLY ;;;
              img <- gets textureImage ;;
              transitionImageLayout img VK_FORMAT_R8G8B8A8_SRGB
                VK_IMAGE_LAYOUT_UNDEFINED VK_IMAGE_LAYOUT_TRANSFER_DST_OPTIMAL ;;;
              img <- gets textureImage ;;
              copyBufferToImage stagingBuffer img (to_uint32 w) (to_uint32 h) ;;;
              img <- gets textureImage ;;
              transitionImageLayout img VK_FORMAT_R8G8B8A8_SRGB
                VK_IMAGE_LAYOUT_TRANSFER_DST_OPTIMAL
                VK_IMAGE_LAYOUT_SHADER_READ_ONLY_OPTIMAL ;;;
              log (vmaDestroyBuffer stagingBuffer stagingBufferMemory)
        end).

End TextureManager.

(** ** [DescriptorManager] ([graphics.cpp]) *)

Definition VkDescriptorType : Type := Z.
Definition VK_DESCRIPTOR_TYPE_COMBINED_IMAGE_SAMPLER : VkDescriptorType := 1.
Definition VK_DESCRIPTOR_TYPE_UNIFORM_BUFFER : VkDescriptorType := 6.
Definition VK_SHADER_STAGE_VERTEX_BIT : Z := 1.
Definition VK_SHADER_STAGE_FRAGMENT_BIT : Z := 16.

Module DescriptorManager.

Record VkDescriptorSetLayoutBinding : Type := {
  binding : Z;
  descriptorType : VkDescriptorType;
  descriptorCount : Z;
  stageFlags : Z;
  pImmutableSamplers : handle
}.

Record VkDescriptorPoolSize : Type := {
  type : VkDescriptorType;
  poolDescriptorCount : Z
}.

Record VkDescriptorPoolCreateInfo : Type := {
  pPoolSizes : list VkDescriptorPoolSize;
  maxSets : Z
}.

Inductive VkWriteDescriptorSet : Type :=
  | write_buffer (dstSet : handle) (dstBinding : Z) (ty : VkDescriptorType)
      (buffer : handle) (offset range : Z)
  | write_image (dstSet : handle) (dstBinding : Z) (ty : VkDescriptorType)
      (imageLayout : VkImageLayout) (imageView sampler : handle).

Inductive Call : Type :=
  | vkCreateDescriptorSetLayout (pBindings : list VkDescriptorSetLayoutBinding) (ok : bool)
  | vkCreateDescriptorPool (poolInfo : VkDescriptorPoolCreateInfo) (ok : bool)
  | vkAllocateDescriptorSets (pool : handle) (pSetLayouts : list handle) (ok : bool)
  | vkUpdateDescriptorSets (writes : list VkWriteDescriptorSet).

(** How many descriptors of type [ty] one set of a layout takes. *)
Definition layout_demand (ty : VkDescriptorType)
    (bindings : list VkDescriptorSetLayoutBinding) : Z :=
  foldr (fun b acc =>
           if descriptorType b =? ty then descriptorCount b + acc else acc)
        0 bindings.

(** What a pool was created for: an allocation is within the pool
    while the sets and, per type, the descriptors it takes are still
    in it.  Beyond that Vulkan lets the driver refuse. *)
Definition pool_admits (pool : VkDescriptorPoolCreateInfo)
    (layouts : list (list VkDescriptorSetLayoutBinding)) : bool :=
  (Z.of_nat (length layouts) <=? maxSets pool)
  && forallb (fun ps =>
       foldr (fun l acc => layout_demand (type ps) l + acc) 0 layouts
       <=? poolDescriptorCount ps) (pPoolSizes pool).

(** What is left of a pool after serving [layouts]. *)
Definition pool_take (pool : VkDescriptorPoolCreateInfo)
    (layouts : list (list VkDescriptorSetLayoutBinding)) : VkDescriptorPoolCreateInfo :=
  {| pPoolSizes :=
       map (fun ps =>
              {| type := type ps;
                 poolDescriptorCount :=
                   poolDescriptorCount ps
                   - foldr (fun l acc => layout_demand (type ps) l + acc) 0 layouts |})
           (pPoolSizes pool);
     maxSets := maxSets pool - Z.of_nat (length layouts) |}.

Record State : Type := {
  driver : Driver;
  calls : list Call;
  (** device side: the bindings behind a layout handle, and what is
      left in a pool *)
  layoutObjects : gmap Z (list VkDescriptorSetLayoutBinding);
  poolObjects : gmap Z VkDescriptorPoolCreateInfo;
  descriptorSetLayout : handle;
  descriptorPool : handle;
  descriptorSets : list handle
}.

Definition with_device (d : Driver) (c : list Call)
    (ls : gmap Z (list VkDescriptorSetLayoutBinding))
    (ps : gmap Z VkDescriptorPoolCreateInfo) (s : State) : State :=
  {| driver := d; calls := c; layoutObjects := ls; poolObjects := ps;
     descriptorSetLayout := descriptorSetLayout s;
     descriptorPool := descriptorPool s;
     descriptorSets := descriptorSets s |}.

Definition with_members (layout pool : handle) (sets : list handle)
    (s : State) : State :=
  {| driver := driver s; calls := calls s;
     layoutObjects := layoutObjects s; poolObjects := poolObjects s;
     descriptorSetLayout := layout; descriptorPool := pool;
     descriptorSets := sets |}.

Definition log (c : Call) : M State unit :=
  modify (fun s =>
    with_device (driver s) (calls s ++ [c]) (layoutObjects s) (poolObjects s) s).

Definition pop_result : M State bool :=
  fun s =>
    let '(ok, d) := driver_pop (driver s) in
    (Ret ok, with_device d (calls s) (layoutObjects s) (poolObjects s) s).

Definition fresh : M State handle :=
  fun s =>
    let '(h, d) := driver_fresh (driver s) in
    (Ret h, with_device d (calls s) (layoutObjects s) (poolObjects s) s).

(** [n] fresh handles, in order. *)
Fixpoint fresh_n (n : nat) : M State (list handle) :=
  match n with
  | O => ret []
  | S n' => bind fresh (fun h => bind (fresh_n n') (fun hs => ret (h :: hs)))
  end.

Local Open Scope cpp_scope.

Definition uboLayoutBinding : VkDescriptorSetLayoutBinding :=
  {| binding := 0;
     descriptorType := VK_DESCRIPTOR_TYPE_UNIFORM_BUFFER;
     descriptorCount := 1;
     stageFlags := VK_SHADER_STAGE_VERTEX_BIT;
     pImmutableSamplers := 0 |}.

Definition samplerLayoutBinding : VkDescriptorSetLayoutBinding :=
  {| binding := 1;
     descriptorType := VK_DESCRIPTOR_TYPE_COMBINED_IMAGE_SAMPLER;
     descriptorCount := 1;
     stageFlags := VK_SHADER_STAGE_FRAGMENT_BIT;
     pImmutableSamplers := 0 |}.

(** [DescriptorManager::createDescriptorSetLayout] *)
Definition createDescriptorSetLayout : M State unit :=
  let bindings := [uboLayoutBinding; samplerLayoutBinding] in
  ok <- pop_result ;;
  log (vkCreateDescriptorSetLayout bindings ok) ;;;
  if ok then
    layout <- fresh ;;
    modify (fun s =>
      with_device (driver s) (calls s)
        (<[layout := bindings]> (layoutObjects s)) (poolObjects s)
        (with_members layout (descriptorPool s) (descriptorSets s) s))
  else throw (runtime_error "failed to create descriptor set layout!").

(** [DescriptorManager::createDescriptorPool] *)
Definition createDescriptorPool : M State unit :=
  let poolSizes :=
    [ {| type := VK_DESCRIPTOR_TYPE_UNIFORM_BUFFER;
         poolDescriptorCount := to_uint32 (Z.of_nat MAX_FRAMES_IN_FLIGHT) |};
      {| type := VK_DESCRIPTOR_TYPE_COMBINED_IMAGE_SAMPLER;
         poolDescriptorCount := to_uint32 (Z.of_nat MAX_FRAMES_IN_FLIGHT) |} ] in
  let poolInfo :=
    {| pPoolSizes := poolSizes;
       maxSets := to_uint32 (Z.of_nat MAX_FRAMES_IN_FLIGHT) |} in
  ok <- pop_result ;;
  log (vkCreateDescriptorPool poolInfo ok) ;;;
  if ok then
    pool <- fresh ;;
    modify (fun s =>
      with_device (driver s) (calls s)
        (layoutObjects s) (<[pool := poolInfo]> (poolObjects s))
        (with_members (descriptorSetLayout s) pool (descriptorSets s) s))
  else throw (runtime_error "Failed to create descriptor pool!").

(** [DescriptorManager::DescriptorManager] *)
Definition constructor : M State unit :=
  createDescriptorSetLayout ;;;
  createDescriptorPool.

(** [vkAllocateDescriptorSets]: the driver decides.  It can refuse
    while the pool has room, and Vulkan lets it serve as well as refuse
    a request for more than the pool was created for; [poolObjects]
    only keeps count of what the pool was created for less what has
    been taken from it.  [None] stands for a refusal, upon which the
    driver has set every entry of the caller's array to
    [VK_NULL_HANDLE]. *)
Definition allocateDescriptorSets (pool : handle) (layouts : list handle)
    : M State (option (list handle)) :=
  s <- get ;;
  match poolObjects s !! pool, mapM (fun l => layoutObjects s !! l) layouts with
  | Some remaining, Some demanded =>
      ok <- pop_result ;;
      if ok then
        sets <- fresh_n (length layouts) ;;
        modify (fun s =>
          with_device (driver s) (calls s) (layoutObjects s)
            (<[pool := pool_take remaining demanded]> (poolObjects s)) s) ;;;
        log (vkAllocateDescriptorSets pool layouts true) ;;;
        ret (Some sets)
      else
        log (vkAllocateDescriptorSets pool layouts false) ;;;
        ret None
  | _, _ => undefined
  end.

(** [DescriptorManager::createDescriptorSets]: the driver writes
    into [descriptorSets.data()], so the member holds the new sets when
    the allocation is served and null handles when it is refused. *)
Definition createDescriptorSets (uniformBuffers : list handle)
    (textureImageView textureSampler : handle) : M State unit :=
  layout <- gets descriptorSetLayout ;;
  pool <- gets descriptorPool ;;
  let layouts := replicate MAX_FRAMES_IN_FLIGHT layout in
  modify (fun s =>
    with_members (descriptorSetLayout s) (descriptorPool s)
      (vector_resize MAX_FRAMES_IN_FLIGHT VK_NULL_HANDLE (descriptorSets s)) s) ;;;
  allocated <- allocateDescriptorSets pool layouts ;;
  match allocated with
  | None =>
      modify (fun s =>
        with_members (descriptorSetLayout s) (descriptorPool s)
          (replicate MAX_FRAMES_IN_FLIGHT VK_NULL_HANDLE) s) ;;;
      throw (runtime_error "failed to allocate descriptor sets!")
  | Some sets =>
      modify (fun s =>
        with_members (descriptorSetLayout s) (descriptorPool s) sets s) ;;;
      for_each (seq 0 MAX_FRAMES_IN_FLIGHT) (fun i =>
        sets <- gets descriptorSets ;;
        match uniformBuffers !! i, sets !! i with
        | Some buffer, Some dstSet =>
            log (vkUpdateDescriptorSets
                   [ write_buffer dstSet 0 VK_DESCRIPTOR_TYPE_UNIFORM_BUFFER
                       buffer 0 sizeof_UniformBufferObject;
                     write_image dstSet 1 VK_DESCRIPTOR_TYPE_COMBINED_IMAGE_SAMPLER
                       VK_IMAGE_LAYOUT_SHADER_READ_ONLY_OPTIMAL
                       textureImageView textureSampler ])
        | _, _ => undefined
        end)
  end.

(** [DescriptorManager::getDescriptorSet], over the [descriptorSets]
    member: the bounds check of this accessor does throw. *)
Definition getDescriptorSet (frameIndex : Z) : M (list handle) handle :=
  descriptorSets <- get ;;
  if Z.of_nat (length descriptorSets) <=? frameIndex then
    throw (out_of_range "Frame index is out of bounds!")
  else
    match descriptorSets !! Z.to_nat frameIndex with
    | None => undefined
    | Some set =>
        if set =? VK_NULL_HANDLE then
          throw (runtime_error
                   ("Descriptor set for frame " +:+ pretty frameIndex
                    +:+ " is not initialized!"))
        else ret set
    end.

End DescriptorManager.

(** ** [CommandBufferManager] ([graphics.cpp]) *)

Definition VK_FENCE_CREATE_SIGNALED_BIT : Z := 1.
Definition VK_COMMAND_POOL_CREATE_RESET_COMMAND_BUFFER_BIT : Z := 2.

Module CommandBufferManager.

Inductive VkResult : Type :=
  | VK_SUCCESS
  | VK_TIMEOUT
  | VK_ERROR_DEVICE_LOST.

Definition VkResult_code (r : VkResult) : Z :=
  match r with
  | VK_SUCCESS => 0
  | VK_TIMEOUT => 2
  | VK_ERROR_DEVICE_LOST => -4
  end.

Inductive Call : Type :=
  | vkCreateCommandPool (flags : Z) (queueFamilyIndex : Z) (ok : bool)
  | vkCreateSemaphore (flags : Z) (ok : bool)
  | vkCreateFence (flags : Z) (ok : bool)
  | vkAllocateCommandBuffers (pool : handle) (count : Z) (ok : bool)
  | vkWaitForFences (fence : handle) (timeout : Z) (hadToWait : bool)
  | vkResetFences (fence : handle).

Record State : Type := {
  driver : Driver;
  calls : list Call;
  (** device side: is the fence or semaphore behind a handle signaled;
      which fences work already queued will signal; is the device lost *)
  fences : gmap Z bool;
  semaphores : gmap Z bool;
  pending : list handle;
  deviceLost : bool;
  (** [QueueFamily::findQueueFamilies(...).graphicsFamily] *)
  graphicsFamily : option Z;
  commandPool : handle;
  commandBuffers : list handle;
  imageAvailableSemaphores : list handle;
  renderFinishedSemaphores : list handle;
  inFlightFences : list handle
}.

Definition with_device (d : Driver) (c : list Call) (fs ss : gmap Z bool)
    (p : list handle) (s : State) : State :=
  {| driver := d; calls := c; fences := fs; semaphores := ss; pending := p;
     deviceLost := deviceLost s; graphicsFamily := graphicsFamily s;
     commandPool := commandPool s; commandBuffers := commandBuffers s;
     imageAvailableSemaphores := imageAvailableSemaphores s;
     renderFinishedSemaphores := renderFinishedSemaphores s;
     inFlightFences := inFlightFences s |}.

Definition with_commands (pool : handle) (buffers : list handle) (s : State) : State :=
  {| driver := driver s; calls := calls s; fences := fences s;
     semaphores := semaphores s; pending := pending s;
     deviceLost := deviceLost s; graphicsFamily := graphicsFamily s;
     commandPool := pool; commandBuffers := buffers;
     imageAvailableSemaphores := imageAvailableSemaphores s;
     renderFinishedSemaphores := renderFinishedSemaphores s;
     inFlightFences := inFlightFences s |}.

Definition with_sync (ias rfs iffs : list handle) (s : State) : State :=
  {| driver := driver s; calls := calls s; fences := fences s;
     semaphores := semaphores s; pending := pending s;
     deviceLost := deviceLost s; graphicsFamily := graphicsFamily s;
     commandPool := commandPool s; commandBuffers := commandBuffers s;
     imageAvailableSemaphores := ias;
     renderFinishedSemaphores := rfs;
     inFlightFences := iffs |}.

Definition log (c : Call) : M State unit :=
  modify (fun s =>
    with_device (driver s) (calls s ++ [c]) (fences s) (semaphores s) (pending s) s).

Definition pop_result : M State bool :=
  fun s =>
    let '(ok, d) := driver_pop (driver s) in
    (Ret ok, with_device d (calls s) (fences s) (semaphores s) (pending s) s).

Definition fresh : M State handle :=
  fun s =>
    let '(h, d) := driver_fresh (driver s) in
    (Ret h, with_device d (calls s) (fences s) (semaphores s) (pending s) s).

Fixpoint fresh_n (n : nat) : M State (list handle) :=
  match n with
  | O => ret []
  | S n' => bind fresh (fun h => bind (fresh_n n') (fun hs => ret (h :: hs)))
  end.

Local Open Scope cpp_scope.

(** [CommandBufferManager::createCommandPool] *)
Definition createCommandPool : M State unit :=
  family <- gets graphicsFamily ;;
  match family with
  | None => throw bad_optional_access
  | Some queueFamilyIndex =>
      ok <- pop_result ;;
      log (vkCreateCommandPool VK_COMMAND_POOL_CREATE_RESET_COMMAND_BUFFER_BIT
             queueFamilyIndex ok) ;;;
      if ok then
        pool <- fresh ;;
        modify (fun s => with_commands pool (commandBuffers s) s)
      else
        throw (runtime_error "Failed to create command pool!: Error code: ")
  end.

(** The [createSemaphore] lambda of [createSyncObjects]: the create
    info carries no flags, and a semaphore starts unsignaled. *)
Definition createSemaphore : M State handle :=
  ok <- pop_result ;;
  log (vkCreateSemaphore 0 ok) ;;;
  if ok then
    semaphore <- fresh ;;
    modify (fun s =>
      with_device (driver s) (calls s) (fences s)
        (<[semaphore := false]> (semaphores s)) (pending s) s) ;;;
    ret semaphore
  else throw (runtime_error "failed to create semaphore!").

(** [vkCreateFence]: the new fence is signaled exactly when the create
    info carries [VK_FENCE_CREATE_SIGNALED_BIT]. *)
Definition device_createFence (flags : Z) : M State (option handle) :=
  ok <- pop_result ;;
  log (vkCreateFence flags ok) ;;;
  if ok then
    fence <- fresh ;;
    modify (fun s =>
      with_device (driver s) (calls s)
        (<[fence := Z.testbit flags 0]> (fences s))
        (semaphores s) (pending s) s) ;;;
    ret (Some fence)
  else ret None.

(** The [createFence] lambda of [createSyncObjects]. *)
Definition createFence : M State handle :=
  let flags := VK_FENCE_CREATE_SIGNALED_BIT in
  created <- device_createFence flags ;;
  match created with
  | Some fence => ret fence
  | None => throw (runtime_error "failed to create fence!")
  end.

(** [CommandBufferManager::createSyncObjects] *)
Definition createSyncObjects : M State unit :=
  modify (fun s =>
    with_sync
      (vector_resize MAX_FRAMES_IN_FLIGHT VK_NULL_HANDLE (imageAvailableSemaphores s))
      (vector_resize MAX_FRAMES_IN_FLIGHT VK_NULL_HANDLE (renderFinishedSemaphores s))
      (vector_resize MAX_FRAMES_IN_FLIGHT VK_NULL_HANDLE (inFlightFences s)) s) ;;;
  for_each (seq 0 MAX_FRAMES_IN_FLIGHT) (fun i =>
    a <- createSemaphore ;;
    modify (fun s =>
      with_sync (<[i := a]> (imageAvailableSemaphores s))
        (renderFinishedSemaphores s) (inFlightFences s) s) ;;;
    r <- createSemaphore ;;
    modify (fun s =>
      with_sync (imageAvailableSemaphores s)
        (<[i := r]> (renderFinishedSemaphores s)) (inFlightFences s) s) ;;;
    f <- createFence ;;
    modify (fun s =>
      with_sync (imageAvailableSemaphores s) (renderFinishedSemaphores s)
        (<[i := f]> (inFlightFences s)) s)).

(** [CommandBufferManager::createCommandBuffers] *)
Definition createCommandBuffers : M State unit :=
  modify (fun s =>
    with_commands (commandPool s)
      (vector_resize MAX_FRAMES_IN_FLIGHT VK_NULL_HANDLE (commandBuffers s)) s) ;;;
  pool <- gets commandPool ;;
  count <- gets (fun s => to_uint32 (Z.of_nat (length (commandBuffers s)))) ;;
  ok <- pop_result ;;
  log (vkAllocateCommandBuffers pool count ok) ;;;
  if ok then
    buffers <- fresh_n (Z.to_nat count) ;;
    modify (fun s => with_commands (commandPool s) buffers s)
  else
    throw (runtime_error "Failed to create command pool!: Error code: ").

(** [CommandBufferManager::CommandBufferManager] *)
Definition constructor : M State unit :=
  modify (fun s =>
    with_sync
      (vector_resize MAX_FRAMES_IN_FLIGHT VK_NULL_HANDLE (imageAvailableSemaphores s))
      (vector_resize MAX_FRAMES_IN_FLIGHT VK_NULL_HANDLE (renderFinishedSemaphores s))
      (vector_resize MAX_FRAMES_IN_FLIGHT VK_NULL_HANDLE (inFlightFences s)) s) ;;;
  createCommandPool ;;;
  createSyncObjects ;;;
  createCommandBuffers.

(** [vkWaitForFences(device, 1, &fence, VK_TRUE, UINT64_MAX)]: a
    signaled fence is reported at once; an unsignaled one is waited
    for, which ends only if queued work signals it. *)
Definition device_waitForFence (fence : handle) (timeout : Z) : M State VkResult :=
  s <- get ;;
  if deviceLost s then ret VK_ERROR_DEVICE_LOST else
  match fences s !! fence with
  | None => undefined
  | Some true =>
      log (vkWaitForFences fence timeout false) ;;;
      ret VK_SUCCESS
  | Some false =>
      if bool_decide (fence ∈ pending s) then
        modify (fun s =>
          with_device (driver s) (calls s) (<[fence := true]> (fences s))
            (semaphores s) (filter (fun f => f ≠ fence) (pending s)) s) ;;;
        log (vkWaitForFences fence timeout true) ;;;
        ret VK_SUCCESS
      else if timeout =? UINT64_MAX then blocked
      else ret VK_TIMEOUT
  end.

(** [CommandBufferManager::waitForFences] *)
Definition waitForFences (frameIndex : Z) : M State unit :=
  fs <- gets inFlightFences ;;
  match fs !! Z.to_nat frameIndex with
  | None => undefined
  | Some fence =>
      result <- device_waitForFence fence UINT64_MAX ;;
      let msg := "Failed to wait for fence at frame index " +:+ pretty frameIndex
                 +:+ ". Error code: " +:+ pretty (VkResult_code result) in
      match result with
      | VK_SUCCESS => ret tt
      | _ => throw (runtime_error msg)
      end
  end.

End CommandBufferManager.

(** * Sample inputs *)

Module Samples.

Definition rgba_unorm_format : VkSurfaceFormatKHR :=
  {| format := 37; colorSpace := VK_COLOR_SPACE_SRGB_NONLINEAR_KHR |}.

(** A surface that leaves the extent to the swap chain. *)
Definition resized_surface : VkSurfaceCapabilitiesKHR :=
  {| minImageCount := 2; maxImageCount := 8;
     currentExtent := {| width := UINT32_MAX; height := UINT32_MAX |};
     minImageExtent := {| width := 64; height := 64 |};
     maxImageExtent := {| width := 1920; height := 1080 |};
     currentTransform := 1 |}.

(** A surface that dictates its extent. *)
Definition fixed_surface : VkSurfaceCapabilitiesKHR :=
  {| minImageCount := 2; maxImageCount := 8;
     currentExtent := {| width := 800; height := 600 |};
     minImageExtent := {| width := 64; height := 64 |};
     maxImageExtent := {| width := 1920; height := 1080 |};
     currentTransform := 1 |}.

(** A driver that has handed out handles below 100 and fails nothing. *)
Definition willing_driver : Driver := {| results := []; nextHandle := 100 |}.

(** A live swap chain [10] with two images and their views [11] and
    [12], on a window resized to 800 x 600. *)
Definition live_swap_chain : SwapChain.State :=
  {| SwapChain.surface :=
       {| SwapChain.support :=
            {| SwapChain.capabilities := fixed_surface;
               SwapChain.formats := [SwapChainSelect.preferred_format];
               SwapChain.presentModes := [VK_PRESENT_MODE_FIFO_KHR] |};
          SwapChain.framebufferSize := (800, 600);
          SwapChain.queueFamilies :=
            {| SwapChain.graphicsFamily := Some 0;
               SwapChain.presentFamily := Some 0 |};
          SwapChain.imagesFor := fun _ chain => [chain + 1000; chain + 2000] |};
     SwapChain.driver := willing_driver;
     SwapChain.calls := [];
     SwapChain.swapChain := 10;
     SwapChain.swapChainImages := [1; 2];
     SwapChain.swapChainImageFormat := VK_FORMAT_B8G8R8A8_SRGB;
     SwapChain.swapChainExtent := {| width := 640; height := 480 |};
     SwapChain.swapChainImageViews := [11; 12] |}.

End Samples.

Module BufferSamples.
Import BufferManager.

(** A [BufferManager] about to be constructed over a quad: nothing
    mapped, allocations mapped 4096 bytes apart.  The class does not
    initialise its four handle members; they are taken to hold null
    here. *)
Definition unbuilt (script : list bool) : State :=
  {| driver := {| results := script; nextHandle := 1 |};
     calls := []; stderr := []; heap := ∅;
     mapAddress := fun allocation => 4096 * allocation;
     commandPool := 7;
     vertices := ["001"%byte; "002"%byte; "003"%byte; "004"%byte];
     indices := ["000"%byte; "001"%byte];
     vertexBuffer := VK_NULL_HANDLE; vertexBufferAllocation := VK_NULL_HANDLE;
     indexBuffer := VK_NULL_HANDLE; indexBufferAllocation := VK_NULL_HANDLE;
     uniformBuffers := []; uniformBuffersMapped := []; uniformBuffersMemory := [] |}.

End BufferSamples.

Module UniformSamples.
Import BufferManager.

(** A constructed [BufferManager]: two uniform buffers, mapped at 4096
    and 8192. *)
Definition built : State :=
  {| driver := {| results := []; nextHandle := 9 |};
     calls := []; stderr := []; heap := ∅;
     mapAddress := fun allocation => 4096 * allocation;
     commandPool := 7;
     vertices := []; indices := [];
     vertexBuffer := 3; vertexBufferAllocation := 4;
     indexBuffer := 5; indexBufferAllocation := 6;
     uniformBuffers := [20; 22];
     uniformBuffersMapped := [4096; 8192];
     uniformBuffersMemory := [1; 2] |}.

(** The bytes of some [UniformBufferObject]. *)
Definition some_ubo : list byte :=
  replicate (Z.to_nat sizeof_UniformBufferObject) "042"%byte.

End UniformSamples.

(** * The staging protocol, step by step

    The sequence of calls a one-shot device-local texture upload is
    expected to make, written from the protocol's five steps, to be
    compared with what [TextureManager::createTextureImage] does. *)

Module StagingProtocol.
Import TextureManager.

(** Record, submit and wait for one single-use command buffer. *)
Definition single_time_commands (pool commandBuffer : handle) (recorded : Call)
    : list Call :=
  [ vkAllocateCommandBuffers pool commandBuffer;
    vkBeginCommandBuffer commandBuffer VK_COMMAND_BUFFER_USAGE_ONE_TIME_SUBMIT_BIT;
    recorded;
    vkEndCommandBuffer commandBuffer;
    vkQueueSubmit commandBuffer;
    vkQueueWaitIdle;
    vkFreeCommandBuffers pool commandBuffer ].

Definition to_transfer_dst (img : handle) : VkImageMemoryBarrier :=
  {| oldLayout := VK_IMAGE_LAYOUT_UNDEFINED;
     newLayout := VK_IMAGE_LAYOUT_TRANSFER_DST_OPTIMAL;
     image := img; aspectMask := VK_IMAGE_ASPECT_COLOR_BIT;
     srcAccessMask := 0; dstAccessMask := VK_ACCESS_TRANSFER_WRITE_BIT |}.

Definition to_shader_read_only (img : handle) : VkImageMemoryBarrier :=
  {| oldLayout := VK_IMAGE_LAYOUT_TRANSFER_DST_OPTIMAL;
     newLayout := VK_IMAGE_LAYOUT_SHADER_READ_ONLY_OPTIMAL;
     image := img; aspectMask := VK_IMAGE_ASPECT_COLOR_BIT;
     srcAccessMask := VK_ACCESS_TRANSFER_WRITE_BIT;
     dstAccessMask := VK_ACCESS_SHADER_READ_BIT |}.

(** The whole upload of a [w] x [h] RGBA image read from [path]:
    [stagingUsage] and [imageUsage] are the memory kinds of the staging
    buffer and of the image, [first] the first handle the driver hands
    out, [data] the address the staging memory is mapped at. *)
Definition staging_upload (path : string) (w h : Z)
    (stagingUsage imageUsage : VmaMemoryUsage)
    (pool first : handle) (data : Z) : list Call :=
  let stagingBuffer := first in
  let stagingMemory := first + 1 in
  let img := first + 2 in
  [ stbi_load path true;
    (* 1: staging buffer sized to the payload *)
    vmaCreateBuffer (w * h * 4) VK_BUFFER_USAGE_TRANSFER_SRC_BIT stagingUsage
      true stagingBuffer;
    (* 2: map, copy, unmap *)
    vmaMapMemory stagingMemory true;
    host_memcpy data (w * h * 4);
    vmaUnmapMemory stagingMemory;
    stbi_image_free;
    (* 3: the destination image *)
    vmaCreateImage w h VK_FORMAT_R8G8B8A8_SRGB VK_IMAGE_TILING_OPTIMAL
      (Z.lor VK_IMAGE_USAGE_TRANSFER_DST_BIT VK_IMAGE_USAGE_SAMPLED_BIT)
      imageUsage true img ]
  (* 4: transition, copy, transition *)
  ++ single_time_commands pool (first + 4)
       (vkCmdPipelineBarrier (first + 4) VK_PIPELINE_STAGE_TOP_OF_PIPE_BIT
          VK_PIPELINE_STAGE_TRANSFER_BIT (to_transfer_dst img))
  ++ single_time_commands pool (first + 5)
       (vkCmdCopyBufferToImage (first + 5) stagingBuffer img
          VK_IMAGE_LAYOUT_TRANSFER_DST_OPTIMAL w h)
  ++ single_time_commands pool (first + 6)
       (vkCmdPipelineBarrier (first + 6) VK_PIPELINE_STAGE_TRANSFER_BIT
          VK_PIPELINE_STAGE_FRAGMENT_SHADER_BIT (to_shader_read_only img))
  (* 5: the staging buffer goes *)
  ++ [ vmaDestroyBuffer stagingBuffer stagingMemory ].

End StagingProtocol.

Module TextureSamples.
Import TextureManager.

(** A 2 x 1 RGBA texture on disk. *)
Definition two_pixels : DecodedImage :=
  {| texWidth := 2; texHeight := 1;
     pixels := ["255"%byte; "000"%byte; "000"%byte; "255"%byte;
                "000"%byte; "255"%byte; "000"%byte; "255"%byte] |}.

(** A [TextureManager] before its first upload. *)
Definition unloaded : State :=
  {| driver := {| results := []; nextHandle := 50 |};
     calls := []; heap := ∅;
     mapAddress := fun allocation => 4096 * allocation;
     files := fun path =>
       if bool_decide (path = "texture.jpg") then Some two_pixels else None;
     commandPool := 7;
     textureMutex := false;
     imagePath := "texture.jpg";
     textureImage := VK_NULL_HANDLE;
     textureImageMemory := VK_NULL_HANDLE |}.

End TextureSamples.

Module DescriptorSamples.
Import DescriptorManager.

(** A [DescriptorManager] about to be constructed. *)
Definition unbuilt : State :=
  {| driver := {| results := []; nextHandle := 60 |};
     calls := []; layoutObjects := ∅; poolObjects := ∅;
     descriptorSetLayout := VK_NULL_HANDLE;
     descriptorPool := VK_NULL_HANDLE;
     descriptorSets := [] |}.

(** The same, against a driver that answers its calls as [script]
    says. *)
Definition scripted (script : list bool) : State :=
  {| driver := {| results := script; nextHandle := 60 |};
     calls := []; layoutObjects := ∅; poolObjects := ∅;
     descriptorSetLayout := VK_NULL_HANDLE;
     descriptorPool := VK_NULL_HANDLE;
     descriptorSets := [] |}.

End DescriptorSamples.

Module SyncSamples.
Import CommandBufferManager.

(** A [CommandBufferManager] about to be constructed on an idle device. *)
Definition unbuilt : State :=
  {| driver := {| results := []; nextHandle := 70 |};
     calls := []; fences := ∅; semaphores := ∅; pending := [];
     deviceLost := false;
     graphicsFamily := Some 0;
     commandPool := VK_NULL_HANDLE; commandBuffers := [];
     imageAvailableSemaphores := []; renderFinishedSemaphores := [];
     inFlightFences := [] |}.

End SyncSamples.

(** * Vocabulary of the properties *)

(** [m] leaves the observation [obs] of the state as it found it. *)
Definition preserves {St Obs A} (obs : St -> Obs) (m : M St A) : Prop :=
  forall s, obs (snd (m s)) = obs s.

(** [m] never leaves through an exception. *)
Definition nothrow {St A} (m : M St A) : Prop :=
  forall s, is_throw (fst (m s)) = false.

(** [m] leaves through no exception other than [std::runtime_error]. *)
Definition runtime_only {St A} (m : M St A) : Prop :=
  forall s e, fst (m s) = Throw e -> exists what, e = runtime_error what.

Module SwapChainFacts.
Import SwapChain.

(** The destroy calls a swap chain has issued so far. *)
Definition destroyed (s : State) : list VkCall := filter (fun c => is_destroy c = true) (calls s).

End SwapChainFacts.

Module BufferFacts.
Import BufferManager.

(** What a failed first [vmaCreateBuffer] leaves of a construction step:
    the call is on record, one line is on [stderr], no member moved. *)
Definition after_failed_staging (size : Z) (s : State) : State :=
  with_device
    (snd (driver_pop (driver s)))
    (calls s ++ [vmaCreateBuffer size VK_BUFFER_USAGE_TRANSFER_SRC_BIT
                   VMA_MEMORY_USAGE_CPU_ONLY false])
    (stderr s ++ ["Error: Failed to create buffer!"])
    (heap s) s.

(** What a failed first [vmaCreateBuffer] leaves of
    [createUniformBuffers]: the vectors resized, the call on record, one
    line on [stderr]. *)
Definition after_failed_uniform (s : State) : State :=
  with_device
    (snd (driver_pop (driver s)))
    (calls s ++ [vmaCreateBuffer sizeof_UniformBufferObject
                   VK_BUFFER_USAGE_UNIFORM_BUFFER_BIT VMA_MEMORY_USAGE_CPU_TO_GPU false])
    (stderr s ++ ["Error: Failed to create buffer!"])
    (heap s)
    (with_uniform
       (vector_resize MAX_FRAMES_IN_FLIGHT VK_NULL_HANDLE (uniformBuffers s))
       (vector_resize MAX_FRAMES_IN_FLIGHT 0 (uniformBuffersMapped s))
       (vector_resize MAX_FRAMES_IN_FLIGHT VK_NULL_HANDLE (uniformBuffersMemory s))
       s).

(** The state after the copy: the heap alone moves. *)
Definition with_heap (h : gmap Z byte) (s : State) : State :=
  with_device (driver s) (calls s) (stderr s) h s.

(** A construction step that turns its failures into a status, as its
    caller sees it from [s]: it returns a [bool], having issued some
    calls and written some lines to [stderr]; [true] comes with no
    line and no refused [vmaCreateBuffer], and a refused
    [vmaCreateBuffer] comes with [false] and the one line of
    [createBuffer]'s runtime error. *)
Definition failure_becomes_status (m : M State bool) (s : State) : Prop :=
  exists (built : bool) (issued : list VmaCall) (lines : list string),
    fst (m s) = Ret built
    /\ calls (snd (m s)) = calls s ++ issued
    /\ stderr (snd (m s)) = stderr s ++ lines
    /\ (built = true -> lines = [] /\ existsb is_failed_create issued = false)
    /\ (built = false -> length lines = 1%nat)
    /\ (existsb is_failed_create issued = true ->
        built = false /\ lines = ["Error: Failed to create buffer!"]).

End BufferFacts.

Module DescriptorFacts.
Import DescriptorManager.

(** The fixed two-binding layout, and a pool for [n] sets with [n]
    descriptors of either type. *)
Definition two_binding_layout : list VkDescriptorSetLayoutBinding :=
  [ {| binding := 0; descriptorType := VK_DESCRIPTOR_TYPE_UNIFORM_BUFFER;
       descriptorCount := 1; stageFlags := VK_SHADER_STAGE_VERTEX_BIT;
       pImmutableSamplers := 0 |};
    {| binding := 1; descriptorType := VK_DESCRIPTOR_TYPE_COMBINED_IMAGE_SAMPLER;
       descriptorCount := 1; stageFlags := VK_SHADER_STAGE_FRAGMENT_BIT;
       pImmutableSamplers := 0 |} ].

Definition pool_for (n : Z) : VkDescriptorPoolCreateInfo :=
  {| pPoolSizes :=
       [ {| type := VK_DESCRIPTOR_TYPE_UNIFORM_BUFFER; poolDescriptorCount := n |};
         {| type := VK_DESCRIPTOR_TYPE_COMBINED_IMAGE_SAMPLER;
            poolDescriptorCount := n |} ];
     maxSets := n |}.

End DescriptorFacts.

Module SyncFacts.
Import CommandBufferManager.

(** The state [waitForFences] leaves when the fence was signaled
    already: one more call on record, nothing else. *)
Definition after_immediate_wait (fence : handle) (s : State) : State :=
  with_device (driver s) (calls s ++ [vkWaitForFences fence UINT64_MAX false])
    (fences s) (semaphores s) (pending s) s.

(** A [CommandBufferManager] at the entry of its constructor: the
    vectors are empty. *)
Definition unconstructed (s : State) : Prop :=
  commandBuffers s = []
  /\ imageAvailableSemaphores s = []
  /\ renderFinishedSemaphores s = []
  /\ inFlightFences s = [].

(** The states the creations leave behind when the driver serves them. *)
Definition pool_created (family : Z) (s : State) : State :=
  with_commands (nextHandle (driver s)) (commandBuffers s)
    (with_device (driver_served (driver s))
       (calls s ++ [vkCreateCommandPool
                      VK_COMMAND_POOL_CREATE_RESET_COMMAND_BUFFER_BIT family true])
       (fences s) (semaphores s) (pending s) s).

Definition semaphore_created (s : State) : State :=
  with_device (driver_served (driver s))
    (calls s ++ [vkCreateSemaphore 0 true])
    (fences s) (<[nextHandle (driver s) := false]> (semaphores s)) (pending s) s.

Definition fence_created (s : State) : State :=
  with_device (driver_served (driver s))
    (calls s ++ [vkCreateFence VK_FENCE_CREATE_SIGNALED_BIT true])
    (<[nextHandle (driver s) := true]> (fences s)) (semaphores s) (pending s) s.

Definition buffers_created (s : State) : State :=
  with_commands (commandPool s)
    [nextHandle (driver s); nextHandle (driver s) + 1]
    (with_device (snd (driver_fresh (driver_served (driver s))))
       (calls s ++ [vkAllocateCommandBuffers (commandPool s) 2 true])
       (fences s) (semaphores s) (pending s) s).

(** One turn of the loop of [createSyncObjects], served. *)
Definition slot_created (i : nat) (s : State) : State :=
  let s1 := semaphore_created s in
  let s2 := with_sync (<[i := nextHandle (driver s)]> (imageAvailableSemaphores s1))
              (renderFinishedSemaphores s1) (inFlightFences s1) s1 in
  let s3 := semaphore_created s2 in
  let s4 := with_sync (imageAvailableSemaphores s3)
              (<[i := nextHandle (driver s2)]> (renderFinishedSemaphores s3))
              (inFlightFences s3) s3 in
  let s5 := fence_created s4 in
  with_sync (imageAvailableSemaphores s5) (renderFinishedSemaphores s5)
    (<[i := nextHandle (driver s4)]> (inFlightFences s5)) s5.

Definition sync_resized (s : State) : State :=
  with_sync
    (vector_resize MAX_FRAMES_IN_FLIGHT VK_NULL_HANDLE (imageAvailableSemaphores s))
    (vector_resize MAX_FRAMES_IN_FLIGHT VK_NULL_HANDLE (renderFinishedSemaphores s))
    (vector_resize MAX_FRAMES_IN_FLIGHT VK_NULL_HANDLE (inFlightFences s)) s.

Definition sync_created (s : State) : State :=
  slot_created 1 (slot_created 0 (sync_resized s)).

End SyncFacts.

(** * Vocabulary of the further properties *)

(** [m] only appends to the log, and what it appends satisfies [P]. *)
Definition extends {St C A} (log : St -> list C) (P : C -> Prop) (m : M St A) : Prop :=
  forall s, exists added, log (snd (m s)) = log s ++ added /\ Forall P added.

Module SwapChainMore.
Import SwapChain.

(** The state with [cs] appended to the calls made so far. *)
Definition logged (cs : list VkCall) (s : State) : State :=
  {| surface := surface s; driver := driver s; calls := calls s ++ cs;
     swapChain := swapChain s; swapChainImages := swapChainImages s;
     swapChainImageFormat := swapChainImageFormat s;
     swapChainExtent := swapChainExtent s;
     swapChainImageViews := swapChainImageViews s |}.

(** The state with other image views. *)
Definition viewed (views : list handle) (s : State) : State :=
  {| surface := surface s; driver := driver s; calls := calls s;
     swapChain := swapChain s; swapChainImages := swapChainImages s;
     swapChainImageFormat := swapChainImageFormat s;
     swapChainExtent := swapChainExtent s;
     swapChainImageViews := views |}.

(** [SwapChain::cleanupImageViews] *)
Definition cleanupImageViews : M State unit :=
  bind (gets swapChainImageViews) (fun views =>
    for_each views (fun imageView => log (vkDestroyImageView imageView))).

(** [SwapChain::SwapChain] *)
Definition constructor : M State unit :=
  bind createSwapChain (fun _ => createImageViews).

(** [SwapChain::~SwapChain] *)
Definition destructor : M State unit :=
  bind cleanupImageViews (fun _ =>
    bind (gets swapChain) (fun chain => log (vkDestroySwapchainKHR chain))).

(** A call that creates or queries, as opposed to one that destroys. *)
Definition creates : VkCall -> Prop := fun c => is_destroy c = false.

(** The state after [createImageView] was served for the image at [i]. *)
Definition view_created (i : nat) (image : handle) (s : State) : State :=
  viewed (<[i := nextHandle (driver s)]> (swapChainImageViews s))
    (logged [vkCreateImageView image (swapChainImageFormat s) true]
       (set_driver (driver_served (driver s)) s)).

(** The handles a driver hands out over its next [n] creations. *)
Definition fresh_handles (n : nat) (d : Driver) : list handle :=
  map (fun j => nextHandle d + Z.of_nat j) (seq 0 n).

(** The state whose driver answers its next calls with [script]. *)
Definition scripted (script : list bool) (s : State) : State :=
  set_driver {| results := script; nextHandle := nextHandle (driver s) |} s.

End SwapChainMore.

(** ** [findMemoryType] ([graphics.cpp])

    [TextureManager::findMemoryType] and
    [GraphicsPipeline::findMemoryType] have the same body. *)

Module MemoryTypes.

Definition VK_MAX_MEMORY_TYPES : nat := 32.

(** [VkPhysicalDeviceMemoryProperties]: the property flags of the
    [memoryTypes] array and the count of its entries in use. *)
Record VkPhysicalDeviceMemoryProperties : Type := {
  memoryTypeCount : Z;
  memoryTypes : list Z
}.

(** The loop of [findMemoryType] from index [i] on, [remaining]
    iterations at most.  [1 << i] is an [int] shifted by [i]: from 32
    on the shift is undefined, and so is reading past the array. *)
Fixpoint findMemoryType_loop (memProperties : VkPhysicalDeviceMemoryProperties)
    (typeFilter properties : Z) (i : Z) (remaining : nat) : outcome Z :=
  match remaining with
  | O => Throw (runtime_error "failed to find suitable memory type!")
  | S remaining =>
      if 32 <=? i then Undefined
      else if negb (Z.land typeFilter (Z.shiftl 1 i) =? 0)
      then match memoryTypes memProperties !! Z.to_nat i with
           | None => Undefined
           | Some propertyFlags =>
               if Z.land propertyFlags properties =? properties then Ret i
               else findMemoryType_loop memProperties typeFilter properties
                      (i + 1) remaining
           end
      else findMemoryType_loop memProperties typeFilter properties (i + 1) remaining
  end.

Definition findMemoryType (memProperties : VkPhysicalDeviceMemoryProperties)
    (typeFilter properties : Z) : outcome Z :=
  findMemoryType_loop memProperties typeFilter properties 0
    (Z.to_nat (memoryTypeCount memProperties)).

(** Memory type [i] is allowed by the filter and has all the wanted
    properties. *)
Definition suitable (memProperties : VkPhysicalDeviceMemoryProperties)
    (typeFilter properties : Z) (i : Z) : Prop :=
  Z.testbit typeFilter i = true
  /\ exists propertyFlags,
       memoryTypes memProperties !! Z.to_nat i = Some propertyFlags
       /\ Z.land propertyFlags properties = properties.

(** A device with a host-visible type 0 and a device-local type 1. *)
Definition two_types : VkPhysicalDeviceMemoryProperties :=
  {| memoryTypeCount := 2; memoryTypes := [6; 1] ++ replicate 30 0 |}.

End MemoryTypes.

(** ** [SamplerManager] ([graphics.cpp]) *)

Module SamplerManager.

Definition VK_FILTER_LINEAR : Z := 1.
Definition VK_SAMPLER_ADDRESS_MODE_REPEAT : Z := 0.
Definition VK_BORDER_COLOR_INT_OPAQUE_BLACK : Z := 3.
Definition VK_COMPARE_OP_ALWAYS : Z := 7.
Definition VK_SAMPLER_MIPMAP_MODE_LINEAR : Z := 1.

Record VkSamplerCreateInfo : Type := {
  magFilter : Z;
  minFilter : Z;
  addressModeU : Z;
  addressModeV : Z;
  addressModeW : Z;
  anisotropyEnable : bool;
  maxAnisotropy : Z;
  borderColor : Z;
  unnormalizedCoordinates : bool;
  compareEnable : bool;
  compareOp : Z;
  mipmapMode : Z
}.

Inductive Call : Type :=
  | vkCreateSampler (samplerInfo : VkSamplerCreateInfo) (ok : bool)
  | vkDestroySampler (sampler : handle).

Record State : Type := {
  driver : Driver;
  calls : list Call;
  (** [properties.limits.maxSamplerAnisotropy] of the physical device *)
  maxSamplerAnisotropy : Z;
  samplers : gmap string handle;
  samplerMutex : bool
}.

Definition with_device (d : Driver) (c : list Call) (s : State) : State :=
  {| driver := d; calls := c; maxSamplerAnisotropy := maxSamplerAnisotropy s;
     samplers := samplers s; samplerMutex := samplerMutex s |}.

Definition with_samplers (m : gmap string handle) (s : State) : State :=
  {| driver := driver s; calls := calls s;
     maxSamplerAnisotropy := maxSamplerAnisotropy s;
     samplers := m; samplerMutex := samplerMutex s |}.

Definition with_mutex (held : bool) (s : State) : State :=
  {| driver := driver s; calls := calls s;
     maxSamplerAnisotropy := maxSamplerAnisotropy s;
     samplers := samplers s; samplerMutex := held |}.

Definition log (c : Call) : M State unit :=
  modify (fun s => with_device (driver s) (calls s ++ [c]) s).

Definition pop_result : M State bool :=
  fun s =>
    let '(ok, d) := driver_pop (driver s) in
    (Ret ok, with_device d (calls s) s).

Definition fresh : M State handle :=
  fun s =>
    let '(h, d) := driver_fresh (driver s) in
    (Ret h, with_device d (calls s) s).

(** [std::lock_guard<std::mutex> lock(samplerMutex);] around the rest
    of the body: locking a mutex the thread already holds is undefined,
    and the guard releases on return and on throw alike. *)
Definition lock_guard {A} (body : M State A) : M State A :=
  fun s =>
    if samplerMutex s then (Undefined, s)
    else
      let '(r, s') := body (with_mutex true s) in
      (r, with_mutex false s').

Local Open Scope cpp_scope.

(** [SamplerManager::~SamplerManager]; the map is walked in the order
    of its entries. *)
Definition destructor : M State unit :=
  lock_guard (
    entries <- gets (fun s => map_to_list (samplers s)) ;;
    for_each entries (fun sampler => log (vkDestroySampler (snd sampler)))).

(** [SamplerManager::getSampler] *)
Definition getSampler (samplerKey : string) : M State handle :=
  lock_guard (
    it <- gets (fun s => samplers s !! samplerKey) ;;
    match it with
    | Some sampler => ret sampler
    | None => throw (runtime_error ("Sampler not found: " +:+ samplerKey))
    end).

(** [SamplerManager::createSampler] *)
Definition createSampler (samplerKey : string) : M State handle :=
  lock_guard (
    limit <- gets maxSamplerAnisotropy ;;
    let samplerInfo :=
      {| magFilter := VK_FILTER_LINEAR;
         minFilter := VK_FILTER_LINEAR;
         addressModeU := VK_SAMPLER_ADDRESS_MODE_REPEAT;
         addressModeV := VK_SAMPLER_ADDRESS_MODE_REPEAT;
         addressModeW := VK_SAMPLER_ADDRESS_MODE_REPEAT;
         anisotropyEnable := true;
         maxAnisotropy := limit;
         borderColor := VK_BORDER_COLOR_INT_OPAQUE_BLACK;
         unnormalizedCoordinates := false;
         compareEnable := false;
         compareOp := VK_COMPARE_OP_ALWAYS;
         mipmapMode := VK_SAMPLER_MIPMAP_MODE_LINEAR |} in
    ok <- pop_result ;;
    log (vkCreateSampler samplerInfo ok) ;;;
    if ok then
      sampler <- fresh ;;
      modify (fun s => with_samplers (<[samplerKey := sampler]> (samplers s)) s) ;;;
      ret sampler
    else throw (runtime_error "failed to create texture sampler!")).

(** A manager that made sampler [5] under the key [default]. *)
Definition one_sampler (script : list bool) : State :=
  {| driver := {| results := script; nextHandle := 6 |};
     calls := []; maxSamplerAnisotropy := 16;
     samplers := {[ "default" := 5 ]}; samplerMutex := false |}.

End SamplerManager.

(** ** [TextureManager]: the image view, reloading and teardown
    ([graphics.cpp]) *)

Module TextureManagerMore.
Import TextureManager.

(** The calls on the image and its view outside the upload; they are
    logged apart from the upload's calls. *)
Inductive ViewCall : Type :=
  | vmaDestroyImage (img mem : handle)
  | vkDestroyImageView (imageView : handle)
  | vkCreateImageView (img : handle) (fmt : VkFormat) (ok : bool).

(** A [TextureManager] with its image view. *)
Record Texture : Type := {
  manager : State;
  textureImageView : handle;
  viewCalls : list ViewCall
}.

Definition with_manager (s : State) (t : Texture) : Texture :=
  {| manager := s; textureImageView := textureImageView t;
     viewCalls := viewCalls t |}.

Definition with_view (imageView : handle) (t : Texture) : Texture :=
  {| manager := manager t; textureImageView := imageView;
     viewCalls := viewCalls t |}.

Definition with_path (path : string) (s : State) : State :=
  {| driver := driver s; calls := calls s; heap := heap s;
     mapAddress := mapAddress s; files := files s;
     commandPool := commandPool s; textureMutex := textureMutex s;
     imagePath := path;
     textureImage := textureImage s;
     textureImageMemory := textureImageMemory s |}.

(** A member function of the upload, run on the manager. *)
Definition lift {A} (m : M State A) : M Texture A :=
  fun t => let '(r, s') := m (manager t) in (r, with_manager s' t).

Definition log_view (c : ViewCall) : M Texture unit :=
  modify (fun t =>
    {| manager := manager t; textureImageView := textureImageView t;
       viewCalls := viewCalls t ++ [c] |}).

(** [std::lock_guard<std::mutex> lock(textureMutex);] in a member
    function that also touches the view. *)
Definition lock_guard_texture {A} (body : M Texture A) : M Texture A :=
  fun t =>
    if textureMutex (manager t) then (Undefined, t)
    else
      let '(r, t') := body (with_manager (with_mutex true (manager t)) t) in
      (r, with_manager (with_mutex false (manager t')) t').

Local Open Scope cpp_scope.

(** [TextureManager::createImageView] *)
Definition createImageView (img : handle) (fmt : VkFormat) : M Texture handle :=
  ok <- lift pop_result ;;
  log_view (vkCreateImageView img fmt ok) ;;;
  if ok then lift fresh
  else throw (runtime_error "failed to create texture image view!").

(** [TextureManager::createTextureImageView] *)
Definition createTextureImageView : M Texture unit :=
  imageView <- gets textureImageView ;;
  if negb (imageView =? VK_NULL_HANDLE) then ret tt
  else
    img <- gets (fun t => textureImage (manager t)) ;;
    imageView <- createImageView img VK_FORMAT_R8G8B8A8_SRGB ;;
    modify (with_view imageView).

(** [TextureManager::~TextureManager] *)
Definition destructor : M Texture unit :=
  imageView <- gets textureImageView ;;
  (if negb (imageView =? VK_NULL_HANDLE) then
     log_view (vkDestroyImageView imageView) ;;;
     modify (with_view VK_NULL_HANDLE)
   else ret tt) ;;;
  img <- gets (fun t => textureImage (manager t)) ;;
  mem <- gets (fun t => textureImageMemory (manager t)) ;;
  if negb (img =? VK_NULL_HANDLE) && negb (mem =? VK_NULL_HANDLE) then
    log_view (vmaDestroyImage img mem) ;;;
    lift (modify (with_texture VK_NULL_HANDLE VK_NULL_HANDLE))
  else ret tt.

(** [TextureManager::reloadTexture] *)
Definition reloadTexture (newImagePath : string) : M Texture unit :=
  lock_guard_texture (
    img <- gets (fun t => textureImage (manager t)) ;;
    mem <- gets (fun t => textureImageMemory (manager t)) ;;
    (if negb (img =? VK_NULL_HANDLE) && negb (mem =? VK_NULL_HANDLE) then
       log_view (vmaDestroyImage img mem) ;;;
       lift (modify (with_texture VK_NULL_HANDLE VK_NULL_HANDLE))
     else ret tt) ;;;
    imageView <- gets textureImageView ;;
    (if negb (imageView =? VK_NULL_HANDLE) then
       log_view (vkDestroyImageView imageView) ;;;
       modify (with_view VK_NULL_HANDLE)
     else ret tt) ;;;
    lift (modify (with_path newImagePath)) ;;;
    lift createTextureImage ;;;
    createTextureImageView).

(** What teardown releases of an image, its memory and its view. *)
Definition released (img mem imageView : handle) : list ViewCall :=
  (if negb (imageView =? VK_NULL_HANDLE) then [vkDestroyImageView imageView] else [])
  ++ (if negb (img =? VK_NULL_HANDLE) && negb (mem =? VK_NULL_HANDLE)
      then [vmaDestroyImage img mem] else []).

(** A texture in use: image [51] in memory [52], viewed through [53]. *)
Definition loaded : Texture :=
  {| manager :=
       with_device {| results := []; nextHandle := 54 |} [] ∅
         (with_texture 51 52 TextureSamples.unloaded);
     textureImageView := 53;
     viewCalls := [] |}.

End TextureManagerMore.

(** ** [BufferManager]: teardown ([graphics.cpp]) *)

Module BufferManagerMore.
Import BufferManager.
Local Open Scope cpp_scope.

(** [BufferManager::~BufferManager] *)
Definition destructor : M State unit :=
  for_each (seq 0 MAX_FRAMES_IN_FLIGHT) (fun i =>
    bs <- gets uniformBuffers ;;
    match bs !! i with
    | None => undefined
    | Some b =>
        if negb (b =? VK_NULL_HANDLE) then
          ps <- gets uniformBuffersMapped ;;
          ms <- gets uniformBuffersMemory ;;
          match ps !! i, ms !! i with
          | Some p, Some m =>
              (if negb (p =? 0) then unmapMemory m else ret tt) ;;;
              destroyBuffer b m
          | _, _ => undefined
          end
        else ret tt
    end) ;;;
  vb <- gets vertexBuffer ;;
  va <- gets vertexBufferAllocation ;;
  (if negb (vb =? VK_NULL_HANDLE) then destroyBuffer vb va else ret tt) ;;;
  ib <- gets indexBuffer ;;
  ia <- gets indexBufferAllocation ;;
  (if negb (ib =? VK_NULL_HANDLE) then destroyBuffer ib ia else ret tt).

(** The state with [cs] appended to the calls made so far. *)
Definition logged (cs : list VmaCall) (s : State) : State :=
  with_device (driver s) (calls s ++ cs) (stderr s) (heap s) s.

(** The driver after [popped] fallible calls that handed out [made]
    handles between them. *)
Definition driver_after (popped : nat) (made : Z) (d : Driver) : Driver :=
  {| results := drop popped (results d); nextHandle := nextHandle d + made |}.

(** The state [createDeviceLocalBuffer] leaves when every step is
    served: the payload staged in buffer [n], copied to the new
    device-local buffer [n + 2], and the staging buffer destroyed. *)
Definition device_local_built (payload : list byte) (usageBit : Z)
    (store : handle -> handle -> State -> State) (s : State) : State :=
  let n := nextHandle (driver s) in
  let size := Z.of_nat (length payload) in
  store (n + 2) (n + 3)
    (with_device (driver_after 3 4 (driver s))
       (calls s
        ++ [ vmaCreateBuffer size VK_BUFFER_USAGE_TRANSFER_SRC_BIT
               VMA_MEMORY_USAGE_CPU_ONLY true;
             vmaMapMemory (n + 1) true;
             vmaUnmapMemory (n + 1);
             vmaCreateBuffer size (Z.lor VK_BUFFER_USAGE_TRANSFER_DST_BIT usageBit)
               VMA_MEMORY_USAGE_GPU_ONLY true;
             copyBufferCmd n (n + 2) size (commandPool s);
             vmaDestroyBuffer n (n + 1) ])
       (stderr s) (memcpy (heap s) (mapAddress s (n + 1)) payload) s).

Definition uniform_create : VmaCall :=
  vmaCreateBuffer sizeof_UniformBufferObject VK_BUFFER_USAGE_UNIFORM_BUFFER_BIT
    VMA_MEMORY_USAGE_CPU_TO_GPU true.

(** The state [createUniformBuffers] leaves when every step is served. *)
Definition uniform_built (s : State) : State :=
  let n := nextHandle (driver s) in
  with_uniform [n; n + 2] [mapAddress s (n + 1); mapAddress s (n + 3)] [n + 1; n + 3]
    (with_device (driver_after 4 4 (driver s))
       (calls s ++ [ uniform_create; vmaMapMemory (n + 1) true;
                     uniform_create; vmaMapMemory (n + 3) true ])
       (stderr s) (heap s) s).

(** The state [createUniformBuffers] leaves when the driver refuses
    its call number [k] (from 1) after serving the ones before: the
    mapping of the first buffer, the creation of the second, or the
    mapping of the second. *)
Definition uniform_interrupted (k : nat) (s : State) : State :=
  let n := nextHandle (driver s) in
  let ubs := vector_resize MAX_FRAMES_IN_FLIGHT VK_NULL_HANDLE (uniformBuffers s) in
  let ums := vector_resize MAX_FRAMES_IN_FLIGHT VK_NULL_HANDLE (uniformBuffersMemory s) in
  match k with
  | 1%nat =>
      with_uniform (<[0%nat := n]> ubs) [0; 0] (<[0%nat := n + 1]> ums)
        (with_device (driver_after 2 2 (driver s))
           (calls s ++ [ uniform_create; vmaMapMemory (n + 1) false;
                         vmaDestroyBuffer n (n + 1) ])
           (stderr s ++ ["Error: Failed to map memory!"]) (heap s) s)
  | 2%nat =>
      with_uniform (<[0%nat := n]> ubs) [mapAddress s (n + 1); 0]
        (<[0%nat := n + 1]> ums)
        (with_device (driver_after 3 2 (driver s))
           (calls s ++ [ uniform_create; vmaMapMemory (n + 1) true;
                         vmaCreateBuffer sizeof_UniformBufferObject
                           VK_BUFFER_USAGE_UNIFORM_BUFFER_BIT
                           VMA_MEMORY_USAGE_CPU_TO_GPU false;
                         vmaDestroyBuffer n (n + 1) ])
           (stderr s ++ ["Error: Failed to create buffer!"]) (heap s) s)
  | _ =>
      with_uniform [n; n + 2] [mapAddress s (n + 1); 0] [n + 1; n + 3]
        (with_device (driver_after 4 4 (driver s))
           (calls s ++ [ uniform_create; vmaMapMemory (n + 1) true;
                         uniform_create; vmaMapMemory (n + 3) false;
                         vmaDestroyBuffer n (n + 1);
                         vmaDestroyBuffer (n + 2) (n + 3) ])
           (stderr s ++ ["Error: Failed to map memory!"]) (heap s) s)
  end.

(** The constructor's first step: two of the three vectors sized. *)
Definition sized (s : State) : State :=
  with_uniform
    (vector_resize MAX_FRAMES_IN_FLIGHT VK_NULL_HANDLE (uniformBuffers s))
    (uniformBuffersMapped s)
    (vector_resize MAX_FRAMES_IN_FLIGHT VK_NULL_HANDLE (uniformBuffersMemory s))
    s.

(** What the destructor issues for one frame's uniform buffer. *)
Definition released_frame (b : handle) (p : Z) (m : handle) : list VmaCall :=
  if negb (b =? VK_NULL_HANDLE)
  then (if negb (p =? 0) then [vmaUnmapMemory m] else []) ++ [vmaDestroyBuffer b m]
  else [].

(** What the destructor issues for the vertex or the index buffer. *)
Definition released_buffer (b a : handle) : list VmaCall :=
  if negb (b =? VK_NULL_HANDLE) then [vmaDestroyBuffer b a] else [].

(** The vectors as the constructor has them before it builds the
    uniform buffers. *)
Definition members_sized (s : State) : Prop :=
  uniformBuffers s = [VK_NULL_HANDLE; VK_NULL_HANDLE]
  /\ uniformBuffersMapped s = []
  /\ uniformBuffersMemory s = [VK_NULL_HANDLE; VK_NULL_HANDLE].

(** The members of a manager whose constructor has not run yet. *)
Definition unbuilt (s : State) : Prop :=
  uniformBuffers s = [] /\ uniformBuffersMapped s = []
  /\ uniformBuffersMemory s = [].

Definition destroys (b : handle) (c : VmaCall) : bool :=
  match c with
  | vmaDestroyBuffer b' _ => b' =? b
  | _ => false
  end.

(** How often [cs] destroy the buffer [b]. *)
Definition destroy_count (b : handle) (cs : list VmaCall) : nat :=
  length (List.filter (destroys b) cs).

End BufferManagerMore.

(** ** [CommandBufferManager]: resetting a fence ([graphics.cpp]) *)

Module CommandBufferManagerMore.
Import CommandBufferManager.
Local Open Scope cpp_scope.

Definition VK_ERROR_OUT_OF_DEVICE_MEMORY : Z := -2.

(** [vkResetFences(device, 1, &fence)]: the fence becomes unsignaled,
    or the driver reports that it ran out of memory.  Resetting a
    fence that queued work is still to signal is not valid usage.  The
    result code is returned; [calls] keeps no record of resets, they
    show in [fences]. *)
Definition device_resetFence (fence : handle) : M State Z :=
  s <- get ;;
  match fences s !! fence with
  | None => undefined
  | Some _ =>
      if bool_decide (fence ∈ pending s) then undefined
      else
        ok <- pop_result ;;
        if ok then
          modify (fun s =>
            with_device (driver s) (calls s) (<[fence := false]> (fences s))
              (semaphores s) (pending s) s) ;;;
          ret 0
        else ret VK_ERROR_OUT_OF_DEVICE_MEMORY
  end.

(** [CommandBufferManager::resetFences] *)
Definition resetFences (frameIndex : Z) : M State unit :=
  fs <- gets inFlightFences ;;
  match fs !! Z.to_nat frameIndex with
  | None => undefined
  | Some fence =>
      result <- device_resetFence fence ;;
      let msg := "Failed to reset fence at frame index " +:+ pretty frameIndex
                 +:+ ". Error code: " +:+ pretty result in
      if result =? 0 then ret tt else throw (runtime_error msg)
  end.

(** The manager [SyncSamples.unbuilt] once constructed, on an idle
    device: fence [73] of frame 0 and fence [76] of frame 1 are
    signaled. *)
Definition idle : State :=
  {| driver := {| results := []; nextHandle := 79 |};
     calls := []; fences := {[ 73 := true; 76 := true ]};
     semaphores := {[ 71 := false; 72 := false; 74 := false; 75 := false ]};
     pending := [];
     deviceLost := false;
     graphicsFamily := Some 0;
     commandPool := 70; commandBuffers := [77; 78];
     imageAvailableSemaphores := [71; 74]; renderFinishedSemaphores := [72; 75];
     inFlightFences := [73; 76] |}.

End CommandBufferManagerMore.

(** ** [VulkanPhysicalDevice] ([devices.cpp]) *)

Module VulkanPhysicalDevice.

Definition VK_PHYSICAL_DEVICE_TYPE_DISCRETE_GPU : Z := 2.
Definition VK_KHR_SWAPCHAIN_EXTENSION_NAME : string := "VK_KHR_swapchain".

(** The [deviceExtensions] member ([devices.hpp]). *)
Definition deviceExtensions : list string := [VK_KHR_SWAPCHAIN_EXTENSION_NAME].

(** What the instance reports of one physical device: its properties
    and features, the names of its extensions, what
    [QueueFamily::findQueueFamilies] finds on it and what
    [SwapChain::querySwapChainSupport] returns for the surface. *)
Record Gpu : Type := {
  gpu : handle;
  deviceType : Z;
  maxImageDimension2D : Z;
  queueFamilies : SwapChain.QueueFamilyIndices;
  availableExtensions : list string;
  swapChainSupport : SwapChain.SwapChainSupportDetails;
  samplerAnisotropy : bool
}.

(** An [unsigned] value converted to [int]. *)
Definition to_int32 (x : Z) : Z :=
  let u := to_uint32 x in
  if INT_MAX <? u then u - (UINT32_MAX + 1) else u.

(** [QueueFamilyIndices::isComplete] ([queues.hpp]) *)
Definition isComplete (indices : SwapChain.QueueFamilyIndices) : bool :=
  bool_decide (is_Some (SwapChain.graphicsFamily indices))
  && bool_decide (is_Some (SwapChain.presentFamily indices)).

(** [VulkanPhysicalDevice::checkDeviceExtensionSupport] *)
Definition checkDeviceExtensionSupport (device : Gpu) : bool :=
  forallb (fun required => bool_decide (required ∈ availableExtensions device))
    deviceExtensions.

(** [VulkanPhysicalDevice::isDeviceSuitable] *)
Definition isDeviceSuitable (device : Gpu) : bool :=
  let indices := queueFamilies device in
  let extensionsSupported := checkDeviceExtensionSupport device in
  let swapChainAdequate :=
    if extensionsSupported then
      negb (bool_decide (SwapChain.formats (swapChainSupport device) = []))
      && negb (bool_decide (SwapChain.presentModes (swapChainSupport device) = []))
    else false in
  isComplete indices && extensionsSupported && swapChainAdequate
  && samplerAnisotropy device.

(** [VulkanPhysicalDevice::rateDeviceSuitability]: [score] is an
    [int], the limit a [uint32_t]; their sum is formed unsigned and
    converted back. *)
Definition rateDeviceSuitability (device : Gpu) : Z :=
  let score := 0 in
  let score :=
    if deviceType device =? VK_PHYSICAL_DEVICE_TYPE_DISCRETE_GPU
    then score + 1000 else score in
  to_int32 (score + maxImageDimension2D device).

(** The selection loop of the constructor. *)
Fixpoint select_device (devices : list Gpu) (bestScore : Z) (physicalDevice : handle)
    : handle :=
  match devices with
  | [] => physicalDevice
  | device :: rest =>
      let score := rateDeviceSuitability device in
      if (bestScore <? score) && isDeviceSuitable device
      then select_device rest score (gpu device)
      else select_device rest bestScore physicalDevice
  end.

(** [VulkanPhysicalDevice::VulkanPhysicalDevice]: the device it
    leaves in [physicalDevice]. *)
Definition constructor (devices : list Gpu) : outcome handle :=
  let deviceCount := Z.of_nat (length devices) in
  if deviceCount =? 0 then
    Throw (runtime_error "Failed to find GPUs with Vulkan support!")
  else
    let physicalDevice := select_device devices (-1) VK_NULL_HANDLE in
    if physicalDevice =? VK_NULL_HANDLE then
      Throw (runtime_error "Failed to find a suitable GPU!")
    else Ret physicalDevice.

(** The constructor's preconditions on what the instance reports:
    device handles are not null and no score overflows an [int]. *)
Definition reported (device : Gpu) : Prop :=
  gpu device <> VK_NULL_HANDLE
  /\ 0 <= maxImageDimension2D device < INT_MAX - 1000.

(** [device] at index [i] is the first of the best suitable devices. *)
Definition first_best (devices : list Gpu) (i : nat) (device : Gpu) : Prop :=
  devices !! i = Some device
  /\ isDeviceSuitable device = true
  /\ (forall other, other ∈ devices -> isDeviceSuitable other = true ->
        rateDeviceSuitability other <= rateDeviceSuitability device)
  /\ (forall j other, (j < i)%nat -> devices !! j = Some other ->
        isDeviceSuitable other = true ->
        rateDeviceSuitability other < rateDeviceSuitability device).

Definition a_surface : SwapChain.SwapChainSupportDetails :=
  {| SwapChain.capabilities := Samples.fixed_surface;
     SwapChain.formats := [SwapChainSelect.preferred_format];
     SwapChain.presentModes := [VK_PRESENT_MODE_FIFO_KHR] |}.

(** An integrated and a discrete GPU, both usable, and a discrete one
    with larger textures but no swap-chain extension. *)
Definition three_gpus : list Gpu :=
  [ {| gpu := 1; deviceType := 1; maxImageDimension2D := 16384;
       queueFamilies := {| SwapChain.graphicsFamily := Some 0;
                           SwapChain.presentFamily := Some 0 |};
       availableExtensions := ["VK_KHR_swapchain"];
       swapChainSupport := a_surface; samplerAnisotropy := true |};
    {| gpu := 2; deviceType := 2; maxImageDimension2D := 16384;
       queueFamilies := {| SwapChain.graphicsFamily := Some 0;
                           SwapChain.presentFamily := Some 1 |};
       availableExtensions := ["VK_KHR_maintenance1"; "VK_KHR_swapchain"];
       swapChainSupport := a_surface; samplerAnisotropy := true |};
    {| gpu := 3; deviceType := 2; maxImageDimension2D := 32768;
       queueFamilies := {| SwapChain.graphicsFamily := Some 0;
                           SwapChain.presentFamily := Some 0 |};
       availableExtensions := [];
       swapChainSupport := a_surface; samplerAnisotropy := true |} ].

End VulkanPhysicalDevice.

(** ** [GraphicsPipeline]: the framebuffers ([graphics.cpp]) *)

Module Framebuffers.

Record VkFramebufferCreateInfo : Type := {
  fb_renderPass : handle;
  fb_pAttachments : list handle;
  fb_width : Z;
  fb_height : Z;
  fb_layers : Z
}.

Inductive Call : Type :=
  | vkCreateFramebuffer (framebufferInfo : VkFramebufferCreateInfo) (ok : bool)
  | vkDestroyFramebuffer (framebuffer : handle)
  | vkDestroyPipeline (pipeline : handle)
  | vkDestroyPipelineLayout (layout : handle)
  | vkDestroyRenderPass (renderPass : handle).

Record State : Type := {
  driver : Driver;
  calls : list Call;
  graphicsPipeline : handle;
  pipelineLayout : handle;
  renderPass : handle;
  framebuffers : list handle
}.

Definition with_device (d : Driver) (c : list Call) (s : State) : State :=
  {| driver := d; calls := c; graphicsPipeline := graphicsPipeline s;
     pipelineLayout := pipelineLayout s; renderPass := renderPass s;
     framebuffers := framebuffers s |}.

Definition with_framebuffers (fbs : list handle) (s : State) : State :=
  {| driver := driver s; calls := calls s; graphicsPipeline := graphicsPipeline s;
     pipelineLayout := pipelineLayout s; renderPass := renderPass s;
     framebuffers := fbs |}.

Definition log (c : Call) : M State unit :=
  modify (fun s => with_device (driver s) (calls s ++ [c]) s).

Definition pop_result : M State bool :=
  fun s =>
    let '(ok, d) := driver_pop (driver s) in (Ret ok, with_device d (calls s) s).

Definition fresh : M State handle :=
  fun s =>
    let '(h, d) := driver_fresh (driver s) in (Ret h, with_device d (calls s) s).

Local Open Scope cpp_scope.

(** [GraphicsPipeline::createFrameBuffers] *)
Definition createFrameBuffers (swapChainImageViews : list handle)
    (swapChainExtent : VkExtent2D) : M State unit :=
  modify (fun s =>
    with_framebuffers
      (vector_resize (length swapChainImageViews) VK_NULL_HANDLE (framebuffers s)) s) ;;;
  for_each (seq 0 (length swapChainImageViews)) (fun i =>
    match swapChainImageViews !! i with
    | None => undefined
    | Some imageView =>
        pass <- gets renderPass ;;
        let framebufferInfo :=
          {| fb_renderPass := pass;
             fb_pAttachments := [imageView];
             fb_width := width swapChainExtent;
             fb_height := height swapChainExtent;
             fb_layers := 1 |} in
        ok <- pop_result ;;
        log (vkCreateFramebuffer framebufferInfo ok) ;;;
        if ok then
          framebuffer <- fresh ;;
          modify (fun s =>
            with_framebuffers (<[i := framebuffer]> (framebuffers s)) s)
        else throw (runtime_error "failed to create framebuffer!")
    end).

(** [GraphicsPipeline::destroyFramebuffers] *)
Definition destroyFramebuffers : M State unit :=
  fbs <- gets framebuffers ;;
  for_each fbs (fun framebuffer => log (vkDestroyFramebuffer framebuffer)) ;;;
  modify (with_framebuffers []).

(** [GraphicsPipeline::~GraphicsPipeline] *)
Definition destructor : M State unit :=
  fbs <- gets framebuffers ;;
  for_each fbs (fun framebuffer =>
    if negb (framebuffer =? VK_NULL_HANDLE)
    then log (vkDestroyFramebuffer framebuffer) else ret tt) ;;;
  pipeline <- gets graphicsPipeline ;;
  (if negb (pipeline =? VK_NULL_HANDLE)
   then log (vkDestroyPipeline pipeline) else ret tt) ;;;
  layout <- gets pipelineLayout ;;
  (if negb (layout =? VK_NULL_HANDLE)
   then log (vkDestroyPipelineLayout layout) else ret tt) ;;;
  pass <- gets renderPass ;;
  (if negb (pass =? VK_NULL_HANDLE)
   then log (vkDestroyRenderPass pass) else ret tt).

(** The state with [cs] appended to the calls made so far. *)
Definition logged (cs : list Call) (s : State) : State :=
  with_device (driver s) (calls s ++ cs) s.

(** The creation of the framebuffer over [imageView]. *)
Definition framebuffer_for (pass : handle) (extent : VkExtent2D) (imageView : handle)
    : Call :=
  vkCreateFramebuffer
    {| fb_renderPass := pass; fb_pAttachments := [imageView];
       fb_width := width extent; fb_height := height extent; fb_layers := 1 |} true.

(** The state after the framebuffer of the view at [i] was served. *)
Definition framebuffer_created (i : nat) (extent : VkExtent2D) (imageView : handle)
    (s : State) : State :=
  with_framebuffers (<[i := nextHandle (driver s)]> (framebuffers s))
    (with_device (driver_served (driver s))
       (calls s ++ [framebuffer_for (renderPass s) extent imageView]) s).

(** A pipeline [90] with layout [91] and render pass [92], before its
    framebuffers exist. *)
Definition without_framebuffers : State :=
  {| driver := {| results := []; nextHandle := 93 |}; calls := [];
     graphicsPipeline := 90; pipelineLayout := 91; renderPass := 92;
     framebuffers := [] |}.

Definition destroys_framebuffer (c : Call) : bool :=
  match c with
  | vkDestroyFramebuffer _ => true
  | _ => false
  end.

End Framebuffers.

(** ** [VulkanLogicalDevice] ([devices.cpp]) *)

Module VulkanLogicalDevice.

Record VkDeviceQueueCreateInfo : Type := {
  queueFamilyIndex : Z;
  queueCount : Z;
  (** the priorities, in hundredths: [1.0f] is [100] *)
  pQueuePriorities : list Z
}.

Record VkDeviceCreateInfo : Type := {
  pQueueCreateInfos : list VkDeviceQueueCreateInfo;
  enabled_samplerAnisotropy : bool;
  ppEnabledExtensionNames : list string;
  ppEnabledLayerNames : list string
}.

Inductive Call : Type :=
  | vkCreateDevice (physicalDevice : handle) (createInfo : VkDeviceCreateInfo) (ok : bool)
  | vkGetDeviceQueue (device : handle) (queueFamily queueIndex : Z)
  | vkDestroyDevice (device : handle).

Record State : Type := {
  driver : Driver;
  calls : list Call;
  stdout : list string;
  (** what [QueueFamily::findQueueFamilies] reports for the physical
      device and the surface *)
  indices : SwapChain.QueueFamilyIndices;
  (** the queue [vkGetDeviceQueue] hands out for a device, a family
      and an index *)
  queueOf : handle -> Z -> Z -> handle;
  physicalDevice : handle;
  validationLayers : list string;
  deviceExtensions : list string;
  device : handle;
  graphicsQueue : handle;
  presentQueue : handle;
  deviceMutex : bool;
  queueMutex : bool
}.

Definition with_device (d : Driver) (c : list Call) (out : list string) (s : State)
    : State :=
  {| driver := d; calls := c; stdout := out; indices := indices s;
     queueOf := queueOf s; physicalDevice := physicalDevice s;
     validationLayers := validationLayers s; deviceExtensions := deviceExtensions s;
     device := device s; graphicsQueue := graphicsQueue s;
     presentQueue := presentQueue s;
     deviceMutex := deviceMutex s; queueMutex := queueMutex s |}.

Definition with_members (dev graphics present : handle) (s : State) : State :=
  {| driver := driver s; calls := calls s; stdout := stdout s; indices := indices s;
     queueOf := queueOf s; physicalDevice := physicalDevice s;
     validationLayers := validationLayers s; deviceExtensions := deviceExtensions s;
     device := dev; graphicsQueue := graphics; presentQueue := present;
     deviceMutex := deviceMutex s; queueMutex := queueMutex s |}.

Definition with_mutexes (dm qm : bool) (s : State) : State :=
  {| driver := driver s; calls := calls s; stdout := stdout s; indices := indices s;
     queueOf := queueOf s; physicalDevice := physicalDevice s;
     validationLayers := validationLayers s; deviceExtensions := deviceExtensions s;
     device := device s; graphicsQueue := graphicsQueue s;
     presentQueue := presentQueue s;
     deviceMutex := dm; queueMutex := qm |}.

Definition log (c : Call) : M State unit :=
  modify (fun s => with_device (driver s) (calls s ++ [c]) (stdout s) s).

Definition cout (line : string) : M State unit :=
  modify (fun s => with_device (driver s) (calls s) (stdout s ++ [line]) s).

Definition pop_result : M State bool :=
  fun s =>
    let '(ok, d) := driver_pop (driver s) in
    (Ret ok, with_device d (calls s) (stdout s) s).

Definition fresh : M State handle :=
  fun s =>
    let '(h, d) := driver_fresh (driver s) in
    (Ret h, with_device d (calls s) (stdout s) s).

(** [std::lock_guard<std::mutex> lock(deviceMutex);] over a block. *)
Definition lock_deviceMutex {A} (body : M State A) : M State A :=
  fun s =>
    if deviceMutex s then (Undefined, s)
    else
      let '(r, s') := body (with_mutexes true (queueMutex s) s) in
      (r, with_mutexes false (queueMutex s') s').

(** [std::lock_guard<std::mutex> lock(queueMutex);] over a block. *)
Definition lock_queueMutex {A} (body : M State A) : M State A :=
  fun s =>
    if queueMutex s then (Undefined, s)
    else
      let '(r, s') := body (with_mutexes (deviceMutex s) true s) in
      (r, with_mutexes (deviceMutex s') false s').

(** [std::set<uint32_t>::insert]: the elements stay in ascending
    order, each once. *)
Fixpoint set_insert (x : Z) (s : list Z) : list Z :=
  match s with
  | [] => [x]
  | y :: rest =>
      if x <? y then x :: y :: rest
      else if x =? y then y :: rest
      else y :: set_insert x rest
  end.

(** [std::set<uint32_t>{...}] from an initializer list. *)
Definition std_set (init : list Z) : list Z :=
  foldl (fun s x => set_insert x s) [] init.

Local Open Scope cpp_scope.

(** [VulkanLogicalDevice::createLogicalDevice] *)
Definition createLogicalDevice : M State unit :=
  found <- gets indices ;;
  match SwapChain.graphicsFamily found, SwapChain.presentFamily found with
  | Some graphics, Some present =>
      let uniqueQueueFamilies := std_set [graphics; present] in
      let queuePriority := 100 in
      let queueCreateInfos :=
        map (fun queueFamily =>
               {| queueFamilyIndex := queueFamily; queueCount := 1;
                  pQueuePriorities := [queuePriority] |})
            uniqueQueueFamilies in
      extensions <- gets deviceExtensions ;;
      layers <- gets validationLayers ;;
      let createInfo :=
        {| pQueueCreateInfos := queueCreateInfos;
           enabled_samplerAnisotropy := true;
           ppEnabledExtensionNames := extensions;
           ppEnabledLayerNames := if bool_decide (layers = []) then [] else layers |} in
      lock_deviceMutex (
        physical <- gets physicalDevice ;;
        ok <- pop_result ;;
        log (vkCreateDevice physical createInfo ok) ;;;
        if ok then
          dev <- fresh ;;
          modify (fun s => with_members dev (graphicsQueue s) (presentQueue s) s)
        else throw (runtime_error "Failed to create logical device!")) ;;;
      lock_queueMutex (
        dev <- gets device ;;
        log (vkGetDeviceQueue dev graphics 0) ;;;
        modify (fun s =>
          with_members (device s) (queueOf s dev graphics 0) (presentQueue s) s) ;;;
        log (vkGetDeviceQueue dev present 0) ;;;
        modify (fun s =>
          with_members (device s) (graphicsQueue s) (queueOf s dev present 0) s)) ;;;
      cout "Logical device and queues created successfully."
  | _, _ => throw (runtime_error "Failed to find required queue families.")
  end.

(** [VulkanLogicalDevice::VulkanLogicalDevice] *)
Definition constructor : M State unit := createLogicalDevice.

(** [VulkanLogicalDevice::~VulkanLogicalDevice] *)
Definition destructor : M State unit :=
  lock_deviceMutex (
    dev <- gets device ;;
    if negb (dev =? VK_NULL_HANDLE) then
      log (vkDestroyDevice dev) ;;;
      modify (fun s => with_members VK_NULL_HANDLE (graphicsQueue s) (presentQueue s) s)
    else ret tt).

(** A device about to be created on physical device [2], which
    presents from family 0 and draws from family 1. *)
Definition uncreated : State :=
  {| driver := {| results := []; nextHandle := 40 |}; calls := []; stdout := [];
     indices := {| SwapChain.graphicsFamily := Some 1;
                   SwapChain.presentFamily := Some 0 |};
     queueOf := fun dev family index => 1000 * dev + 10 * family + index;
     physicalDevice := 2;
     validationLayers := ["VK_LAYER_KHRONOS_validation"];
     deviceExtensions := ["VK_KHR_swapchain"];
     device := VK_NULL_HANDLE; graphicsQueue := VK_NULL_HANDLE;
     presentQueue := VK_NULL_HANDLE;
     deviceMutex := false; queueMutex := false |}.

(** The same on a physical device that cannot present to the surface. *)
Definition headless : State :=
  {| driver := driver uncreated; calls := []; stdout := [];
     indices := {| SwapChain.graphicsFamily := Some 1;
                   SwapChain.presentFamily := None |};
     queueOf := queueOf uncreated; physicalDevice := 2;
     validationLayers := validationLayers uncreated;
     deviceExtensions := deviceExtensions uncreated;
     device := VK_NULL_HANDLE; graphicsQueue := VK_NULL_HANDLE;
     presentQueue := VK_NULL_HANDLE;
     deviceMutex := false; queueMutex := false |}.

End VulkanLogicalDevice.

(** * Properties *)

(** ** Surface format, present mode and extent selection *)

Section Selection.
Import SwapChainSelect Samples.

Lemma is_preferred_iff (f : VkSurfaceFormatKHR) :
  is_preferred f = true <-> f = preferred_format.
Proof.
  unfold is_preferred, preferred_format. destruct f as [fmt cs]; simpl.
  rewrite andb_true_iff, !Z.eqb_eq. split.
  - intros [-> ->]. reflexivity.
  - intros [= -> ->]. split; reflexivity.
Qed.

Lemma chooseSwapSurfaceFormat_loop_found (l : list VkSurfaceFormatKHR) :
  preferred_format ∈ l -> chooseSwapSurfaceFormat_loop l = Some preferred_format.
Proof.
  induction l as [|f l IH]; intros Hin.
  - inversion Hin.
  - simpl. destruct (is_preferred f) eqn:Hf.
    + apply is_preferred_iff in Hf. congruence.
    + apply elem_of_cons in Hin as [Heq|Hin].
      * symmetry in Heq. apply is_preferred_iff in Heq. congruence.
      * apply IH, Hin.
Qed.

Lemma chooseSwapSurfaceFormat_loop_missing (l : list VkSurfaceFormatKHR) :
  preferred_format ∉ l -> chooseSwapSurfaceFormat_loop l = None.
Proof.
  induction l as [|f l IH]; intros Hnot; [reflexivity|].
  simpl. destruct (is_preferred f) eqn:Hf.
  - apply is_preferred_iff in Hf. subst f. exfalso. apply Hnot. left.
  - apply IH. intros Hin. apply Hnot. right. exact Hin.
Qed.

(** C4: on a non-empty list of surface formats, [chooseSwapSurfaceFormat]
    returns the B8G8R8A8_SRGB / SRGB_NONLINEAR entry when the list has
    one, and the first element of the list otherwise. *)
Theorem chooseSwapSurfaceFormat_preferred_or_first
    (availableFormats : list VkSurfaceFormatKHR) :
  availableFormats ≠ [] ->
  (preferred_format ∈ availableFormats ->
     chooseSwapSurfaceFormat availableFormats = Ret preferred_format)
  /\ (preferred_format ∉ availableFormats ->
        exists first rest,
          availableFormats = first :: rest
          /\ chooseSwapSurfaceFormat availableFormats = Ret first).
Proof.
  intros Hne. split.
  - intros Hin. unfold chooseSwapSurfaceFormat.
    rewrite chooseSwapSurfaceFormat_loop_found by exact Hin. reflexivity.
  - intros Hnot. destruct availableFormats as [|first rest]; [congruence|].
    exists first, rest. split; [reflexivity|].
    unfold chooseSwapSurfaceFormat.
    rewrite chooseSwapSurfaceFormat_loop_missing by exact Hnot. reflexivity.
Qed.

Lemma chooseSwapSurfaceFormat_preferred_or_first_witness :
  chooseSwapSurfaceFormat [rgba_unorm_format; preferred_format] = Ret preferred_format.
Proof.
  apply (chooseSwapSurfaceFormat_preferred_or_first
           [rgba_unorm_format; preferred_format]).
  - discriminate.
  - right. left.
Defined.

Lemma chooseSwapPresentMode_loop_found (l : list VkPresentModeKHR) :
  VK_PRESENT_MODE_MAILBOX_KHR ∈ l ->
  chooseSwapPresentMode_loop l = Some VK_PRESENT_MODE_MAILBOX_KHR.
Proof.
  induction l as [|m l IH]; intros Hin.
  - inversion Hin.
  - simpl. destruct (Z.eqb_spec m VK_PRESENT_MODE_MAILBOX_KHR) as [->|Hm].
    + reflexivity.
    + apply elem_of_cons in Hin as [Heq|Hin]; [congruence|]. apply IH, Hin.
Qed.

Lemma chooseSwapPresentMode_loop_missing (l : list VkPresentModeKHR) :
  VK_PRESENT_MODE_MAILBOX_KHR ∉ l -> chooseSwapPresentMode_loop l = None.
Proof.
  induction l as [|m l IH]; intros Hnot; [reflexivity|].
  simpl. destruct (Z.eqb_spec m VK_PRESENT_MODE_MAILBOX_KHR) as [->|Hm].
  - exfalso. apply Hnot. left.
  - apply IH. intros Hin. apply Hnot. right. exact Hin.
Qed.

(** C5: [chooseSwapPresentMode] returns MAILBOX when the list of
    available present modes contains it, and FIFO otherwise. *)
Theorem chooseSwapPresentMode_mailbox_or_fifo
    (availablePresentModes : list VkPresentModeKHR) :
  chooseSwapPresentMode availablePresentModes =
    if bool_decide (VK_PRESENT_MODE_MAILBOX_KHR ∈ availablePresentModes)
    then VK_PRESENT_MODE_MAILBOX_KHR
    else VK_PRESENT_MODE_FIFO_KHR.
Proof.
  unfold chooseSwapPresentMode. case_bool_decide as Hin.
  - rewrite chooseSwapPresentMode_loop_found by exact Hin. reflexivity.
  - rewrite chooseSwapPresentMode_loop_missing by exact Hin. reflexivity.
Qed.

Lemma std_clamp_in_range (v lo hi : Z) :
  lo <= hi -> std_clamp v lo hi = Z.max lo (Z.min v hi).
Proof.
  intros Hle. unfold std_clamp.
  destruct (Z.ltb_spec v lo); [lia|].
  destruct (Z.ltb_spec hi v); lia.
Qed.

(** C6: with a defined current extent (width other than [UINT32_MAX])
    [chooseSwapExtent] returns it unchanged; with the sentinel it returns
    the framebuffer size of the window, width and height each clamped
    into the interval from [minImageExtent] to [maxImageExtent]. *)
Theorem chooseSwapExtent_current_or_clamped
    (capabilities : VkSurfaceCapabilitiesKHR) (w h : Z) :
  (width (currentExtent capabilities) ≠ UINT32_MAX ->
     chooseSwapExtent capabilities (w, h) = currentExtent capabilities)
  /\ (width (currentExtent capabilities) = UINT32_MAX ->
      width (minImageExtent capabilities) <= width (maxImageExtent capabilities) ->
      height (minImageExtent capabilities) <= height (maxImageExtent capabilities) ->
      0 <= w < 2 ^ 31 -> 0 <= h < 2 ^ 31 ->
      let result := chooseSwapExtent capabilities (w, h) in
      width result =
        Z.max (width (minImageExtent capabilities))
              (Z.min w (width (maxImageExtent capabilities)))
      /\ height result =
           Z.max (height (minImageExtent capabilities))
                 (Z.min h (height (maxImageExtent capabilities)))
      /\ width (minImageExtent capabilities) <= width result
           <= width (maxImageExtent capabilities)
      /\ height (minImageExtent capabilities) <= height result
           <= height (maxImageExtent capabilities)).
Proof.
  unfold chooseSwapExtent. split.
  - intros Hdef. destruct (Z.eqb_spec (width (currentExtent capabilities)) UINT32_MAX);
      [contradiction|reflexivity].
  - intros Hund Hw Hh Hwr Hhr. rewrite Hund, Z.eqb_refl. simpl.
    unfold to_uint32. rewrite !Z.mod_small by lia.
    rewrite !std_clamp_in_range by assumption. lia.
Qed.

Lemma chooseSwapExtent_current_or_clamped_witness :
  chooseSwapExtent fixed_surface (3000, 20) = {| width := 800; height := 600 |}
  /\ width (chooseSwapExtent resized_surface (3000, 20)) = 1920
  /\ height (chooseSwapExtent resized_surface (3000, 20)) = 64.
Proof.
  split.
  - apply (proj1 (chooseSwapExtent_current_or_clamped fixed_surface 3000 20)).
    vm_compute. discriminate.
  - pose proof (proj2 (chooseSwapExtent_current_or_clamped resized_surface 3000 20)
                  eq_refl) as H.
    simpl in H.
    destruct H as (Hw & Hh & _); [lia | lia | lia | lia |].
    split; [exact Hw | exact Hh].
Defined.

End Selection.

(** ** Observations a computation leaves alone *)

Section Preserves.
Context {St Obs : Type} (obs : St -> Obs).

Lemma preserves_ret {A} (a : A) : preserves obs (ret a).
Proof. intros s. reflexivity. Qed.

Lemma preserves_throw {A} (e : exn) : preserves obs (@throw St A e).
Proof. intros s. reflexivity. Qed.

Lemma preserves_undefined {A} : preserves obs (@undefined St A).
Proof. intros s. reflexivity. Qed.

Lemma preserves_gets {A} (f : St -> A) : preserves obs (gets f).
Proof. intros s. reflexivity. Qed.

Lemma preserves_get : preserves obs (@get St).
Proof. intros s. reflexivity. Qed.

Lemma preserves_pure {A} (r : outcome A) : preserves obs (fun s : St => (r, s)).
Proof. intros s. reflexivity. Qed.

Lemma preserves_modify (f : St -> St) :
  (forall s, obs (f s) = obs s) -> preserves obs (modify f).
Proof. intros Hf s. apply Hf. Qed.

Lemma preserves_bind {A B} (m : M St A) (k : A -> M St B) :
  preserves obs m -> (forall a, preserves obs (k a)) -> preserves obs (bind m k).
Proof.
  intros Hm Hk s. unfold bind. specialize (Hm s).
  destruct (m s) as [[a| | |] s1]; simpl in *; try exact Hm.
  rewrite (Hk a s1). exact Hm.
Qed.

Lemma preserves_for_each {A} (xs : list A) (body : A -> M St unit) :
  (forall x, preserves obs (body x)) -> preserves obs (for_each xs body).
Proof.
  intros Hbody. induction xs as [|x xs IH]; simpl.
  - apply preserves_ret.
  - apply preserves_bind; [apply Hbody | intros _; exact IH].
Qed.

Lemma preserves_try_catch {A} (body : M St A) (handler : string -> M St A) :
  preserves obs body -> (forall what, preserves obs (handler what)) ->
  preserves obs (try_catch_runtime_error body handler).
Proof.
  intros Hb Hh s. unfold try_catch_runtime_error. specialize (Hb s).
  destruct (body s) as [[a|[what|what|what|]| |] s1]; simpl in *; try exact Hb.
  rewrite (Hh what s1). exact Hb.
Qed.

End Preserves.

(** ** Swap-chain recreation *)

Section Recreation.
Import SwapChain SwapChainFacts.

Lemma destroyed_log_other (c : VkCall) :
  is_destroy c = false -> preserves destroyed (log c).
Proof.
  intros Hc. apply preserves_modify. intros s. unfold destroyed.
  change (filter (fun c => is_destroy c = true) (calls s ++ [c])
          = filter (fun c => is_destroy c = true) (calls s)).
  rewrite filter_app, filter_cons_False by congruence.
  rewrite filter_nil. apply app_nil_r.
Qed.

Lemma destroyed_driver_create : preserves destroyed driver_create.
Proof.
  intros s. unfold driver_create.
  destruct (driver_pop (driver s)) as [[|] d]; simpl; reflexivity.
Qed.

Lemma destroyed_optional_value {A} (o : option A) :
  preserves destroyed (optional_value o).
Proof. destruct o; [apply preserves_ret | apply preserves_throw]. Qed.

Ltac destroyed_step known :=
  first
    [ known
    | apply destroyed_driver_create
    | apply destroyed_optional_value
    | apply preserves_gets
    | apply preserves_ret
    | apply preserves_throw
    | apply preserves_undefined
    | apply preserves_pure
    | apply destroyed_log_other; reflexivity
    | apply preserves_modify; reflexivity
    | apply preserves_for_each; intros ?
    | apply preserves_bind; [| intros ?]
    | match goal with
      | |- preserves _ (match ?c with _ => _ end) => destruct c
      end ].

Lemma destroyed_createSwapChain : preserves destroyed createSwapChain.
Proof. unfold createSwapChain. repeat destroyed_step fail. Qed.

Lemma destroyed_createImageView (image : handle) (fmt : VkFormat) :
  preserves destroyed (createImageView image fmt).
Proof. unfold createImageView. repeat destroyed_step fail. Qed.

Lemma destroyed_createImageViews : preserves destroyed createImageViews.
Proof.
  unfold createImageViews.
  repeat destroyed_step ltac:(apply destroyed_createImageView).
Qed.

(** C1 (the code departs from it): [SwapChain::recreateSwapChain] only
    creates.  Whatever the surface reports and whatever the driver
    answers, a call adds no [vkDestroyImageView] and no
    [vkDestroySwapchainKHR] to the calls made so far; the old views and
    the old chain are left alive unless the caller ran
    [cleanupSwapChain] itself. *)
Theorem recreateSwapChain_destroys_nothing (s : State) :
  destroyed (snd (recreateSwapChain s)) = destroyed s.
Proof.
  apply (preserves_bind destroyed).
  - apply destroyed_createSwapChain.
  - intros _. apply destroyed_createImageViews.
Qed.

(** On a live chain [10] with views [11], [12], recreation issues the
    creates alone; the application's own sequence, which calls
    [cleanupSwapChain] first, issues the three destroys before them. *)
Example recreateSwapChain_on_live_chain :
  destroyed (snd (recreateSwapChain Samples.live_swap_chain)) = []
  /\ swapChain (snd (recreateSwapChain Samples.live_swap_chain)) = 100
  /\ swapChainImageViews (snd (recreateSwapChain Samples.live_swap_chain)) = [101; 102]
  /\ destroyed (snd (application_recreateSwapChain Samples.live_swap_chain))
     = [vkDestroyImageView 11; vkDestroyImageView 12; vkDestroySwapchainKHR 10].
Proof. vm_compute. repeat split; reflexivity. Qed.

End Recreation.

(** ** Which computations throw *)

Section Throwing.
Context {St : Type}.

Lemma nothrow_runtime_only {A} (m : M St A) : nothrow m -> runtime_only m.
Proof. intros Hm s e He. specialize (Hm s). rewrite He in Hm. discriminate. Qed.

Lemma nothrow_ret {A} (a : A) : nothrow (@ret St A a).
Proof. intros s. reflexivity. Qed.

Lemma nothrow_undefined {A} : nothrow (@undefined St A).
Proof. intros s. reflexivity. Qed.

Lemma nothrow_gets {A} (f : St -> A) : nothrow (gets f).
Proof. intros s. reflexivity. Qed.

Lemma nothrow_modify (f : St -> St) : nothrow (modify f).
Proof. intros s. reflexivity. Qed.

Lemma runtime_only_throw {A} (what : string) :
  runtime_only (@throw St A (runtime_error what)).
Proof. intros s e [= <-]. eauto. Qed.

Lemma nothrow_bind {A B} (m : M St A) (k : A -> M St B) :
  nothrow m -> (forall a, nothrow (k a)) -> nothrow (bind m k).
Proof.
  intros Hm Hk s. unfold bind. specialize (Hm s).
  destruct (m s) as [[a| | |] s1]; simpl in *; try exact Hm; try reflexivity.
  apply Hk.
Qed.

Lemma runtime_only_bind {A B} (m : M St A) (k : A -> M St B) :
  runtime_only m -> (forall a, runtime_only (k a)) -> runtime_only (bind m k).
Proof.
  intros Hm Hk s e. unfold bind. specialize (Hm s).
  destruct (m s) as [[a| e' | |] s1]; simpl in *; try discriminate.
  - apply Hk.
  - intros [= <-]. apply Hm. reflexivity.
Qed.

Lemma nothrow_for_each {A} (xs : list A) (body : A -> M St unit) :
  (forall x, nothrow (body x)) -> nothrow (for_each xs body).
Proof.
  intros Hbody. induction xs as [|x xs IH]; simpl.
  - apply nothrow_ret.
  - apply nothrow_bind; [apply Hbody | intros _; exact IH].
Qed.

(** A handler for [std::runtime_error] that does not throw itself makes
    a body that throws nothing else exception-free. *)
Lemma nothrow_try_catch {A} (body : M St A) (handler : string -> M St A) :
  runtime_only body -> (forall what, nothrow (handler what)) ->
  nothrow (try_catch_runtime_error body handler).
Proof.
  intros Hb Hh s. unfold try_catch_runtime_error. specialize (Hb s).
  destruct (body s) as [[a| e | |] s1]; simpl in *; try reflexivity.
  destruct (Hb e eq_refl) as [what ->]. apply Hh.
Qed.

End Throwing.

(** ** Buffer construction failures *)

Section BufferConstruction.
Import BufferManager BufferFacts.

Lemma runtime_only_createBuffer (size usage : Z) (memoryUsage : VmaMemoryUsage) :
  runtime_only (createBuffer size usage memoryUsage).
Proof.
  intros s e. unfold createBuffer.
  destruct (driver_pop (driver s)) as [[|] d]; simpl.
  - discriminate.
  - intros [= <-]. eauto.
Qed.

Lemma runtime_only_mapMemory (allocation : handle) :
  runtime_only (mapMemory allocation).
Proof.
  intros s e. unfold mapMemory.
  destruct (driver_pop (driver s)) as [[|] d]; simpl.
  - discriminate.
  - intros [= <-]. eauto.
Qed.

Lemma runtime_only_getCommandPool : runtime_only getCommandPool.
Proof.
  intros s e. unfold getCommandPool, bind, gets.
  destruct (commandPool s =? VK_NULL_HANDLE); simpl.
  - intros [= <-]. eauto.
  - discriminate.
Qed.

Ltac throw_step known :=
  first
    [ known
    | apply nothrow_ret
    | apply nothrow_gets
    | apply nothrow_modify
    | apply nothrow_undefined
    | apply runtime_only_throw
    | apply runtime_only_createBuffer
    | apply runtime_only_mapMemory
    | apply runtime_only_getCommandPool
    | apply nothrow_for_each; intros ?
    | apply nothrow_try_catch; [| intros ?]
    | apply nothrow_bind; [| intros ?]
    | apply runtime_only_bind; [| intros ?]
    | match goal with
      | |- nothrow (match ?c with _ => _ end) => destruct c
      | |- runtime_only (match ?c with _ => _ end) => destruct c
      | |- runtime_only _ => apply nothrow_runtime_only
      end ].

Lemma nothrow_destroy_uniform_prefix (bound : nat) :
  nothrow (destroy_uniform_prefix bound).
Proof. unfold destroy_uniform_prefix, destroyBuffer, log. repeat throw_step fail. Qed.

Lemma nothrow_createDeviceLocalBuffer (payload : list byte) (usageBit : Z)
    (store : handle -> handle -> State -> State)
    (stored : State -> handle * handle) :
  nothrow (createDeviceLocalBuffer payload usageBit store stored).
Proof.
  unfold createDeviceLocalBuffer, cerr_error, destroyBuffer, unmapMemory,
    copyBuffer, host_memcpy, log.
  repeat throw_step fail.
Qed.

Lemma nothrow_createVertexBuffer : nothrow createVertexBuffer.
Proof.
  unfold createVertexBuffer.
  repeat throw_step ltac:(apply nothrow_createDeviceLocalBuffer).
Qed.

Lemma nothrow_createIndexBuffer : nothrow createIndexBuffer.
Proof.
  unfold createIndexBuffer.
  repeat throw_step ltac:(apply nothrow_createDeviceLocalBuffer).
Qed.

Lemma nothrow_createUniformBuffers_loop (frames : list nat) :
  nothrow (createUniformBuffers_loop frames).
Proof.
  induction frames as [|i rest IH]; simpl.
  - apply nothrow_ret.
  - unfold cerr_error.
    repeat throw_step ltac:(first [exact IH | apply nothrow_destroy_uniform_prefix]).
Qed.

Lemma nothrow_createUniformBuffers : nothrow createUniformBuffers.
Proof.
  unfold createUniformBuffers.
  repeat throw_step ltac:(apply nothrow_createUniformBuffers_loop).
Qed.

Lemma nothrow_constructor : nothrow constructor.
Proof.
  unfold constructor.
  repeat throw_step ltac:(first [ apply nothrow_createVertexBuffer
                                | apply nothrow_createIndexBuffer
                                | apply nothrow_createUniformBuffers ]).
Qed.

End BufferConstruction.

Section BufferFailures.
Import BufferManager BufferFacts.

Ltac settle_status :=
  split; [reflexivity|];
  eexists _, _, _;
  split; [reflexivity|];
  split; [cbn [calls]; rewrite <- ?app_assoc; reflexivity|];
  split; [cbn [stderr]; first [reflexivity | symmetry; apply app_nil_r]|];
  split; [intros Hbuilt; first [discriminate Hbuilt | split; reflexivity]|];
  split; [intros Hbuilt; first [discriminate Hbuilt | reflexivity]|];
  intros Hfailed; first [discriminate Hfailed | split; reflexivity].

Ltac run_device_local :=
  unfold createVertexBuffer, createIndexBuffer, createDeviceLocalBuffer,
    try_catch_runtime_error,
    bind, gets, modify, createBuffer, mapMemory, unmapMemory, destroyBuffer,
    copyBuffer, getCommandPool, host_memcpy, log, ret, throw, cerr_error;
  cbn -[Z.add Z.eqb memcpy Z.of_nat].

Lemma createVertexBuffer_outcome (s : State) :
  fst (createVertexBuffer s)
  = Ret (driver_succeeds 3 (driver s) && negb (commandPool s =? VK_NULL_HANDLE))
  /\ failure_becomes_status createVertexBuffer s.
Proof.
  destruct s as [[script n] c e h ma pool vs ixs vb va ib ia ubs ups ums].
  unfold failure_becomes_status, driver_succeeds.
  cbn [driver results commandPool BufferManager.calls BufferManager.stderr].
  destruct (pool =? VK_NULL_HANDLE) eqn:Hpool;
    destruct script as [|[] [|[] [|[] script]]].
  all: run_device_local; rewrite ?Hpool; cbn -[Z.add Z.eqb memcpy Z.of_nat].
  all: settle_status.
Qed.

Lemma createIndexBuffer_outcome (s : State) :
  fst (createIndexBuffer s)
  = Ret (driver_succeeds 3 (driver s) && negb (commandPool s =? VK_NULL_HANDLE))
  /\ failure_becomes_status createIndexBuffer s.
Proof.
  destruct s as [[script n] c e h ma pool vs ixs vb va ib ia ubs ups ums].
  unfold failure_becomes_status, driver_succeeds.
  cbn [driver results commandPool BufferManager.calls BufferManager.stderr].
  destruct (pool =? VK_NULL_HANDLE) eqn:Hpool;
    destruct script as [|[] [|[] [|[] script]]].
  all: run_device_local; rewrite ?Hpool; cbn -[Z.add Z.eqb memcpy Z.of_nat].
  all: settle_status.
Qed.

Lemma vector_resize_two {A} (dflt : A) (v : list A) :
  exists a b, vector_resize 2 dflt v = [a; b].
Proof. destruct v as [|a [|b v]]; eexists _, _; reflexivity. Qed.

Lemma createUniformBuffers_outcome (s : State) :
  fst (createUniformBuffers s) = Ret (driver_succeeds 4 (driver s))
  /\ failure_becomes_status createUniformBuffers s.
Proof.
  destruct s as [[script n] c e h ma pool vs ixs vb va ib ia ubs ups ums].
  unfold failure_becomes_status, driver_succeeds, createUniformBuffers,
    MAX_FRAMES_IN_FLIGHT, bind, modify.
  cbv beta iota. unfold with_uniform.
  cbn [driver results BufferManager.calls BufferManager.stderr heap mapAddress
       commandPool vertices indices vertexBuffer vertexBufferAllocation
       indexBuffer indexBufferAllocation uniformBuffers uniformBuffersMapped
       uniformBuffersMemory].
  destruct (vector_resize_two VK_NULL_HANDLE ubs) as (b0 & b1 & ->).
  destruct (vector_resize_two 0 ups) as (p0 & p1 & ->).
  destruct (vector_resize_two VK_NULL_HANDLE ums) as (m0 & m1 & ->).
  destruct script as [|[] [|[] [|[] [|[] script]]]].
  all: simpl seq; simpl createUniformBuffers_loop;
       unfold destroy_uniform_prefix, try_catch_runtime_error,
         bind, gets, modify, createBuffer, mapMemory, destroyBuffer, log, ret, throw,
         undefined, cerr_error, with_uniform, with_device;
       cbn -[Z.add Z.eqb Z.of_nat].
  all: settle_status.
Qed.

Lemma run_to_bind {St A B} (m : M St A) (k : A -> M St B) (s : St) (a : A) :
  fst (m s) = Ret a -> bind m k s = k a (snd (m s)).
Proof. unfold bind. destruct (m s) as [r s1]. simpl. intros ->. reflexivity. Qed.

Lemma BufferManager_constructor_returns (s : State) : fst (constructor s) = Ret tt.
Proof.
  unfold constructor.
  erewrite run_to_bind by reflexivity.
  erewrite run_to_bind by apply createVertexBuffer_outcome.
  erewrite run_to_bind by apply createIndexBuffer_outcome.
  erewrite run_to_bind by apply createUniformBuffers_outcome.
  reflexivity.
Qed.

(** C2 (corrected): a failed buffer creation is not thrown to the
    caller.  [createVertexBuffer], [createIndexBuffer] and
    [createUniformBuffers] catch every runtime error of their steps and
    never throw: from any state each returns a [bool], [true] exactly
    when the driver served every call of the step (three for a
    device-local buffer, which also needs a command pool; four for the
    uniform buffers).  Whichever [vmaCreateBuffer] the driver refuses,
    the staging buffer, the device-local buffer or either uniform
    buffer, the function writes the error to [stderr] and returns
    [false]; when it is the first buffer the function asks for, no
    handle has been stored.  The constructor drops the three results and
    returns normally whatever the driver does. *)
Theorem BufferManager_failures_become_status (s : State) :
  is_throw (fst (createVertexBuffer s)) = false
  /\ is_throw (fst (createIndexBuffer s)) = false
  /\ is_throw (fst (createUniformBuffers s)) = false
  /\ (fst (driver_pop (driver s)) = false ->
      createVertexBuffer s
      = (Ret false, after_failed_staging (Z.of_nat (length (vertices s))) s)
      /\ createIndexBuffer s
         = (Ret false, after_failed_staging (Z.of_nat (length (indices s))) s)
      /\ createUniformBuffers s = (Ret false, after_failed_uniform s))
  /\ fst (createVertexBuffer s)
     = Ret (driver_succeeds 3 (driver s) && negb (commandPool s =? VK_NULL_HANDLE))
  /\ fst (createIndexBuffer s)
     = Ret (driver_succeeds 3 (driver s) && negb (commandPool s =? VK_NULL_HANDLE))
  /\ fst (createUniformBuffers s) = Ret (driver_succeeds 4 (driver s))
  /\ failure_becomes_status createVertexBuffer s
  /\ failure_becomes_status createIndexBuffer s
  /\ failure_becomes_status createUniformBuffers s
  /\ fst (constructor s) = Ret tt.
Proof.
  split; [apply nothrow_createVertexBuffer|].
  split; [apply nothrow_createIndexBuffer|].
  split; [apply nothrow_createUniformBuffers|].
  split.
  { intros Hfail. split; [|split].
    - unfold createVertexBuffer, createDeviceLocalBuffer, after_failed_staging,
        bind, gets, try_catch_runtime_error, createBuffer, cerr_error, modify, ret.
      simpl. destruct (driver_pop (driver s)) as [ok d]. simpl in *. subst ok.
      reflexivity.
    - unfold createIndexBuffer, createDeviceLocalBuffer, after_failed_staging,
        bind, gets, try_catch_runtime_error, createBuffer, cerr_error, modify, ret.
      simpl. destruct (driver_pop (driver s)) as [ok d]. simpl in *. subst ok.
      reflexivity.
    - unfold createUniformBuffers, after_failed_uniform, MAX_FRAMES_IN_FLIGHT.
      simpl seq. simpl createUniformBuffers_loop.
      unfold bind, gets, try_catch_runtime_error, createBuffer, cerr_error,
        destroy_uniform_prefix, modify, ret.
      simpl. destruct (driver_pop (driver s)) as [ok d]. simpl in *. subst ok.
      reflexivity. }
  split; [apply createVertexBuffer_outcome|].
  split; [apply createIndexBuffer_outcome|].
  split; [apply createUniformBuffers_outcome|].
  split; [apply createVertexBuffer_outcome|].
  split; [apply createIndexBuffer_outcome|].
  split; [apply createUniformBuffers_outcome|].
  apply BufferManager_constructor_returns.
Qed.

Lemma BufferManager_failures_become_status_witness :
  (createVertexBuffer (BufferSamples.unbuilt [false])
   = (Ret false, after_failed_staging 4 (BufferSamples.unbuilt [false]))
   /\ createIndexBuffer (BufferSamples.unbuilt [false])
      = (Ret false, after_failed_staging 2 (BufferSamples.unbuilt [false]))
   /\ createUniformBuffers (BufferSamples.unbuilt [false])
      = (Ret false, after_failed_uniform (BufferSamples.unbuilt [false])))
  /\ fst (createVertexBuffer (BufferSamples.unbuilt [true; true; false])) = Ret false
  /\ fst (createIndexBuffer (BufferSamples.unbuilt [true; true; false])) = Ret false
  /\ fst (createUniformBuffers (BufferSamples.unbuilt [true; true; false])) = Ret false
  /\ fst (constructor (BufferSamples.unbuilt [true; true; false])) = Ret tt.
Proof.
  split.
  - destruct (BufferManager_failures_become_status (BufferSamples.unbuilt [false]))
      as (_ & _ & _ & Hfirst & _).
    apply Hfirst. reflexivity.
  - destruct (BufferManager_failures_become_status
                (BufferSamples.unbuilt [true; true; false]))
      as (_ & _ & _ & _ & Hvertex & Hindex & Huniform & _ & _ & _ & Hctor).
    split; [exact Hvertex|]. split; [exact Hindex|]. split; [exact Huniform|].
    exact Hctor.
Defined.

(** Against C2 as stated: with a driver that refuses the very first
    buffer, and with one that refuses the device-local vertex buffer
    after serving its staging buffer, construction records the failed
    [vmaCreateBuffer] and still returns normally to its caller, the
    vertex buffer member left as it was and one line on [stderr]. *)
Lemma BufferManager_constructor_swallows_failure :
  let r := constructor (BufferSamples.unbuilt [false]) in
  let r' := constructor (BufferSamples.unbuilt [true; true; false]) in
  existsb is_failed_create (calls (snd r)) = true
  /\ fst r = Ret tt
  /\ vertexBuffer (snd r) = vertexBuffer (BufferSamples.unbuilt [false])
  /\ stderr (snd r) = ["Error: Failed to create buffer!"]
  /\ existsb is_failed_create (calls (snd r')) = true
  /\ fst r' = Ret tt
  /\ vertexBuffer (snd r') = vertexBuffer (BufferSamples.unbuilt [true; true; false])
  /\ stderr (snd r') = ["Error: Failed to create buffer!"].
Proof. vm_compute. repeat split; reflexivity. Qed.

End BufferFailures.

(** ** Framebuffer accessors *)

Section FramebufferAccess.
Import GraphicsPipeline.

Lemma getFrameBuffer_unfold (frameIndex : Z) (framebuffers : State) :
  getFrameBuffer frameIndex framebuffers =
    match framebuffers !! Z.to_nat frameIndex with
    | Some framebuffer => (Ret framebuffer, framebuffers)
    | None => (Undefined, framebuffers)
    end.
Proof.
  unfold getFrameBuffer, bind, get, discarded_temporary, ret, undefined, State in *.
  destruct (bool_decide _);
    destruct (Z.of_nat (length framebuffers) <? frameIndex);
    destruct (framebuffers !! Z.to_nat frameIndex); reflexivity.
Qed.

(** C3 (the code departs from it): neither check of
    [GraphicsPipeline::getFrameBuffer] raises anything, because the
    exception objects are built and dropped.  For every framebuffer
    vector and index the accessor goes on to [framebuffers[frameIndex]]:
    it returns the element when there is one and reads out of bounds
    when there is none, the empty vector included; [getFrameBuffers]
    hands back the vector as it is, empty or not. *)
Theorem getFrameBuffer_never_raises (framebuffers : State) (frameIndex : Z) :
  is_throw (fst (getFrameBuffer frameIndex framebuffers)) = false
  /\ fst (getFrameBuffer frameIndex framebuffers)
     = match framebuffers !! Z.to_nat frameIndex with
       | Some framebuffer => Ret framebuffer
       | None => Undefined
       end
  /\ fst (getFrameBuffers framebuffers) = Ret framebuffers.
Proof.
  rewrite getFrameBuffer_unfold. repeat split.
  - destruct (framebuffers !! Z.to_nat frameIndex); reflexivity.
  - destruct (framebuffers !! Z.to_nat frameIndex); reflexivity.
  - unfold getFrameBuffers, bind, get, discarded_temporary, ret.
    destruct (bool_decide _); reflexivity.
Qed.

(** The failing inputs, and the sibling accessors that do throw on the
    same kind of misuse. *)
Example getFrameBuffer_on_empty_and_past_the_end :
  fst (getFrameBuffer 0 []) = Undefined
  /\ fst (getFrameBuffer 2 [31; 32]) = Undefined
  /\ fst (getFrameBuffer 7 [31; 32]) = Undefined
  /\ fst (getFrameBuffers []) = Ret []
  /\ fst (DescriptorManager.getDescriptorSet 2 [41; 42])
     = Throw (out_of_range "Frame index is out of bounds!")
  /\ fst (getRenderPass VK_NULL_HANDLE)
     = Throw (runtime_error "Render pass is not initialized!").
Proof. vm_compute. repeat split; reflexivity. Qed.

End FramebufferAccess.

(** ** Per-frame uniform upload *)

Section UniformUpload.
Import BufferManager BufferFacts.

Lemma memcpy_lookup_outside (src : list byte) (heap : gmap Z byte) (dst a : Z) :
  ~ (dst <= a < dst + Z.of_nat (length src)) ->
  memcpy heap dst src !! a = heap !! a.
Proof.
  revert dst. induction src as [|b src IH]; intros dst Hout; simpl in *.
  - reflexivity.
  - rewrite lookup_insert_ne by lia. apply IH. lia.
Qed.

Lemma memcpy_lookup_inside (src : list byte) (heap : gmap Z byte) (dst : Z) (i : nat) :
  (i < length src)%nat ->
  memcpy heap dst src !! (dst + Z.of_nat i) = src !! i.
Proof.
  revert dst i. induction src as [|b src IH]; intros dst i Hi; simpl in *.
  - lia.
  - destruct i as [|i].
    + rewrite Z.add_0_r. apply lookup_insert_eq.
    + rewrite lookup_insert_ne by lia.
      replace (dst + Z.of_nat (S i)) with (dst + 1 + Z.of_nat i) by lia.
      apply IH. lia.
Qed.

(** C8: for a frame index below [MAX_FRAMES_IN_FLIGHT] whose mapped
    pointer is not null, [updateUniformBuffer] copies the bytes of the
    struct to that pointer and changes nothing else: the mapped region
    of the slot holds exactly the struct, every address outside it,
    hence every mapped region of another slot, keeps its content, and
    no member changes.  For an index not below the frame count it
    throws [std::out_of_range] and leaves the state as it was. *)
Theorem updateUniformBuffer_writes_its_slot_only
    (s : State) (currentFrame : Z) (ubo : list byte) :
  0 <= currentFrame ->
  length ubo = Z.to_nat sizeof_UniformBufferObject ->
  (currentFrame < Z.of_nat MAX_FRAMES_IN_FLIGHT ->
   forall data,
     uniformBuffersMapped s !! Z.to_nat currentFrame = Some data ->
     data ≠ 0 ->
     exists heap',
       updateUniformBuffer currentFrame ubo s = (Ret tt, with_heap heap' s)
       /\ (forall i, (i < length ubo)%nat ->
             heap' !! (data + Z.of_nat i) = ubo !! i)
       /\ (forall a, ~ (data <= a < data + sizeof_UniformBufferObject) ->
             heap' !! a = heap s !! a)
       /\ (forall slot other k,
             slot ≠ Z.to_nat currentFrame ->
             uniformBuffersMapped s !! slot = Some other ->
             other + sizeof_UniformBufferObject <= data
               \/ data + sizeof_UniformBufferObject <= other ->
             0 <= k < sizeof_UniformBufferObject ->
             heap' !! (other + k) = heap s !! (other + k)))
  /\ (Z.of_nat MAX_FRAMES_IN_FLIGHT <= currentFrame ->
      updateUniformBuffer currentFrame ubo s
      = (Throw (out_of_range "Frame index out of bounds."), s)).
Proof.
  intros Hnonneg Hlen. split.
  - intros Hlt data Hdata Hnull.
    assert (Hsize : Z.of_nat (length ubo) = sizeof_UniformBufferObject).
    { rewrite Hlen. reflexivity. }
    exists (memcpy (heap s) data ubo). split; [|split; [|split]].
    + unfold updateUniformBuffer.
      destruct (Z.leb_spec (Z.of_nat MAX_FRAMES_IN_FLIGHT) currentFrame); [lia|].
      unfold bind, gets. rewrite Hdata.
      destruct (Z.eqb_spec data 0); [contradiction|].
      unfold host_memcpy, modify, with_heap. rewrite <- Hlen, firstn_all.
      reflexivity.
    + intros i Hi. apply memcpy_lookup_inside, Hi.
    + intros a Ha. apply memcpy_lookup_outside. lia.
    + intros slot other k _ _ Hdisjoint Hk. apply memcpy_lookup_outside. lia.
  - intros Hge. unfold updateUniformBuffer.
    destruct (Z.leb_spec (Z.of_nat MAX_FRAMES_IN_FLIGHT) currentFrame); [|lia].
    reflexivity.
Qed.

Lemma updateUniformBuffer_writes_its_slot_only_witness :
  (exists heap',
     updateUniformBuffer 1 UniformSamples.some_ubo UniformSamples.built
     = (Ret tt, with_heap heap' UniformSamples.built)
     /\ heap' !! 8192 = Some "042"%byte
     /\ heap' !! 4096 = None)
  /\ updateUniformBuffer 2 UniformSamples.some_ubo UniformSamples.built
     = (Throw (out_of_range "Frame index out of bounds."), UniformSamples.built).
Proof.
  pose proof (updateUniformBuffer_writes_its_slot_only
                UniformSamples.built 1 UniformSamples.some_ubo
                ltac:(lia) eq_refl) as [Hin _].
  pose proof (updateUniformBuffer_writes_its_slot_only
                UniformSamples.built 2 UniformSamples.some_ubo
                ltac:(lia) eq_refl) as [_ Hout].
  split.
  - destruct (Hin ltac:(vm_compute; reflexivity) 8192 eq_refl ltac:(lia))
      as (heap' & Hrun & Hslot & Hrest & _).
    exists heap'. split; [exact Hrun|]. split.
    + specialize (Hslot 0%nat ltac:(vm_compute; lia)). rewrite Z.add_0_r in Hslot.
      exact Hslot.
    + apply (Hrest 4096). unfold sizeof_UniformBufferObject. lia.
  - apply Hout. unfold MAX_FRAMES_IN_FLIGHT. lia.
Defined.

End UniformUpload.

(** ** Texture upload *)

Section TextureUpload.
Import TextureManager StagingProtocol.

(** C7: a call of [TextureManager::createTextureImage] that uploads (the
    texture is not loaded yet, the file decodes, the driver serves the
    staging buffer, the mapping and the image, and a command pool
    exists) makes exactly the calls of the staging protocol in its
    order: a host-visible staging buffer of the payload's size; map,
    copy of the pixels, unmap; a device-local image; the transition
    UNDEFINED to TRANSFER_DST, the copy from the staging buffer, the
    transition TRANSFER_DST to SHADER_READ_ONLY; and the destruction of
    the staging buffer as the last call before it returns. *)
Theorem createTextureImage_follows_staging_protocol
    (s : State) (decoded : DecodedImage) :
  textureMutex s = false ->
  textureImage s = VK_NULL_HANDLE \/ textureImageMemory s = VK_NULL_HANDLE ->
  imagePath s ≠ "" ->
  files s (imagePath s) = Some decoded ->
  0 <= texWidth decoded < 2 ^ 31 ->
  0 <= texHeight decoded < 2 ^ 31 ->
  texWidth decoded * texHeight decoded * 4 <= INT_MAX ->
  length (pixels decoded) = Z.to_nat (texWidth decoded * texHeight decoded * 4) ->
  commandPool s ≠ VK_NULL_HANDLE ->
  driver_succeeds 3 (driver s) = true ->
  let first := nextHandle (driver s) in
  let data := mapAddress s (first + 1) in
  exists s' stagingUsage imageUsage,
    createTextureImage s = (Ret tt, s')
    /\ host_visible stagingUsage = true
    /\ device_local imageUsage = true
    /\ calls s' =
         calls s ++ staging_upload (imagePath s) (texWidth decoded) (texHeight decoded)
                      stagingUsage imageUsage (commandPool s) first data
    /\ (forall i, (i < length (pixels decoded))%nat ->
          heap s' !! (data + Z.of_nat i) = pixels decoded !! i)
    /\ textureImage s' = first + 2
    /\ textureMutex s' = false.
Proof.
  intros Hmutex Hfresh Hpath Hfile Hw Hh Hsize Hlen Hpool Hdriver first data.
  subst first data.
  destruct s as [[results next] calls0 heap0 mapAddress0 files0 pool0 mutex0
                   path0 image0 memory0].
  destruct decoded as [w h px].
  simpl in *. subst mutex0.
  assert (Hguard : negb (image0 =? VK_NULL_HANDLE) && negb (memory0 =? VK_NULL_HANDLE)
                   = false).
  { destruct Hfresh as [-> | ->]; [reflexivity|]. apply andb_false_r. }
  assert (Hpool' : (pool0 =? VK_NULL_HANDLE) = false) by (apply Z.eqb_neq, Hpool).
  assert (Hint : (INT_MAX <? w * h * 4) = false) by (apply Z.ltb_ge, Hsize).
  assert (Hpx : take (Z.to_nat (w * h * 4)) px = px) by (rewrite <- Hlen; apply firstn_all).
  assert (Hwu : to_uint32 w = w) by (apply Z.mod_small; lia).
  assert (Hhu : to_uint32 h = h) by (apply Z.mod_small; lia).
  assert (Hrun : exists s',
    createTextureImage
      {| driver := {| results := results; nextHandle := next |};
         calls := calls0; heap := heap0; mapAddress := mapAddress0;
         files := files0; commandPool := pool0; textureMutex := false;
         imagePath := path0; textureImage := image0;
         textureImageMemory := memory0 |} = (Ret tt, s')
    /\ calls s' = calls0 ++ staging_upload path0 w h VMA_MEMORY_USAGE_CPU_TO_GPU
                             VMA_MEMORY_USAGE_GPU_ONLY pool0 next
                             (mapAddress0 (next + 1))
    /\ heap s' = memcpy heap0 (mapAddress0 (next + 1)) px
    /\ textureImage s' = next + 2
    /\ textureMutex s' = false).
  { unfold driver_succeeds in Hdriver.
    destruct results as [|[] [|[] [|[] results]]]; simpl in Hdriver;
      try discriminate.
    all: unfold createTextureImage, lock_guard, bind, gets, log, modify, ret, throw,
      createBuffer, createImage, transitionImageLayout, copyBufferToImage,
      beginSingleTimeCommands, endSingleTimeCommands, allocateCommandBuffer,
      submitSingleTimeCommandBuffer, getCommandPool, pop_result, fresh,
      driver_pop, driver_fresh, bind, gets, log, modify, ret, throw,
      with_device, with_texture, with_mutex.
    all: cbn -[Z.mul Z.add to_uint32 memcpy take staging_upload INT_MAX Z.ltb
               pretty String.app].
    all: rewrite Hguard.
    all: rewrite bool_decide_eq_false_2 by exact Hpath.
    all: cbn -[Z.mul Z.add to_uint32 memcpy take staging_upload INT_MAX Z.ltb
               pretty String.app].
    all: rewrite Hfile.
    all: cbn -[Z.mul Z.add to_uint32 memcpy take staging_upload INT_MAX Z.ltb
               pretty String.app].
    all: rewrite Hint.
    all: cbn -[Z.mul Z.add to_uint32 memcpy take staging_upload INT_MAX Z.ltb
               pretty String.app].
    all: repeat (rewrite Hpool';
           cbn -[Z.mul Z.add to_uint32 memcpy take staging_upload INT_MAX Z.ltb
                 pretty String.app]).
    all: eexists; split; [reflexivity|].
    all: cbn -[Z.mul Z.add to_uint32 memcpy take staging_upload].
    all: rewrite Hpx, Hwu, Hhu.
    all: split; [| split; [reflexivity | split; [lia | reflexivity]]].
    all: unfold staging_upload, single_time_commands, to_transfer_dst,
           to_shader_read_only, with_access, createImageMemoryBarrier.
    all: rewrite <- !app_assoc; cbn -[Z.mul Z.add].
    all: replace (next + 1 + 1 + 1 + 1 + 1 + 1) with (next + 6) by lia.
    all: replace (next + 1 + 1 + 1 + 1 + 1) with (next + 5) by lia.
    all: replace (next + 1 + 1 + 1 + 1) with (next + 4) by lia.
    all: replace (next + 1 + 1) with (next + 2) by lia.
    all: reflexivity. }
  destruct Hrun as (s' & Hrun & Hcalls & Hheap & Himage & Hunlocked).
  exists s', VMA_MEMORY_USAGE_CPU_TO_GPU, VMA_MEMORY_USAGE_GPU_ONLY.
  split; [exact Hrun|]. split; [reflexivity|]. split; [reflexivity|].
  split; [exact Hcalls|]. split; [|split; assumption].
  intros i Hi. rewrite Hheap. apply memcpy_lookup_inside, Hi.
Qed.

Lemma createTextureImage_follows_staging_protocol_witness :
  exists s' stagingUsage imageUsage,
    createTextureImage TextureSamples.unloaded = (Ret tt, s')
    /\ host_visible stagingUsage = true
    /\ device_local imageUsage = true
    /\ calls s' = staging_upload "texture.jpg" 2 1 stagingUsage imageUsage 7 50 208896
    /\ (forall i, (i < 8)%nat ->
          heap s' !! (208896 + Z.of_nat i) = pixels TextureSamples.two_pixels !! i)
    /\ textureImage s' = 52
    /\ textureMutex s' = false.
Proof.
  apply (createTextureImage_follows_staging_protocol
           TextureSamples.unloaded TextureSamples.two_pixels).
  - reflexivity.
  - left. reflexivity.
  - discriminate.
  - reflexivity.
  - simpl. lia.
  - simpl. lia.
  - vm_compute. discriminate.
  - reflexivity.
  - discriminate.
  - reflexivity.
Defined.

(** When the texture is already loaded the call is not an upload: the
    guard returns before any device call. *)
Example createTextureImage_skips_loaded_texture :
  fst (createTextureImage (with_texture 52 53 TextureSamples.unloaded)) = Ret tt
  /\ calls (snd (createTextureImage (with_texture 52 53 TextureSamples.unloaded))) = [].
Proof. vm_compute. split; reflexivity. Qed.

End TextureUpload.


(** ** Descriptor layout and pool *)

Section Descriptors.
Import DescriptorManager DescriptorFacts.

Lemma pool_admits_no_more (k : nat) :
  (MAX_FRAMES_IN_FLIGHT < k)%nat ->
  pool_admits (pool_for (Z.of_nat MAX_FRAMES_IN_FLIGHT))
    (replicate k two_binding_layout) = false.
Proof.
  intros Hk. unfold pool_admits. rewrite length_replicate.
  replace (Z.of_nat k <=? maxSets (pool_for (Z.of_nat MAX_FRAMES_IN_FLIGHT)))
    with false; [reflexivity|].
  symmetry. apply Z.leb_gt. simpl. unfold MAX_FRAMES_IN_FLIGHT in *. lia.
Qed.

End Descriptors.

(** ** Frame synchronisation objects *)

Section FrameSync.
Import CommandBufferManager SyncFacts.

Lemma bind_run {St A B} (m : M St A) (k : A -> M St B) (s s1 : St) (a : A) :
  m s = (Ret a, s1) -> bind m k s = k a s1.
Proof. intros Hm. unfold bind. rewrite Hm. reflexivity. Qed.

Lemma driver_succeeds_pop (n : nat) (d : Driver) :
  driver_succeeds (S n) d = true -> fst (driver_pop d) = true.
Proof.
  destruct d as [[|[] rest] next]; unfold driver_succeeds, driver_pop; simpl;
    intros H; first [reflexivity | discriminate].
Qed.

Lemma driver_succeeds_served (n : nat) (d : Driver) :
  driver_succeeds (S n) d = true -> driver_succeeds n (driver_served d) = true.
Proof.
  destruct d as [[|[] rest] next];
    unfold driver_succeeds, driver_served, driver_pop, driver_fresh; simpl;
    intros H; first [exact H | discriminate | idtac].
  destruct n; reflexivity.
Qed.

Lemma driver_succeeds_weaken (n : nat) (d : Driver) :
  driver_succeeds (S n) d = true -> driver_succeeds n d = true.
Proof.
  unfold driver_succeeds. generalize (results d) as l.
  induction n as [|n IH]; intros l; [reflexivity|].
  destruct l as [|ok l]; [reflexivity|].
  change (ok && forallb (fun ok => ok) (take (S n) l) = true ->
          ok && forallb (fun ok => ok) (take n l) = true).
  rewrite !andb_true_iff. intros [Hok Hrest]. split; [exact Hok|].
  apply IH, Hrest.
Qed.

Lemma driver_served_nextHandle (d : Driver) :
  nextHandle (driver_served d) = nextHandle d + 1.
Proof. destruct d as [[|ok rest] next]; reflexivity. Qed.

Lemma createCommandPool_run (s : State) (family : Z) :
  graphicsFamily s = Some family ->
  fst (driver_pop (driver s)) = true ->
  createCommandPool s = (Ret tt, pool_created family s).
Proof.
  intros Hfamily Hok.
  unfold createCommandPool, pool_created, driver_served, bind, gets, pop_result,
    log, modify, fresh, ret.
  rewrite Hfamily.
  destruct (driver s) as [[|ok rest] next]; simpl in *; [reflexivity|].
  subst ok. reflexivity.
Qed.

Lemma createSemaphore_run (s : State) :
  fst (driver_pop (driver s)) = true ->
  createSemaphore s = (Ret (nextHandle (driver s)), semaphore_created s).
Proof.
  intros Hok.
  unfold createSemaphore, semaphore_created, driver_served, bind, pop_result,
    log, modify, fresh, ret.
  destruct (driver s) as [[|ok rest] next]; simpl in *; [reflexivity|].
  subst ok. reflexivity.
Qed.

Lemma createFence_run (s : State) :
  fst (driver_pop (driver s)) = true ->
  createFence s = (Ret (nextHandle (driver s)), fence_created s).
Proof.
  intros Hok.
  unfold createFence, device_createFence, fence_created, driver_served, bind,
    pop_result, log, modify, fresh, ret.
  destruct (driver s) as [[|ok rest] next]; simpl in *; [reflexivity|].
  subst ok. reflexivity.
Qed.

Lemma createSyncObjects_run (s : State) :
  driver_succeeds 6 (driver s) = true ->
  createSyncObjects s = (Ret tt, sync_created s).
Proof.
  intros H6.
  pose proof (driver_succeeds_served _ _ H6) as H5.
  pose proof (driver_succeeds_served _ _ H5) as H4.
  pose proof (driver_succeeds_served _ _ H4) as H3.
  pose proof (driver_succeeds_served _ _ H3) as H2.
  pose proof (driver_succeeds_served _ _ H2) as H1.
  unfold createSyncObjects.
  erewrite bind_run by reflexivity.
  unfold MAX_FRAMES_IN_FLIGHT at 1. simpl seq. simpl for_each.
  erewrite (bind_run _ _ _ (slot_created 0 (sync_resized s))); [|
    erewrite bind_run
      by (apply createSemaphore_run; exact (driver_succeeds_pop _ _ H6));
    erewrite bind_run by reflexivity;
    erewrite bind_run
      by (apply createSemaphore_run; exact (driver_succeeds_pop _ _ H5));
    erewrite bind_run by reflexivity;
    erewrite bind_run
      by (apply createFence_run; exact (driver_succeeds_pop _ _ H4));
    reflexivity ].
  erewrite (bind_run _ _ _ (sync_created s)); [reflexivity|].
  erewrite bind_run
    by (apply createSemaphore_run; exact (driver_succeeds_pop _ _ H3)).
  erewrite bind_run by reflexivity.
  erewrite bind_run
    by (apply createSemaphore_run; exact (driver_succeeds_pop _ _ H2)).
  erewrite bind_run by reflexivity.
  erewrite bind_run
    by (apply createFence_run; exact (driver_succeeds_pop _ _ H1)).
  reflexivity.
Qed.

Lemma createCommandBuffers_run (s : State) :
  (length (commandBuffers s) <= 2)%nat ->
  fst (driver_pop (driver s)) = true ->
  createCommandBuffers s = (Ret tt, buffers_created s).
Proof.
  intros Hlen Hok.
  assert (Hcount : length (vector_resize MAX_FRAMES_IN_FLIGHT VK_NULL_HANDLE
                             (commandBuffers s)) = 2%nat).
  { unfold vector_resize, MAX_FRAMES_IN_FLIGHT.
    rewrite length_app, length_take, length_replicate. lia. }
  unfold createCommandBuffers, buffers_created, driver_served, bind, gets,
    pop_result, log, modify, ret.
  cbn [commandBuffers with_commands commandPool driver calls fences semaphores
       pending with_device fst snd].
  rewrite Hcount. change (to_uint32 (Z.of_nat 2)) with 2.
  destruct (driver s) as [[|ok rest] next]; simpl in *; [reflexivity|].
  subst ok. reflexivity.
Qed.

(** C10: when the driver serves the creations of the constructor, every
    frame slot ends up with an in-flight fence that is signaled and two
    semaphores that are not; a first [waitForFences] on any slot then
    returns at once, whatever work is or is not pending on the device. *)
Theorem CommandBufferManager_fences_start_signaled (s : State) (slot : nat) :
  unconstructed s ->
  graphicsFamily s <> None ->
  deviceLost s = false ->
  driver_succeeds 8 (driver s) = true ->
  (slot < MAX_FRAMES_IN_FLIGHT)%nat ->
  exists s' available finished fence,
    constructor s = (Ret tt, s')
    /\ imageAvailableSemaphores s' !! slot = Some available
    /\ renderFinishedSemaphores s' !! slot = Some finished
    /\ inFlightFences s' !! slot = Some fence
    /\ semaphores s' !! available = Some false
    /\ semaphores s' !! finished = Some false
    /\ fences s' !! fence = Some true
    /\ pending s' = pending s
    /\ waitForFences (Z.of_nat slot) s' = (Ret tt, after_immediate_wait fence s').
Proof.
  intros (Hcb & Hia & Hrf & Hif) Hfamily Hlost H8 Hslot.
  destruct (graphicsFamily s) as [family|] eqn:Hfam; [clear Hfamily|congruence].
  pose proof (driver_succeeds_served _ _ H8) as H7.
  pose proof (driver_succeeds_served _ _ H7) as H6.
  pose proof (driver_succeeds_served _ _ H6) as H5.
  pose proof (driver_succeeds_served _ _ H5) as H4.
  pose proof (driver_succeeds_served _ _ H4) as H3.
  pose proof (driver_succeeds_served _ _ H3) as H2.
  pose proof (driver_succeeds_served _ _ H2) as H1.
  set (n := nextHandle (driver s)) in *.
  assert (Hrun : exists s',
    constructor s = (Ret tt, s')
    /\ imageAvailableSemaphores s' = [n + 1; n + 1 + 1 + 1 + 1]
    /\ renderFinishedSemaphores s' = [n + 1 + 1; n + 1 + 1 + 1 + 1 + 1]
    /\ inFlightFences s' = [n + 1 + 1 + 1; n + 1 + 1 + 1 + 1 + 1 + 1]
    /\ semaphores s' =
         <[n + 1 + 1 + 1 + 1 + 1 := false]> (<[n + 1 + 1 + 1 + 1 := false]>
           (<[n + 1 + 1 := false]> (<[n + 1 := false]> (semaphores s))))
    /\ fences s' =
         <[n + 1 + 1 + 1 + 1 + 1 + 1 := true]> (<[n + 1 + 1 + 1 := true]> (fences s))
    /\ pending s' = pending s
    /\ deviceLost s' = false).
  { eexists. split.
    - unfold constructor.
      erewrite bind_run by reflexivity.
      erewrite bind_run
        by (apply (createCommandPool_run _ family);
            [exact Hfam | exact (driver_succeeds_pop _ _ H8)]).
      erewrite bind_run
        by (apply createSyncObjects_run;
            exact (driver_succeeds_weaken _ _ H7)).
      apply createCommandBuffers_run.
      + cbn [commandBuffers with_commands with_sync with_device pool_created
             semaphore_created fence_created sync_created slot_created
             sync_resized]. rewrite Hcb. simpl. lia.
      + exact (driver_succeeds_pop _ _ H1).
    - cbn [imageAvailableSemaphores renderFinishedSemaphores inFlightFences
           semaphores fences pending deviceLost driver
           with_commands with_sync with_device pool_created
           semaphore_created fence_created buffers_created
           sync_created slot_created sync_resized].
      rewrite !driver_served_nextHandle. fold n.
      rewrite Hia, Hrf, Hif, Hlost.
      repeat split; reflexivity. }
  destruct Hrun as (s' & Hrun & Hias & Hrfs & Hiffs & Hsem & Hfen & Hpend & Hlost').
  assert (Hwait : forall fence,
            inFlightFences s' !! slot = Some fence ->
            fences s' !! fence = Some true ->
            waitForFences (Z.of_nat slot) s' = (Ret tt, after_immediate_wait fence s')).
  { intros fence Hf Hsig.
    unfold waitForFences, device_waitForFence, bind, gets, get.
    rewrite Nat2Z.id, Hf, Hlost', Hsig. reflexivity. }
  unfold MAX_FRAMES_IN_FLIGHT in Hslot.
  destruct slot as [|[|slot]]; [| |lia].
  - exists s', (n + 1), (n + 1 + 1), (n + 1 + 1 + 1).
    split; [exact Hrun|].
    assert (Hsig : fences s' !! (n + 1 + 1 + 1) = Some true).
    { rewrite Hfen. rewrite lookup_insert_ne by lia. apply lookup_insert_eq. }
    rewrite Hias, Hrfs, Hiffs, Hsem.
    repeat split; try reflexivity; try assumption.
    + rewrite !lookup_insert_ne by lia. apply lookup_insert_eq.
    + rewrite !lookup_insert_ne by lia. apply lookup_insert_eq.
    + apply Hwait; [rewrite Hiffs; reflexivity | exact Hsig].
  - exists s', (n + 1 + 1 + 1 + 1), (n + 1 + 1 + 1 + 1 + 1),
      (n + 1 + 1 + 1 + 1 + 1 + 1).
    split; [exact Hrun|].
    assert (Hsig : fences s' !! (n + 1 + 1 + 1 + 1 + 1 + 1) = Some true).
    { rewrite Hfen. apply lookup_insert_eq. }
    rewrite Hias, Hrfs, Hiffs, Hsem.
    repeat split; try reflexivity; try assumption.
    + rewrite !lookup_insert_ne by lia. apply lookup_insert_eq.
    + apply lookup_insert_eq.
    + apply Hwait; [rewrite Hiffs; reflexivity | exact Hsig].
Qed.

Lemma CommandBufferManager_fences_start_signaled_witness :
  exists s' available finished fence,
    constructor SyncSamples.unbuilt = (Ret tt, s')
    /\ imageAvailableSemaphores s' !! 1%nat = Some available
    /\ renderFinishedSemaphores s' !! 1%nat = Some finished
    /\ inFlightFences s' !! 1%nat = Some fence
    /\ semaphores s' !! available = Some false
    /\ semaphores s' !! finished = Some false
    /\ fences s' !! fence = Some true
    /\ pending s' = []
    /\ waitForFences 1 s' = (Ret tt, after_immediate_wait fence s').
Proof.
  apply (CommandBufferManager_fences_start_signaled SyncSamples.unbuilt 1).
  - repeat split; reflexivity.
  - discriminate.
  - reflexivity.
  - reflexivity.
  - unfold MAX_FRAMES_IN_FLIGHT. lia.
Defined.

(** A fence created without the signaled bit would block the first
    wait on an idle device: the flag is what lets the first frame run. *)
Example unsignaled_fence_blocks_first_wait :
  let created := device_createFence 0 SyncSamples.unbuilt in
  fst created = Ret (Some 70)
  /\ fst (device_waitForFence 70 UINT64_MAX (snd created)) = Blocked.
Proof. vm_compute. split; reflexivity. Qed.

End FrameSync.

(** * Further properties *)

(** ** Logs that only grow *)

Section Extends.
Context {St C : Type} (log : St -> list C) (P : C -> Prop).

Lemma extends_ret {A} (a : A) : extends log P (@ret St A a).
Proof. intros s. exists []. rewrite app_nil_r. split; [reflexivity | constructor]. Qed.

Lemma extends_pure {A} (r : outcome A) : extends log P (fun s : St => (r, s)).
Proof. intros s. exists []. rewrite app_nil_r. split; [reflexivity | constructor]. Qed.

Lemma extends_modify (f : St -> St) :
  (forall s, log (f s) = log s) -> extends log P (modify f).
Proof.
  intros Hf s. exists []. rewrite app_nil_r. split; [apply Hf | constructor].
Qed.

Lemma extends_bind {A B} (m : M St A) (k : A -> M St B) :
  extends log P m -> (forall a, extends log P (k a)) -> extends log P (bind m k).
Proof.
  intros Hm Hk s. unfold bind. destruct (Hm s) as (added & Hlog & Hadded).
  destruct (m s) as [[a| | |] s1]; simpl in *; try (exists added; split; assumption).
  destruct (Hk a s1) as (added' & Hlog' & Hadded').
  exists (added ++ added'). split.
  - rewrite Hlog', Hlog. symmetry. apply app_assoc.
  - apply Forall_app. split; assumption.
Qed.

Lemma extends_for_each {A} (xs : list A) (body : A -> M St unit) :
  (forall x, extends log P (body x)) -> extends log P (for_each xs body).
Proof.
  intros Hbody. induction xs as [|x xs IH]; simpl.
  - apply extends_ret.
  - apply extends_bind; [apply Hbody | intros _; exact IH].
Qed.

End Extends.

Lemma for_each_app {St A} (xs ys : list A) (body : A -> M St unit) (s : St) :
  for_each (xs ++ ys) body s
  = bind (for_each xs body) (fun _ => for_each ys body) s.
Proof.
  revert s. induction xs as [|x xs IH]; intros s; simpl.
  - reflexivity.
  - unfold bind. destruct (body x s) as [[u| | |] s1]; try reflexivity.
    rewrite IH. reflexivity.
Qed.

Lemma driver_all_succeed (n : nat) (d : Driver) :
  forallb (fun ok => ok) (results d) = true -> driver_succeeds n d = true.
Proof.
  unfold driver_succeeds. generalize (results d) as l. intros l. revert n.
  induction l as [|ok l IH]; intros [|n] H; try reflexivity.
  simpl in *. apply andb_true_iff in H as [-> H]. simpl. apply IH, H.
Qed.

Lemma driver_served_results (d : Driver) :
  results (driver_served d) = drop 1 (results d).
Proof. destruct d as [[|ok rest] next]; reflexivity. Qed.

Lemma driver_served_iter_results (n : nat) (d : Driver) :
  results (Nat.iter n driver_served d) = drop n (results d).
Proof.
  revert d. induction n as [|n IH]; intros d.
  - reflexivity.
  - rewrite Nat.iter_succ_r, IH, driver_served_results, drop_drop. reflexivity.
Qed.

Lemma driver_served_iter_nextHandle (n : nat) (d : Driver) :
  nextHandle (Nat.iter n driver_served d) = nextHandle d + Z.of_nat n.
Proof.
  induction n as [|n IH].
  - simpl. lia.
  - cbn [Nat.iter nat_rect]. rewrite driver_served_nextHandle.
    change (nat_rect _ d (fun _ => driver_served) n) with (Nat.iter n driver_served d).
    rewrite IH. lia.
Qed.

Lemma driver_pop_refuses (d : Driver) (k : nat) :
  results d !! k = Some false ->
  fst (driver_pop (Nat.iter k driver_served d)) = false.
Proof.
  intros Hk. unfold driver_pop. rewrite driver_served_iter_results.
  destruct (drop k (results d)) as [|ok rest] eqn:Hdrop.
  - apply (f_equal (fun l => l !! 0%nat)) in Hdrop.
    rewrite lookup_drop, Nat.add_0_r, Hk in Hdrop. discriminate.
  - apply (f_equal (fun l => l !! 0%nat)) in Hdrop.
    rewrite lookup_drop, Nat.add_0_r, Hk in Hdrop. simpl in Hdrop.
    injection Hdrop as <-. reflexivity.
Qed.

(** ** Swap-chain creation and teardown *)

Section SwapChainLifecycle.
Import SwapChainSelect SwapChain SwapChainMore Samples.

Lemma creates_log (c : VkCall) :
  is_destroy c = false -> extends calls creates (log c).
Proof.
  intros Hc s. exists [c]. split; [reflexivity|]. constructor; [exact Hc | constructor].
Qed.

Lemma creates_driver_create : extends calls creates driver_create.
Proof.
  intros s. exists []. rewrite app_nil_r. split; [|constructor].
  unfold driver_create. destruct (driver_pop (driver s)) as [[|] d]; reflexivity.
Qed.

Lemma creates_optional_value {A} (o : option A) :
  extends calls creates (optional_value o).
Proof. destruct o; apply extends_pure. Qed.

Ltac creates_step known :=
  first
    [ known
    | apply creates_driver_create
    | apply creates_optional_value
    | apply extends_pure
    | apply creates_log; reflexivity
    | apply extends_modify; reflexivity
    | apply extends_for_each; intros ?
    | apply extends_bind; [| intros ?]
    | match goal with
      | |- extends _ _ (match ?c with _ => _ end) => destruct c
      end ].

Lemma creates_createSwapChain : extends calls creates createSwapChain.
Proof. unfold createSwapChain. repeat creates_step fail. Qed.

Lemma creates_createImageView (image : handle) (fmt : VkFormat) :
  extends calls creates (createImageView image fmt).
Proof. unfold createImageView. repeat creates_step fail. Qed.

Lemma creates_createImageViews : extends calls creates createImageViews.
Proof.
  unfold createImageViews.
  repeat creates_step ltac:(apply creates_createImageView).
Qed.

Lemma logged_logged (a b : list VkCall) (s : State) :
  logged b (logged a s) = logged (a ++ b) s.
Proof. unfold logged. simpl. rewrite app_assoc. reflexivity. Qed.

Lemma destroy_views_run (views : list handle) (s : State) :
  for_each views (fun imageView => log (vkDestroyImageView imageView)) s
  = (Ret tt, logged (map vkDestroyImageView views) s).
Proof.
  revert s. induction views as [|v views IH]; intros s; simpl.
  - unfold ret, logged. rewrite app_nil_r. destruct s; reflexivity.
  - unfold bind at 1. unfold log at 1. unfold modify.
    change ({| surface := surface s; driver := driver s; calls := calls s ++ [vkDestroyImageView v];
         swapChain := swapChain s; swapChainImages := swapChainImages s;
         swapChainImageFormat := swapChainImageFormat s;
         swapChainExtent := swapChainExtent s;
         swapChainImageViews := swapChainImageViews s |}) with (logged [vkDestroyImageView v] s).
    rewrite IH, logged_logged. reflexivity.
Qed.

Lemma cleanupSwapChain_run (s : State) :
  cleanupSwapChain s
  = (Ret tt, logged (map vkDestroyImageView (swapChainImageViews s)
                       ++ [vkDestroySwapchainKHR (swapChain s)]) s).
Proof.
  unfold cleanupSwapChain. unfold bind at 1. unfold gets at 1.
  unfold bind at 1. rewrite destroy_views_run.
  unfold bind, gets, log, modify. simpl.
  unfold logged. simpl. rewrite <- app_assoc. reflexivity.
Qed.

Lemma destructor_run (s : State) :
  destructor s
  = (Ret tt, logged (map vkDestroyImageView (swapChainImageViews s)
                       ++ [vkDestroySwapchainKHR (swapChain s)]) s).
Proof.
  unfold destructor, cleanupImageViews. unfold bind at 1. unfold bind at 1.
  unfold gets at 1. rewrite destroy_views_run.
  unfold bind, gets, log, modify. simpl.
  unfold logged. simpl. rewrite <- app_assoc. reflexivity.
Qed.

(** X1: [cleanupSwapChain] followed by [recreateSwapChain], as the
    application's resize path runs them, destroys first: whatever the
    surface reports and the driver answers, the calls made are the
    destruction of every old view in order, that of the old chain, and
    after them creations and queries only. *)
Theorem cleanup_then_recreate_destroys_first (s : State) :
  exists created,
    calls (snd (application_recreateSwapChain s))
    = calls s ++ map vkDestroyImageView (swapChainImageViews s)
        ++ [vkDestroySwapchainKHR (swapChain s)] ++ created
    /\ Forall (fun c => is_destroy c = false) created.
Proof.
  unfold application_recreateSwapChain.
  rewrite (bind_run _ _ _ _ _ (cleanupSwapChain_run s)).
  assert (Hcreates : extends calls creates recreateSwapChain).
  { unfold recreateSwapChain. apply extends_bind;
      [apply creates_createSwapChain | intros _; apply creates_createImageViews]. }
  destruct (Hcreates (logged (map vkDestroyImageView (swapChainImageViews s)
                                ++ [vkDestroySwapchainKHR (swapChain s)]) s))
    as (created & Hcalls & Hcreated).
  exists created. split; [|exact Hcreated].
  rewrite Hcalls. simpl. rewrite <- !app_assoc. reflexivity.
Qed.

Lemma chooseSwapSurfaceFormat_returns (l : list VkSurfaceFormatKHR) :
  l <> [] -> exists f, chooseSwapSurfaceFormat l = Ret f /\ f ∈ l.
Proof.
  intros Hne. unfold chooseSwapSurfaceFormat.
  destruct (chooseSwapSurfaceFormat_loop l) as [f|] eqn:Hloop.
  - exists f. split; [reflexivity|].
    clear Hne. induction l as [|x l IH]; simpl in Hloop; [discriminate|].
    destruct (is_preferred x).
    + injection Hloop as <-. left.
    + right. apply IH, Hloop.
  - destruct l as [|x l]; [congruence|]. exists x. split; [reflexivity | left].
Qed.

Lemma createSwapChain_served (s : State) (g p : Z) :
  formats (support (surface s)) <> [] ->
  graphicsFamily (queueFamilies (surface s)) = Some g ->
  presentFamily (queueFamilies (surface s)) = Some p ->
  fst (driver_pop (driver s)) = true ->
  exists s' createInfo,
    createSwapChain s = (Ret tt, s')
    /\ calls s' = calls s ++ [ vkCreateSwapchainKHR createInfo true;
                              vkGetSwapchainImagesKHR (nextHandle (driver s)) false;
                              vkGetSwapchainImagesKHR (nextHandle (driver s)) true ]
    /\ ci_minImageCount createInfo
       = (let caps := capabilities (support (surface s)) in
          let imageCount := to_uint32 (minImageCount caps + 1) in
          if (0 <? maxImageCount caps) && (maxImageCount caps <? imageCount)
          then maxImageCount caps else imageCount)
    /\ ci_imageExtent createInfo
       = chooseSwapExtent (capabilities (support (surface s)))
           (framebufferSize (surface s))
    /\ ci_oldSwapchain createInfo = VK_NULL_HANDLE
    /\ swapChain s' = nextHandle (driver s)
    /\ swapChainImages s'
       = imagesFor (surface s) (ci_minImageCount createInfo) (nextHandle (driver s))
    /\ swapChainExtent s' = ci_imageExtent createInfo
    /\ swapChainImageFormat s' = ci_imageFormat createInfo
    /\ swapChainImageViews s' = swapChainImageViews s
    /\ driver s' = driver_served (driver s).
Proof.
  intros Hformats Hg Hp Hok.
  destruct (chooseSwapSurfaceFormat_returns _ Hformats) as (f & Hf & _).
  unfold createSwapChain, bind, gets, optional_value, driver_create, log, set_chain,
    modify, ret, throw.
  rewrite Hf, Hg, Hp. cbn [fst snd].
  unfold driver_served.
  destruct (driver_pop (driver s)) as [ok d] eqn:Hpop. simpl in Hok. subst ok.
  assert (Hnext : nextHandle d = nextHandle (driver s)).
  { unfold driver_pop in Hpop.
    destruct (results (driver s)) as [|b r]; inversion Hpop; reflexivity. }
  cbn -[to_uint32 chooseSwapExtent chooseSwapPresentMode Z.add Z.ltb].
  eexists. eexists. split; [reflexivity|].
  cbn -[to_uint32 chooseSwapExtent chooseSwapPresentMode Z.add Z.ltb].
  rewrite Hnext.
  split; [rewrite <- !app_assoc; reflexivity|].
  repeat split; reflexivity.
Qed.

(** X2: when the surface offers a format, both queue families are
    known and the driver accepts, [createSwapChain] asks for exactly one
    image more than the surface's minimum, capped by the surface's
    maximum when it has one (0 means none); on a surface whose maximum,
    if any, is not below its minimum, that count is never below the
    minimum and never above a declared maximum.  It asks with the extent
    [chooseSwapExtent] picks and no old swap chain, queries the images
    of the new chain twice (their count, then the images), and keeps the
    chain's handle, images, extent and format. *)
Theorem createSwapChain_image_count_in_bounds (s : State) (g p : Z) :
  formats (support (surface s)) <> [] ->
  graphicsFamily (queueFamilies (surface s)) = Some g ->
  presentFamily (queueFamilies (surface s)) = Some p ->
  fst (driver_pop (driver s)) = true ->
  let caps := capabilities (support (surface s)) in
  0 <= minImageCount caps < UINT32_MAX ->
  maxImageCount caps = 0 \/ minImageCount caps <= maxImageCount caps ->
  exists s' createInfo,
    createSwapChain s = (Ret tt, s')
    /\ calls s' = calls s ++ [ vkCreateSwapchainKHR createInfo true;
                              vkGetSwapchainImagesKHR (nextHandle (driver s)) false;
                              vkGetSwapchainImagesKHR (nextHandle (driver s)) true ]
    /\ ci_minImageCount createInfo
       = (if (0 <? maxImageCount caps) && (maxImageCount caps <? minImageCount caps + 1)
          then maxImageCount caps else minImageCount caps + 1)
    /\ minImageCount caps <= ci_minImageCount createInfo <= minImageCount caps + 1
    /\ (0 < maxImageCount caps -> ci_minImageCount createInfo <= maxImageCount caps)
    /\ (maxImageCount caps = 0 -> ci_minImageCount createInfo = minImageCount caps + 1)
    /\ ci_imageExtent createInfo = chooseSwapExtent caps (framebufferSize (surface s))
    /\ ci_oldSwapchain createInfo = VK_NULL_HANDLE
    /\ swapChain s' = nextHandle (driver s)
    /\ swapChainImages s'
       = imagesFor (surface s) (ci_minImageCount createInfo) (nextHandle (driver s))
    /\ swapChainExtent s' = ci_imageExtent createInfo
    /\ swapChainImageFormat s' = ci_imageFormat createInfo
    /\ swapChainImageViews s' = swapChainImageViews s.
Proof.
  intros Hformats Hg Hp Hok caps Hmin Hmax.
  destruct (createSwapChain_served s g p Hformats Hg Hp Hok)
    as (s' & createInfo & Hrun & Hcalls & Hcount & Hextent & Hold & Hchain & Himages
        & Hext & Hfmt & Hviews & _).
  exists s', createInfo.
  cbv zeta in Hcount. fold caps in Hcount.
  assert (Hwrap : to_uint32 (minImageCount caps + 1) = minImageCount caps + 1).
  { apply Z.mod_small. unfold UINT32_MAX in Hmin. lia. }
  rewrite Hwrap in Hcount.
  repeat split; try assumption.
  all: rewrite Hcount;
    destruct (Z.ltb_spec 0 (maxImageCount caps));
    destruct (Z.ltb_spec (maxImageCount caps) (minImageCount caps + 1));
    simpl; try lia.
Qed.

Lemma createSwapChain_image_count_in_bounds_witness :
  exists s' createInfo,
    createSwapChain live_swap_chain = (Ret tt, s')
    /\ ci_minImageCount createInfo = 3
    /\ swapChain s' = 100
    /\ calls s' = [ vkCreateSwapchainKHR createInfo true;
                    vkGetSwapchainImagesKHR 100 false;
                    vkGetSwapchainImagesKHR 100 true ].
Proof.
  destruct (createSwapChain_image_count_in_bounds live_swap_chain 0 0)
    as (s' & createInfo & Hrun & Hcalls & Hcount & _ & _ & _ & _ & _ & Hchain & _).
  - discriminate.
  - reflexivity.
  - reflexivity.
  - reflexivity.
  - vm_compute. split; [discriminate | reflexivity].
  - right. vm_compute. discriminate.
  - exists s', createInfo. split; [exact Hrun|]. split; [exact Hcount|].
    split; [exact Hchain | exact Hcalls].
Defined.

Lemma createImageViews_body_run (i : nat) (image : handle) (s : State) :
  swapChainImages s !! i = Some image ->
  fst (driver_pop (driver s)) = true ->
  (images <- gets swapChainImages ;;
   fmt <- gets swapChainImageFormat ;;
   match images !! i with
   | None => undefined
   | Some image =>
       imageView <- createImageView image fmt ;;
       views <- gets swapChainImageViews ;;
       set_views (<[i := imageView]> views)
   end)%cpp s = (Ret tt, view_created i image s).
Proof.
  intros Himage Hok.
  unfold bind, gets, createImageView, driver_create, log, set_views, modify, ret,
    view_created, viewed, logged, set_driver, driver_served, bind.
  rewrite Himage. simpl.
  destruct (driver s) as [[|ok rest] next]; simpl in *; [reflexivity|].
  subst ok. reflexivity.
Qed.

Lemma createImageViews_body_refused (i : nat) (image : handle) (s : State) :
  swapChainImages s !! i = Some image ->
  fst (driver_pop (driver s)) = false ->
  (images <- gets swapChainImages ;;
   fmt <- gets swapChainImageFormat ;;
   match images !! i with
   | None => undefined
   | Some image =>
       imageView <- createImageView image fmt ;;
       views <- gets swapChainImageViews ;;
       set_views (<[i := imageView]> views)
   end)%cpp s
  = (Throw (runtime_error "failed to create image views for swap chain!"),
     logged [vkCreateImageView image (swapChainImageFormat s) false]
       (set_driver (snd (driver_pop (driver s))) s)).
Proof.
  intros Himage Hok.
  unfold bind, gets, createImageView, driver_create, log, set_views, modify, ret,
    throw, logged, set_driver, bind.
  rewrite Himage. simpl.
  destruct (driver s) as [[|ok rest] next]; simpl in *; [discriminate|].
  subst ok. reflexivity.
Qed.

Lemma createImageViews_loop (m : nat) :
  forall (k : nat) (s : State) (done todo rest : list handle),
    swapChainImageViews s = done ++ todo ++ rest ->
    length done = k ->
    length todo = m ->
    (k + m <= length (swapChainImages s))%nat ->
    driver_succeeds m (driver s) = true ->
    exists s',
      for_each (seq k m) (fun i =>
        images <- gets swapChainImages ;;
        fmt <- gets swapChainImageFormat ;;
        match images !! i with
        | None => undefined
        | Some image =>
            imageView <- createImageView image fmt ;;
            views <- gets swapChainImageViews ;;
            set_views (<[i := imageView]> views)
        end)%cpp s = (Ret tt, s')
      /\ swapChainImageViews s' = done ++ fresh_handles m (driver s) ++ rest
      /\ calls s'
         = calls s ++ map (fun image => vkCreateImageView image (swapChainImageFormat s) true)
                        (take m (drop k (swapChainImages s)))
      /\ driver s' = Nat.iter m driver_served (driver s)
      /\ swapChainImages s' = swapChainImages s
      /\ swapChainImageFormat s' = swapChainImageFormat s
      /\ swapChain s' = swapChain s
      /\ swapChainExtent s' = swapChainExtent s
      /\ surface s' = surface s.
Proof.
  induction m as [|m IH]; intros k s done todo rest Hviews Hdone Htodo Himages Hdriver.
  - exists s. destruct todo; [|discriminate]. simpl.
    rewrite !app_nil_r in *.
    repeat split; try reflexivity. exact Hviews.
  - destruct todo as [|stale todo]; [discriminate|].
    destruct (swapChainImages s !! k) as [image|] eqn:Himage.
    2:{ apply lookup_ge_None in Himage. exfalso. lia. }
    cbn [seq for_each].
    rewrite (bind_run _ _ _ _ _
               (createImageViews_body_run k image s Himage
                  (driver_succeeds_pop _ _ Hdriver))).
    destruct (IH (S k) (view_created k image s)
                (done ++ [nextHandle (driver s)]) todo rest)
      as (s' & Hrun & Hv & Hc & Hd & Hi & Hf & Hsc & He & Hsu).
    + simpl. rewrite Hviews.
      unfold handle in *.
      rewrite insert_app_r_alt by (apply Nat.eq_le_incl, Hdone).
      rewrite Hdone, Nat.sub_diag. simpl.
      rewrite <- app_assoc. reflexivity.
    + rewrite length_app. simpl. lia.
    + simpl in Htodo. lia.
    + simpl. lia.
    + simpl. apply driver_succeeds_served, Hdriver.
    + exists s'. split; [exact Hrun|]. simpl in *.
      rewrite Hv, Hc, Hd, Hi, Hf, Hsc, He, Hsu. repeat split; try reflexivity.
      * rewrite <- app_assoc. f_equal. unfold fresh_handles. simpl.
        rewrite Z.add_0_r. f_equal. f_equal.
        rewrite <- seq_shift, map_map. apply map_ext. intros j.
        destruct (driver s) as [[|ok r] next]; simpl; lia.
      * rewrite <- app_assoc. f_equal.
        rewrite (drop_S _ image k) by exact Himage. reflexivity.
      * symmetry. apply (Nat.iter_succ_r m driver_served).
Qed.

Lemma createImageViews_served (s : State) :
  driver_succeeds (length (swapChainImages s)) (driver s) = true ->
  exists s',
    createImageViews s = (Ret tt, s')
    /\ swapChainImageViews s'
       = fresh_handles (length (swapChainImages s)) (driver s)
    /\ calls s'
       = calls s ++ map (fun image => vkCreateImageView image (swapChainImageFormat s) true)
                      (swapChainImages s)
    /\ swapChainImages s' = swapChainImages s
    /\ swapChain s' = swapChain s.
Proof.
  intros Hdriver. unfold createImageViews.
  erewrite bind_run by reflexivity.
  erewrite bind_run by reflexivity.
  erewrite bind_run by reflexivity.
  set (n := length (swapChainImages s)) in *.
  destruct (createImageViews_loop n 0
              (viewed (vector_resize n VK_NULL_HANDLE (swapChainImageViews s)) s)
              [] (vector_resize n VK_NULL_HANDLE (swapChainImageViews s)) [])
    as (s' & Hrun & Hv & Hc & _ & Hi & _ & Hsc & _).
  - simpl. rewrite app_nil_r. reflexivity.
  - reflexivity.
  - unfold vector_resize. rewrite length_app, length_take, length_replicate. lia.
  - simpl. fold n. lia.
  - exact Hdriver.
  - exists s'. split; [exact Hrun|]. simpl in *.
    rewrite app_nil_r in Hv.
    rewrite Hv, Hc, Hi, Hsc. repeat split; try reflexivity.
    subst n. rewrite ?drop_0, firstn_all. reflexivity.
Qed.

(** X3: when the driver serves one creation per swap-chain image,
    [createImageViews] leaves exactly one view per image, in image
    order: the views are the handles the driver handed out one after
    the other, each created for the image at its index with the chain's
    format, and whatever the vector held before is gone. *)
Theorem createImageViews_one_view_per_image (s : State) :
  driver_succeeds (length (swapChainImages s)) (driver s) = true ->
  exists s',
    createImageViews s = (Ret tt, s')
    /\ length (swapChainImageViews s') = length (swapChainImages s)
    /\ swapChainImageViews s'
       = fresh_handles (length (swapChainImages s)) (driver s)
    /\ calls s'
       = calls s ++ map (fun image => vkCreateImageView image (swapChainImageFormat s) true)
                      (swapChainImages s)
    /\ swapChainImages s' = swapChainImages s.
Proof.
  intros Hdriver.
  destruct (createImageViews_served s Hdriver) as (s' & Hrun & Hv & Hc & Hi & _).
  exists s'. repeat split; try assumption.
  rewrite Hv. unfold fresh_handles. rewrite length_map, length_seq. reflexivity.
Qed.

Lemma createImageViews_one_view_per_image_witness :
  exists s',
    createImageViews live_swap_chain = (Ret tt, s')
    /\ swapChainImageViews s' = [100; 101].
Proof.
  destruct (createImageViews_one_view_per_image live_swap_chain)
    as (s' & Hrun & _ & Hviews & _).
  - reflexivity.
  - exists s'. split; [exact Hrun | exact Hviews].
Defined.

(** X4: when the driver refuses the view of the image at [k] after
    serving the earlier ones, [createImageViews] raises the runtime
    error of [createImageView] and issues no further call.  The views
    made before the refusal stay at the front of the vector, followed by
    what the resize left there; none of them is destroyed. *)
Theorem createImageViews_refusal_keeps_earlier_views
    (s : State) (k : nat) (image : handle) :
  swapChainImages s !! k = Some image ->
  driver_succeeds k (driver s) = true ->
  results (driver s) !! k = Some false ->
  exists s',
    createImageViews s
    = (Throw (runtime_error "failed to create image views for swap chain!"), s')
    /\ calls s'
       = calls s
         ++ map (fun image => vkCreateImageView image (swapChainImageFormat s) true)
              (take k (swapChainImages s))
         ++ [vkCreateImageView image (swapChainImageFormat s) false]
    /\ swapChainImageViews s'
       = fresh_handles k (driver s)
         ++ drop k (vector_resize (length (swapChainImages s)) VK_NULL_HANDLE
                      (swapChainImageViews s))
    /\ swapChain s' = swapChain s.
Proof.
  intros Himage Hdriver Hrefused. unfold createImageViews.
  erewrite bind_run by reflexivity.
  erewrite bind_run by reflexivity.
  erewrite bind_run by reflexivity.
  set (n := length (swapChainImages s)) in *.
  set (resized := vector_resize n VK_NULL_HANDLE (swapChainImageViews s)).
  assert (Hk : (k < n)%nat) by (apply lookup_lt_Some in Himage; exact Himage).
  assert (Hlen : length resized = n).
  { unfold resized, vector_resize.
    rewrite length_app, length_take, length_replicate. lia. }
  replace (seq 0 n) with (seq 0 (k + (n - k))) by (f_equal; lia).
  rewrite seq_app, for_each_app.
  destruct (createImageViews_loop k 0 (viewed resized s) [] (take k resized)
              (drop k resized))
    as (s1 & Hrun & Hv & Hc & Hd & Hi & Hf & Hsc & _).
  - simpl. rewrite take_drop. reflexivity.
  - reflexivity.
  - rewrite length_take. lia.
  - simpl. fold n. lia.
  - exact Hdriver.
  - rewrite (bind_run _ _ _ _ _ Hrun). simpl in *.
    destruct (n - k)%nat as [|r] eqn:Hr; [lia|].
    cbn [seq for_each]. unfold bind at 1.
    rewrite createImageViews_body_refused with (image := image).
    + eexists. split; [reflexivity|]. simpl.
      rewrite Hc, Hv, Hf, Hsc. rewrite <- app_assoc.
      repeat split; reflexivity.
    + rewrite Hi. exact Himage.
    + rewrite Hd. apply driver_pop_refuses, Hrefused.
Qed.

Lemma createImageViews_refusal_keeps_earlier_views_witness :
  exists s',
    createImageViews (scripted [true; false] live_swap_chain)
    = (Throw (runtime_error "failed to create image views for swap chain!"), s')
    /\ swapChainImageViews s' = [100; 12]
    /\ calls s' = [ vkCreateImageView 1 VK_FORMAT_B8G8R8A8_SRGB true;
                    vkCreateImageView 2 VK_FORMAT_B8G8R8A8_SRGB false ].
Proof.
  destruct (createImageViews_refusal_keeps_earlier_views
              (scripted [true; false] live_swap_chain) 1 2)
    as (s' & Hrun & Hcalls & Hviews & _).
  - reflexivity.
  - reflexivity.
  - reflexivity.
  - exists s'. split; [exact Hrun|]. split; [exact Hviews | exact Hcalls].
Defined.

(** X5: a [SwapChain] constructed against a driver that refuses
    nothing and then destructed creates the chain, queries its images
    twice (their count, then the images), creates one view per image,
    and destroys exactly the views it created, each once and in
    creation order, and then the chain it created. *)
Theorem SwapChain_constructor_then_destructor_balances (s : State) (g p : Z) :
  formats (support (surface s)) <> [] ->
  graphicsFamily (queueFamilies (surface s)) = Some g ->
  presentFamily (queueFamilies (surface s)) = Some p ->
  forallb (fun ok => ok) (results (driver s)) = true ->
  exists s' createInfo,
    let chain := nextHandle (driver s) in
    let images := imagesFor (surface s) (ci_minImageCount createInfo) chain in
    let views := map (fun j => chain + 1 + Z.of_nat j) (seq 0 (length images)) in
    bind constructor (fun _ => destructor) s = (Ret tt, s')
    /\ calls s'
       = calls s
         ++ [ vkCreateSwapchainKHR createInfo true;
              vkGetSwapchainImagesKHR chain false;
              vkGetSwapchainImagesKHR chain true ]
         ++ map (fun image => vkCreateImageView image (ci_imageFormat createInfo) true)
              images
         ++ map vkDestroyImageView views
         ++ [vkDestroySwapchainKHR chain]
    /\ NoDup (chain :: views).
Proof.
  intros Hformats Hg Hp Hall.
  destruct (createSwapChain_served s g p Hformats Hg Hp
              (driver_succeeds_pop 0 _ (driver_all_succeed 1 _ Hall)))
    as (s1 & createInfo & Hrun1 & Hcalls1 & _ & _ & _ & Hchain1 & Himages1
        & _ & Hfmt1 & _ & Hdriver1).
  destruct (createImageViews_served s1) as (s2 & Hrun2 & Hv2 & Hc2 & _ & Hsc2).
  { apply driver_all_succeed. rewrite Hdriver1, driver_served_results.
    clear - Hall. destruct (results (driver s)) as [|ok r]; [reflexivity|].
    simpl in Hall. apply andb_true_iff in Hall as [_ Hall]. exact Hall. }
  eexists. exists createInfo. cbv zeta.
  assert (Hctor : constructor s = (Ret tt, s2)).
  { unfold constructor. rewrite (bind_run _ _ _ _ _ Hrun1). exact Hrun2. }
  rewrite (bind_run _ _ _ _ _ Hctor), destructor_run.
  split; [reflexivity|]. split.
  - simpl. rewrite Hc2, Hcalls1, Hv2, Hsc2, Hchain1, Himages1, Hfmt1, Hdriver1.
    unfold fresh_handles. rewrite driver_served_nextHandle.
    rewrite <- !app_assoc. reflexivity.
  - apply NoDup_cons. split.
    + intros Hin.
      apply (list_elem_of_fmap_1 (fun j => nextHandle (driver s) + 1 + Z.of_nat j))
        in Hin as (j & Hj & _).
      lia.
    + assert (Hinj : Inj eq eq (fun j => nextHandle (driver s) + 1 + Z.of_nat j))
        by (intros i j Hij; lia).
      apply (NoDup_fmap_2 _), NoDup_seq.
Qed.

Lemma SwapChain_constructor_then_destructor_balances_witness :
  exists s' createInfo,
    bind constructor (fun _ => destructor) live_swap_chain = (Ret tt, s')
    /\ calls s'
       = [ vkCreateSwapchainKHR createInfo true;
           vkGetSwapchainImagesKHR 100 false; vkGetSwapchainImagesKHR 100 true;
           vkCreateImageView 1100 (ci_imageFormat createInfo) true;
           vkCreateImageView 2100 (ci_imageFormat createInfo) true;
           vkDestroyImageView 101; vkDestroyImageView 102;
           vkDestroySwapchainKHR 100 ].
Proof.
  destruct (SwapChain_constructor_then_destructor_balances live_swap_chain 0 0)
    as (s' & createInfo & Hrun & Hcalls & _).
  - discriminate.
  - reflexivity.
  - reflexivity.
  - reflexivity.
  - exists s', createInfo. split; [exact Hrun | exact Hcalls].
Defined.

End SwapChainLifecycle.

(** ** Memory type search *)

Section MemoryTypeSearch.
Import MemoryTypes.

Lemma land_single_bit (a i : Z) :
  0 <= i -> (Z.land a (Z.shiftl 1 i) =? 0) = negb (Z.testbit a i).
Proof.
  intros Hi. destruct (Z.testbit a i) eqn:Hbit; simpl.
  - apply Z.eqb_neq. intros Hzero.
    apply (f_equal (fun x => Z.testbit x i)) in Hzero.
    rewrite Z.land_spec, Hbit, Z.shiftl_spec, Z.sub_diag, Z.bits_0 in Hzero
      by exact Hi.
    discriminate.
  - apply Z.eqb_eq. apply Z.bits_inj'. intros n Hn.
    rewrite Z.land_spec, Z.shiftl_spec, Z.bits_0 by exact Hn.
    destruct (Z.eq_dec n i) as [->|Hne].
    + rewrite Hbit. reflexivity.
    + replace (Z.testbit 1 (n - i)) with false; [apply andb_false_r|].
      destruct (n - i) as [|k|k] eqn:Hk; [lia | reflexivity | reflexivity].
Qed.

Lemma findMemoryType_loop_least
    (memProperties : VkPhysicalDeviceMemoryProperties) (typeFilter properties : Z)
    (remaining : nat) :
  forall i : Z,
    0 <= i ->
    i + Z.of_nat remaining <= Z.of_nat (length (memoryTypes memProperties)) ->
    i + Z.of_nat remaining <= 32 ->
    match findMemoryType_loop memProperties typeFilter properties i remaining with
    | Ret found =>
        i <= found < i + Z.of_nat remaining
        /\ suitable memProperties typeFilter properties found
        /\ forall j, i <= j < found -> ~ suitable memProperties typeFilter properties j
    | Throw e =>
        e = runtime_error "failed to find suitable memory type!"
        /\ forall j, i <= j < i + Z.of_nat remaining ->
             ~ suitable memProperties typeFilter properties j
    | _ => False
    end.
Proof.
  induction remaining as [|remaining IH]; intros i Hi Hlen Hmax.
  - simpl. split; [reflexivity|]. intros j Hj. lia.
  - cbn [findMemoryType_loop].
    destruct (Z.leb_spec 32 i) as [Hbig|_]; [lia|].
    rewrite land_single_bit by exact Hi.
    assert (Hnext : match findMemoryType_loop memProperties typeFilter properties
                            (i + 1) remaining with
                    | Ret found =>
                        i + 1 <= found < i + 1 + Z.of_nat remaining
                        /\ suitable memProperties typeFilter properties found
                        /\ forall j, i + 1 <= j < found ->
                             ~ suitable memProperties typeFilter properties j
                    | Throw e =>
                        e = runtime_error "failed to find suitable memory type!"
                        /\ forall j, i + 1 <= j < i + 1 + Z.of_nat remaining ->
                             ~ suitable memProperties typeFilter properties j
                    | _ => False
                    end) by (apply IH; lia).
    assert (Hskip : ~ suitable memProperties typeFilter properties i ->
              match findMemoryType_loop memProperties typeFilter properties
                      (i + 1) remaining with
              | Ret found =>
                  i <= found < i + Z.of_nat (S remaining)
                  /\ suitable memProperties typeFilter properties found
                  /\ forall j, i <= j < found ->
                       ~ suitable memProperties typeFilter properties j
              | Throw e =>
                  e = runtime_error "failed to find suitable memory type!"
                  /\ forall j, i <= j < i + Z.of_nat (S remaining) ->
                       ~ suitable memProperties typeFilter properties j
              | _ => False
              end).
    { intros Hnot.
      destruct (findMemoryType_loop memProperties typeFilter properties (i + 1) remaining)
        as [found|e| |]; try exact Hnext.
      - destruct Hnext as (Hrange & Hsuit & Hleast). split; [lia|]. split; [exact Hsuit|].
        intros j Hj. destruct (Z.eq_dec j i) as [->|Hne]; [exact Hnot | apply Hleast; lia].
      - destruct Hnext as (He & Hnone). split; [exact He|].
        intros j Hj. destruct (Z.eq_dec j i) as [->|Hne]; [exact Hnot | apply Hnone; lia]. }
    rewrite negb_involutive.
    destruct (Z.testbit typeFilter i) eqn:Hbit.
    + destruct (memoryTypes memProperties !! Z.to_nat i) as [propertyFlags|] eqn:Hflags.
      2:{ apply lookup_ge_None in Hflags. lia. }
      destruct (Z.eqb_spec (Z.land propertyFlags properties) properties) as [Hall|Hmiss].
      * split; [lia|]. split.
        -- split; [exact Hbit|]. exists propertyFlags. split; [exact Hflags | exact Hall].
        -- intros j Hj. lia.
      * apply Hskip. intros (_ & flags & Hflags' & Hall).
        rewrite Hflags in Hflags'. injection Hflags' as <-. contradiction.
    + apply Hskip. intros (Hbit' & _). congruence.
Qed.

(** X6: [findMemoryType] on a device that reports at most 32 memory
    types returns the least index, below the reported count, whose bit
    is set in the filter and whose flags include every wanted property;
    when no index below the count qualifies it raises its runtime error.
    It never reads past the array and never shifts out of range. *)
Theorem findMemoryType_least_suitable
    (memProperties : VkPhysicalDeviceMemoryProperties) (typeFilter properties : Z) :
  0 <= memoryTypeCount memProperties <= 32 ->
  length (memoryTypes memProperties) = VK_MAX_MEMORY_TYPES ->
  match findMemoryType memProperties typeFilter properties with
  | Ret found =>
      0 <= found < memoryTypeCount memProperties
      /\ suitable memProperties typeFilter properties found
      /\ forall j, 0 <= j < found -> ~ suitable memProperties typeFilter properties j
  | Throw e =>
      e = runtime_error "failed to find suitable memory type!"
      /\ forall j, 0 <= j < memoryTypeCount memProperties ->
           ~ suitable memProperties typeFilter properties j
  | _ => False
  end.
Proof.
  intros Hcount Hlen. unfold findMemoryType.
  pose proof (findMemoryType_loop_least memProperties typeFilter properties
                (Z.to_nat (memoryTypeCount memProperties)) 0) as H.
  rewrite Z2Nat.id in H by lia. rewrite Hlen in H. unfold VK_MAX_MEMORY_TYPES in H.
  simpl Z.add in H. apply H; lia.
Qed.

Lemma findMemoryType_least_suitable_witness :
  match findMemoryType two_types 3 1 with
  | Ret found =>
      0 <= found < 2
      /\ suitable two_types 3 1 found
      /\ forall j, 0 <= j < found -> ~ suitable two_types 3 1 j
  | Throw e =>
      e = runtime_error "failed to find suitable memory type!"
      /\ forall j, 0 <= j < 2 -> ~ suitable two_types 3 1 j
  | _ => False
  end.
Proof.
  apply (findMemoryType_least_suitable two_types 3 1).
  - simpl. lia.
  - reflexivity.
Defined.

End MemoryTypeSearch.

(** ** Samplers by key *)

Section Samplers.
Import SamplerManager.

Lemma destroy_samplers_run (entries : list (string * handle)) (s : State) :
  for_each entries (fun sampler => log (vkDestroySampler (snd sampler))) s
  = (Ret tt,
     with_device (driver s) (calls s ++ map (fun e => vkDestroySampler (snd e)) entries) s).
Proof.
  revert s. induction entries as [|e entries IH]; intros s.
  - simpl. rewrite app_nil_r. destruct s; reflexivity.
  - cbn [for_each]. unfold bind at 1. unfold log at 1, modify.
    rewrite IH. simpl. rewrite <- app_assoc. reflexivity.
Qed.

Lemma SamplerManager_destructor_run (s : State) :
  samplerMutex s = false ->
  destructor s
  = (Ret tt,
     with_device (driver s)
       (calls s ++ map (fun e => vkDestroySampler (snd e)) (map_to_list (samplers s))) s).
Proof.
  intros Hfree. unfold destructor, lock_guard. rewrite Hfree.
  unfold bind, gets. rewrite destroy_samplers_run.
  destruct s; simpl in *. subst. reflexivity.
Qed.

Lemma createSampler_run (s : State) (samplerKey : string) :
  samplerMutex s = false ->
  fst (driver_pop (driver s)) = true ->
  exists samplerInfo,
    maxAnisotropy samplerInfo = maxSamplerAnisotropy s
    /\ anisotropyEnable samplerInfo = true
    /\ createSampler samplerKey s
       = (Ret (nextHandle (driver s)),
          with_samplers (<[samplerKey := nextHandle (driver s)]> (samplers s))
            (with_device (driver_served (driver s))
               (calls s ++ [vkCreateSampler samplerInfo true]) s)).
Proof.
  intros Hfree Hok.
  destruct s as [[[|ok rest] next] c limit m held]; simpl in *; subst;
    (eexists; split; [|split]; cycle 2;
     [ unfold createSampler, lock_guard; simpl;
       unfold bind, gets, pop_result, log, fresh, modify, ret, driver_served;
       reflexivity
     | reflexivity
     | reflexivity ]).
Qed.

Lemma getSampler_run (s : State) (samplerKey : string) :
  samplerMutex s = false ->
  getSampler samplerKey s
  = (match samplers s !! samplerKey with
     | Some sampler => Ret sampler
     | None => Throw (runtime_error ("Sampler not found: " +:+ samplerKey))
     end, s).
Proof.
  intros Hfree. unfold getSampler, lock_guard. rewrite Hfree.
  unfold bind, gets. cbn [samplers with_mutex].
  destruct s as [d c limit m held]; simpl in *; subst.
  destruct (m !! samplerKey); reflexivity.
Qed.

(** X7: a sampler created under a key is the one [getSampler] returns
    for that key afterwards, whatever the key held before; every other
    key answers as it did, one [vkCreateSampler] with anisotropy at the
    device's limit was issued, and the mutex is free again. *)
Theorem createSampler_then_getSampler (s : State) (samplerKey : string) :
  samplerMutex s = false ->
  fst (driver_pop (driver s)) = true ->
  exists s' samplerInfo,
    createSampler samplerKey s = (Ret (nextHandle (driver s)), s')
    /\ getSampler samplerKey s' = (Ret (nextHandle (driver s)), s')
    /\ (forall other, other <> samplerKey ->
          fst (getSampler other s') = fst (getSampler other s))
    /\ calls s' = calls s ++ [vkCreateSampler samplerInfo true]
    /\ anisotropyEnable samplerInfo = true
    /\ maxAnisotropy samplerInfo = maxSamplerAnisotropy s
    /\ samplerMutex s' = false.
Proof.
  intros Hfree Hok.
  destruct (createSampler_run s samplerKey Hfree Hok) as (samplerInfo & Hmax & Hen & Hrun).
  eexists. exists samplerInfo. split; [exact Hrun|].
  split; [|split; [|repeat split; assumption]].
  - rewrite getSampler_run by exact Hfree. simpl.
    rewrite lookup_insert_eq. reflexivity.
  - intros other Hother. rewrite !getSampler_run by exact Hfree. simpl.
    rewrite lookup_insert_ne by congruence. reflexivity.
Qed.

Lemma createSampler_then_getSampler_witness :
  exists s' samplerInfo,
    createSampler "shadow" (one_sampler []) = (Ret 6, s')
    /\ getSampler "shadow" s' = (Ret 6, s')
    /\ calls s' = [vkCreateSampler samplerInfo true]
    /\ maxAnisotropy samplerInfo = 16.
Proof.
  destruct (createSampler_then_getSampler (one_sampler []) "shadow")
    as (s' & samplerInfo & Hrun & Hget & _ & Hcalls & _ & Hmax & _).
  - reflexivity.
  - reflexivity.
  - exists s', samplerInfo. repeat split; assumption.
Defined.

(** X8: when the driver refuses, [createSampler] raises its runtime
    error after the one refused [vkCreateSampler]; the map of samplers
    is what it was and the mutex is free again, and a key that was
    absent makes a later [getSampler] raise its own error naming the
    key. *)
Theorem createSampler_refused_adds_nothing (s : State) (samplerKey : string) :
  samplerMutex s = false ->
  fst (driver_pop (driver s)) = false ->
  exists s' samplerInfo,
    createSampler samplerKey s
    = (Throw (runtime_error "failed to create texture sampler!"), s')
    /\ samplers s' = samplers s
    /\ calls s' = calls s ++ [vkCreateSampler samplerInfo false]
    /\ samplerMutex s' = false
    /\ (samplers s !! samplerKey = None ->
        getSampler samplerKey s'
        = (Throw (runtime_error ("Sampler not found: " +:+ samplerKey)), s')).
Proof.
  intros Hfree Hok.
  assert (Hrun : exists samplerInfo,
            createSampler samplerKey s
            = (Throw (runtime_error "failed to create texture sampler!"),
               with_device (snd (driver_pop (driver s)))
                 (calls s ++ [vkCreateSampler samplerInfo false]) s)).
  { destruct s as [[[|ok rest] next] c limit m held]; simpl in *; subst;
      [discriminate|].
    eexists. unfold createSampler, lock_guard. simpl.
    unfold bind, gets, pop_result, log, fresh, modify, ret, throw.
    reflexivity. }
  destruct Hrun as (samplerInfo & Hrun).
  eexists. exists samplerInfo. split; [exact Hrun|].
  repeat split; try assumption.
  intros Habsent. rewrite getSampler_run by exact Hfree. simpl.
  rewrite Habsent. reflexivity.
Qed.

Lemma createSampler_refused_adds_nothing_witness :
  exists s',
    createSampler "shadow" (one_sampler [false])
    = (Throw (runtime_error "failed to create texture sampler!"), s')
    /\ getSampler "shadow" s'
       = (Throw (runtime_error "Sampler not found: shadow"), s').
Proof.
  destruct (createSampler_refused_adds_nothing (one_sampler [false]) "shadow")
    as (s' & samplerInfo & Hrun & _ & _ & _ & Hget).
  - reflexivity.
  - reflexivity.
  - exists s'. split; [exact Hrun|]. apply Hget. reflexivity.
Defined.

(** X9: creating a sampler under a key that already holds one drops
    the old sampler without destroying it: the destructor then destroys
    the new one and never the old one, which no key maps to any more. *)
Theorem createSampler_again_leaks_old_sampler
    (s : State) (samplerKey : string) (old : handle) :
  samplerMutex s = false ->
  fst (driver_pop (driver s)) = true ->
  samplers s !! samplerKey = Some old ->
  (forall other, samplers s !! other = Some old -> other = samplerKey) ->
  old < nextHandle (driver s) ->
  exists s1 s2 samplerInfo destroyed,
    createSampler samplerKey s = (Ret (nextHandle (driver s)), s1)
    /\ destructor s1 = (Ret tt, s2)
    /\ calls s2 = calls s ++ [vkCreateSampler samplerInfo true]
                    ++ map vkDestroySampler destroyed
    /\ nextHandle (driver s) ∈ destroyed
    /\ old ∉ destroyed.
Proof.
  intros Hfree Hok Hold Hunique Hbelow.
  destruct (createSampler_run s samplerKey Hfree Hok) as (samplerInfo & _ & _ & Hrun).
  eexists. eexists. exists samplerInfo.
  exists (map snd (map_to_list (<[samplerKey := nextHandle (driver s)]> (samplers s)))).
  split; [exact Hrun|]. split; [apply SamplerManager_destructor_run; exact Hfree|].
  split; [|split].
  - simpl. rewrite <- app_assoc, map_map. reflexivity.
  - apply (list_elem_of_fmap_2' snd _ (samplerKey, nextHandle (driver s)));
      [|reflexivity].
    apply elem_of_map_to_list. apply lookup_insert_eq.
  - intros Hin. apply (list_elem_of_fmap_1 snd) in Hin as ([other h] & Heq & Hin).
    simpl in Heq. subst h. apply elem_of_map_to_list in Hin.
    destruct (decide (other = samplerKey)) as [->|Hne].
    + rewrite lookup_insert_eq in Hin. injection Hin as Heq. lia.
    + rewrite lookup_insert_ne in Hin by congruence.
      apply Hne, Hunique, Hin.
Qed.

Lemma createSampler_again_leaks_old_sampler_witness :
  exists s1 s2 samplerInfo destroyed,
    createSampler "default" (one_sampler []) = (Ret 6, s1)
    /\ destructor s1 = (Ret tt, s2)
    /\ calls s2 = [vkCreateSampler samplerInfo true] ++ map vkDestroySampler destroyed
    /\ 6 ∈ destroyed
    /\ 5 ∉ destroyed.
Proof.
  apply (createSampler_again_leaks_old_sampler (one_sampler []) "default" 5).
  - reflexivity.
  - reflexivity.
  - reflexivity.
  - intros other Hother. simpl in Hother.
    apply lookup_singleton_Some in Hother as [Hkey _]. symmetry. exact Hkey.
  - simpl. lia.
Defined.

End Samplers.

(** ** Reloading and releasing a texture *)

Section TextureReloading.
Import TextureManager TextureManagerMore.

Lemma createTextureImage_relock (s : State) :
  textureMutex s = true -> createTextureImage s = (Undefined, s).
Proof.
  intros Hheld. unfold createTextureImage, lock_guard. rewrite Hheld. reflexivity.
Qed.

Lemma reloadTexture_run (t : Texture) (newImagePath : string) :
  textureMutex (manager t) = false ->
  exists t',
    reloadTexture newImagePath t = (Undefined, t')
    /\ viewCalls t'
       = viewCalls t
         ++ (if negb (textureImage (manager t) =? VK_NULL_HANDLE)
                && negb (textureImageMemory (manager t) =? VK_NULL_HANDLE)
             then [vmaDestroyImage (textureImage (manager t))
                     (textureImageMemory (manager t))]
             else [])
         ++ (if negb (textureImageView t =? VK_NULL_HANDLE)
             then [vkDestroyImageView (textureImageView t)] else [])
    /\ textureImageView t' = VK_NULL_HANDLE
    /\ (textureImage (manager t') = VK_NULL_HANDLE
        \/ textureImageMemory (manager t') = VK_NULL_HANDLE)
    /\ imagePath (manager t') = newImagePath
    /\ calls (manager t') = calls (manager t)
    /\ driver (manager t') = driver (manager t).
Proof.
  intros Hfree.
  destruct t as [[d c h ma fs pool held path img mem] imageView vc].
  simpl in Hfree. subst held.
  unfold reloadTexture, lock_guard_texture. cbn [manager textureMutex].
  unfold bind at 1. unfold gets at 1. unfold bind at 1. unfold gets at 1.
  cbn [manager with_manager with_mutex textureImage textureImageMemory
       textureImageView viewCalls fst snd].
  destruct (negb (img =? VK_NULL_HANDLE) && negb (mem =? VK_NULL_HANDLE)) eqn:Himage;
    destruct (negb (imageView =? VK_NULL_HANDLE)) eqn:Hview;
    cbn -[createTextureImage]; rewrite ?Hview; cbn -[createTextureImage];
    unfold lift; cbn -[createTextureImage];
    unfold bind; cbn [manager with_manager];
    rewrite createTextureImage_relock by reflexivity; cbn;
    (eexists; split; [reflexivity|]); cbn;
    rewrite ?app_nil_r, <- ?app_assoc;
    repeat split; auto.
  all: try (apply negb_false_iff, Z.eqb_eq in Hview).
  all: try (apply andb_false_iff in Himage as [Hnull|Hnull];
            apply negb_false_iff, Z.eqb_eq in Hnull).
  all: auto.
Qed.

(** X10: [reloadTexture] never gets to load anything.  It takes
    [textureMutex], releases the image and the view it had, stores the
    new path, and calls [createTextureImage], which locks the same
    non-recursive mutex again: the behaviour is undefined from there.
    By then the old image and view are destroyed and their handles
    null; no upload call and no view creation was issued. *)
Theorem reloadTexture_locks_its_mutex_twice (t : Texture) (newImagePath : string) :
  textureMutex (manager t) = false ->
  let r := reloadTexture newImagePath t in
  fst r = Undefined
  /\ viewCalls (snd r)
     = viewCalls t
       ++ (if negb (textureImage (manager t) =? VK_NULL_HANDLE)
              && negb (textureImageMemory (manager t) =? VK_NULL_HANDLE)
           then [vmaDestroyImage (textureImage (manager t))
                   (textureImageMemory (manager t))]
           else [])
       ++ (if negb (textureImageView t =? VK_NULL_HANDLE)
           then [vkDestroyImageView (textureImageView t)] else [])
  /\ textureImageView (snd r) = VK_NULL_HANDLE
  /\ (textureImage (manager (snd r)) = VK_NULL_HANDLE
      \/ textureImageMemory (manager (snd r)) = VK_NULL_HANDLE)
  /\ imagePath (manager (snd r)) = newImagePath
  /\ calls (manager (snd r)) = calls (manager t)
  /\ driver (manager (snd r)) = driver (manager t).
Proof.
  intros Hfree r.
  destruct (reloadTexture_run t newImagePath Hfree) as (t' & Hrun & Hrest).
  subst r. rewrite Hrun. split; [reflexivity | exact Hrest].
Qed.

Lemma reloadTexture_locks_its_mutex_twice_witness :
  fst (reloadTexture "other.png" loaded) = Undefined
  /\ viewCalls (snd (reloadTexture "other.png" loaded))
     = [vmaDestroyImage 51 52; vkDestroyImageView 53].
Proof.
  destruct (reloadTexture_locks_its_mutex_twice loaded "other.png")
    as (Hundefined & Hcalls & _).
  - reflexivity.
  - split; [exact Hundefined | exact Hcalls].
Defined.

(** X11: [~TextureManager] destroys the view when there is one and
    the image when both it and its memory are there, in that order, and
    nulls what it destroyed: run again on the state it leaves, it
    destroys nothing. *)
Theorem TextureManager_destructor_releases_once (t : Texture) :
  exists t',
    destructor t = (Ret tt, t')
    /\ viewCalls t'
       = viewCalls t
         ++ released (textureImage (manager t)) (textureImageMemory (manager t))
              (textureImageView t)
    /\ textureImageView t' = VK_NULL_HANDLE
    /\ calls (manager t') = calls (manager t)
    /\ destructor t' = (Ret tt, t').
Proof.
  destruct t as [[d c h ma fs pool held path img mem] imageView vc].
  unfold destructor, released, bind, gets, log_view, modify, lift, ret.
  cbn [manager textureImage textureImageMemory textureImageView viewCalls fst snd].
  destruct (Z.eqb_spec imageView VK_NULL_HANDLE) as [->|Hview];
    destruct (Z.eqb_spec img VK_NULL_HANDLE) as [->|Himg];
    destruct (Z.eqb_spec mem VK_NULL_HANDLE) as [->|Hmem];
    cbn;
    repeat match goal with
           | |- context [?x =? VK_NULL_HANDLE] =>
               destruct (Z.eqb_spec x VK_NULL_HANDLE); [congruence|]
           end;
    cbn;
    (eexists; split; [reflexivity|]); cbn;
    rewrite ?app_nil_r, <- ?app_assoc;
    repeat split; try reflexivity.
  all: repeat match goal with
              | |- context [?x =? VK_NULL_HANDLE] =>
                  destruct (Z.eqb_spec x VK_NULL_HANDLE); [|congruence]
              end; try reflexivity.
  all: rewrite andb_false_r; reflexivity.
Qed.

(** X12: asked for a layout transition other than the two it knows,
    [transitionImageLayout] raises [invalid_argument] after it has
    allocated a command buffer and begun recording it: the buffer is
    never ended, submitted or freed, and no barrier is recorded. *)
Theorem transitionImageLayout_unsupported_transition
    (s : State) (img : handle) (fmt : VkFormat) (old new : VkImageLayout) :
  commandPool s <> VK_NULL_HANDLE ->
  ~ (old = VK_IMAGE_LAYOUT_UNDEFINED /\ new = VK_IMAGE_LAYOUT_TRANSFER_DST_OPTIMAL) ->
  ~ (old = VK_IMAGE_LAYOUT_TRANSFER_DST_OPTIMAL
     /\ new = VK_IMAGE_LAYOUT_SHADER_READ_ONLY_OPTIMAL) ->
  exists s',
    transitionImageLayout img fmt old new s
    = (Throw (invalid_argument "unsupported layout transition!"), s')
    /\ calls s'
       = calls s
         ++ [ vkAllocateCommandBuffers (commandPool s) (nextHandle (driver s));
              vkBeginCommandBuffer (nextHandle (driver s))
                VK_COMMAND_BUFFER_USAGE_ONE_TIME_SUBMIT_BIT ]
    /\ textureImage s' = textureImage s.
Proof.
  intros Hpool Hfirst Hsecond.
  destruct s as [[script next] c h ma fs pool held path image mem].
  simpl in Hpool.
  unfold transitionImageLayout, beginSingleTimeCommands, allocateCommandBuffer,
    getCommandPool.
  unfold bind, gets, fresh, log, modify, ret, throw.
  cbn [commandPool driver calls heap with_device driver_fresh nextHandle results
       fst snd].
  destruct (Z.eqb_spec pool VK_NULL_HANDLE) as [Hnull|_]; [contradiction|].
  cbn -[Z.eqb].
  destruct (Z.eqb_spec old VK_IMAGE_LAYOUT_UNDEFINED) as [Ho1|Ho1];
    destruct (Z.eqb_spec new VK_IMAGE_LAYOUT_TRANSFER_DST_OPTIMAL) as [Hn1|Hn1];
    destruct (Z.eqb_spec old VK_IMAGE_LAYOUT_TRANSFER_DST_OPTIMAL) as [Ho2|Ho2];
    destruct (Z.eqb_spec new VK_IMAGE_LAYOUT_SHADER_READ_ONLY_OPTIMAL) as [Hn2|Hn2];
    try (exfalso; apply Hfirst; split; assumption);
    try (exfalso; apply Hsecond; split; assumption);
    cbn; (eexists; split; [reflexivity|]); cbn;
    rewrite <- ?app_assoc; split; reflexivity.
Qed.

Lemma transitionImageLayout_unsupported_transition_witness :
  exists s',
    transitionImageLayout 51 VK_FORMAT_R8G8B8A8_SRGB
      VK_IMAGE_LAYOUT_SHADER_READ_ONLY_OPTIMAL VK_IMAGE_LAYOUT_TRANSFER_DST_OPTIMAL
      TextureSamples.unloaded
    = (Throw (invalid_argument "unsupported layout transition!"), s')
    /\ calls s'
       = [ vkAllocateCommandBuffers 7 50;
           vkBeginCommandBuffer 50 VK_COMMAND_BUFFER_USAGE_ONE_TIME_SUBMIT_BIT ].
Proof.
  destruct (transitionImageLayout_unsupported_transition TextureSamples.unloaded
              51 VK_FORMAT_R8G8B8A8_SRGB
              VK_IMAGE_LAYOUT_SHADER_READ_ONLY_OPTIMAL
              VK_IMAGE_LAYOUT_TRANSFER_DST_OPTIMAL)
    as (s' & Hrun & Hcalls & _).
  - discriminate.
  - intros [Hold _]. discriminate.
  - intros [Hold _]. discriminate.
  - exists s'. split; [exact Hrun | exact Hcalls].
Defined.

End TextureReloading.

(** ** Descriptor sets *)

Section DescriptorSets.
Import DescriptorManager DescriptorFacts.

Lemma DescriptorManager_constructor_run (s : State) :
  driver_succeeds 2 (driver s) = true ->
  constructor s
  = (Ret tt,
     with_members (nextHandle (driver s)) (nextHandle (driver s) + 1) (descriptorSets s)
       (with_device (driver_served (driver_served (driver s)))
          (calls s ++ [ vkCreateDescriptorSetLayout two_binding_layout true;
                        vkCreateDescriptorPool
                          (pool_for (Z.of_nat MAX_FRAMES_IN_FLIGHT)) true ])
          (<[nextHandle (driver s) := two_binding_layout]> (layoutObjects s))
          (<[nextHandle (driver s) + 1 := pool_for (Z.of_nat MAX_FRAMES_IN_FLIGHT)]>
             (poolObjects s)) s)).
Proof.
  intros Hdriver.
  destruct s as [[results next] calls0 layouts0 pools0 layout0 pool0 sets0].
  unfold driver_succeeds in Hdriver. simpl in Hdriver.
  unfold constructor, createDescriptorSetLayout, createDescriptorPool,
    bind, gets, log, modify, ret, throw, pop_result, fresh,
    driver_served, driver_pop, driver_fresh, with_device, with_members.
  destruct results as [|[] [|[] results]]; simpl in Hdriver; try discriminate;
    cbn -[insert Z.add]; rewrite <- ?app_assoc; reflexivity.
Qed.

Lemma allocateDescriptorSets_served (s : State) (pool layout : handle)
    (remaining : VkDescriptorPoolCreateInfo)
    (bindings : list VkDescriptorSetLayoutBinding) :
  poolObjects s !! pool = Some remaining ->
  layoutObjects s !! layout = Some bindings ->
  fst (driver_pop (driver s)) = true ->
  allocateDescriptorSets pool [layout; layout] s
  = (Ret (Some [nextHandle (driver s); nextHandle (driver s) + 1]),
     with_device
       {| results := results (snd (driver_pop (driver s)));
          nextHandle := nextHandle (driver s) + 1 + 1 |}
       (calls s ++ [vkAllocateDescriptorSets pool [layout; layout] true])
       (layoutObjects s)
       (<[pool := pool_take remaining [bindings; bindings]]> (poolObjects s)) s).
Proof.
  intros Hpool Hlayout Hok.
  unfold allocateDescriptorSets. unfold bind at 1. unfold get.
  rewrite Hpool. cbn [mapM]. rewrite Hlayout. cbn [mbind option_bind mret option_ret].
  unfold bind at 1. unfold pop_result.
  destruct s as [[[|ok rest] next] c ls ps layout0 pool0 sets0]; simpl in Hok;
    subst; cbn [driver driver_pop results nextHandle fst snd];
    reflexivity.
Qed.

Lemma allocateDescriptorSets_refused (s : State) (pool layout : handle)
    (remaining : VkDescriptorPoolCreateInfo)
    (bindings : list VkDescriptorSetLayoutBinding) :
  poolObjects s !! pool = Some remaining ->
  layoutObjects s !! layout = Some bindings ->
  fst (driver_pop (driver s)) = false ->
  allocateDescriptorSets pool [layout; layout] s
  = (Ret None,
     with_device (snd (driver_pop (driver s)))
       (calls s ++ [vkAllocateDescriptorSets pool [layout; layout] false])
       (layoutObjects s) (poolObjects s) s).
Proof.
  intros Hpool Hlayout Hok.
  unfold allocateDescriptorSets. unfold bind at 1. unfold get.
  rewrite Hpool. cbn [mapM]. rewrite Hlayout. cbn [mbind option_bind mret option_ret].
  unfold bind at 1. unfold pop_result.
  destruct s as [[[|ok rest] next] c ls ps layout0 pool0 sets0]; simpl in Hok;
    try discriminate; subst;
    cbn [driver driver_pop results nextHandle fst snd];
    reflexivity.
Qed.

Lemma createDescriptorSets_run
    (s : State) (remaining : VkDescriptorPoolCreateInfo)
    (buffer0 buffer1 : handle) (more : list handle)
    (textureImageView textureSampler : handle) :
  layoutObjects s !! descriptorSetLayout s = Some two_binding_layout ->
  poolObjects s !! descriptorPool s = Some remaining ->
  fst (driver_pop (driver s)) = true ->
  createDescriptorSets (buffer0 :: buffer1 :: more) textureImageView textureSampler s
  = (Ret tt,
     with_members (descriptorSetLayout s) (descriptorPool s)
       [nextHandle (driver s); nextHandle (driver s) + 1]
       (with_device
          {| results := results (snd (driver_pop (driver s)));
             nextHandle := nextHandle (driver s) + 1 + 1 |}
          (calls s
           ++ [ vkAllocateDescriptorSets (descriptorPool s)
                  [descriptorSetLayout s; descriptorSetLayout s] true;
                vkUpdateDescriptorSets
                  [ write_buffer (nextHandle (driver s)) 0
                      VK_DESCRIPTOR_TYPE_UNIFORM_BUFFER
                      buffer0 0 sizeof_UniformBufferObject;
                    write_image (nextHandle (driver s)) 1
                      VK_DESCRIPTOR_TYPE_COMBINED_IMAGE_SAMPLER
                      VK_IMAGE_LAYOUT_SHADER_READ_ONLY_OPTIMAL
                      textureImageView textureSampler ];
                vkUpdateDescriptorSets
                  [ write_buffer (nextHandle (driver s) + 1) 0
                      VK_DESCRIPTOR_TYPE_UNIFORM_BUFFER
                      buffer1 0 sizeof_UniformBufferObject;
                    write_image (nextHandle (driver s) + 1) 1
                      VK_DESCRIPTOR_TYPE_COMBINED_IMAGE_SAMPLER
                      VK_IMAGE_LAYOUT_SHADER_READ_ONLY_OPTIMAL
                      textureImageView textureSampler ] ])
          (layoutObjects s)
          (<[descriptorPool s
             := pool_take remaining [two_binding_layout; two_binding_layout]]>
             (poolObjects s)) s)).
Proof.
  intros Hlayout Hpool Hok.
  unfold createDescriptorSets.
  erewrite bind_run by reflexivity.
  erewrite bind_run by reflexivity.
  erewrite bind_run by reflexivity.
  cbn [replicate MAX_FRAMES_IN_FLIGHT].
  erewrite bind_run.
  2:{ apply allocateDescriptorSets_served with (remaining := remaining)
        (bindings := two_binding_layout);
        [exact Hpool | exact Hlayout | exact Hok]. }
  generalize (pool_take remaining [two_binding_layout; two_binding_layout]) as rest.
  intros rest.
  destruct s as [d c ls ps layout0 pool0 sets0].
  unfold bind, gets, modify, log, ret.
  cbn -[insert Z.add]. rewrite <- !app_assoc. reflexivity.
Qed.

Lemma createDescriptorSets_refused
    (s : State) (remaining : VkDescriptorPoolCreateInfo)
    (buffers : list handle) (textureImageView textureSampler : handle) :
  layoutObjects s !! descriptorSetLayout s = Some two_binding_layout ->
  poolObjects s !! descriptorPool s = Some remaining ->
  fst (driver_pop (driver s)) = false ->
  createDescriptorSets buffers textureImageView textureSampler s
  = (Throw (runtime_error "failed to allocate descriptor sets!"),
     with_members (descriptorSetLayout s) (descriptorPool s)
       [VK_NULL_HANDLE; VK_NULL_HANDLE]
       (with_device (snd (driver_pop (driver s)))
          (calls s
           ++ [vkAllocateDescriptorSets (descriptorPool s)
                 [descriptorSetLayout s; descriptorSetLayout s] false])
          (layoutObjects s) (poolObjects s) s)).
Proof.
  intros Hlayout Hpool Hok.
  unfold createDescriptorSets.
  erewrite bind_run by reflexivity.
  erewrite bind_run by reflexivity.
  erewrite bind_run by reflexivity.
  cbn [replicate MAX_FRAMES_IN_FLIGHT].
  erewrite bind_run.
  2:{ apply allocateDescriptorSets_refused with (remaining := remaining)
        (bindings := two_binding_layout);
        [exact Hpool | exact Hlayout | exact Hok]. }
  destruct s as [d c ls ps layout0 pool0 sets0]. reflexivity.
Qed.

(** C9 (corrected): when the driver serves what is asked of it, the
    [DescriptorManager] constructor creates a layout of exactly two
    bindings (binding 0 a uniform buffer for the vertex stage, binding 1
    a combined image sampler for the fragment stage) and a pool of
    exactly [MAX_FRAMES_IN_FLIGHT] sets with that many descriptors of
    each of the two types, and allocates no set.  The sets are
    allocated by [createDescriptorSets], a method of its own: one call
    asks for [MAX_FRAMES_IN_FLIGHT] sets of the layout in a single
    [vkAllocateDescriptorSets], which is exactly what the pool was
    created for, and nothing of the pool is left after it.  Any further
    call asks for as many sets again, beyond what the pool was created
    for, and when the driver refuses them the runtime error is raised
    by that call, whenever it is made, leaving [descriptorSets] with
    null handles only. *)
Theorem DescriptorManager_layout_and_pool
    (s : State) (buffer0 buffer1 : handle) (more : list handle)
    (textureImageView textureSampler : handle) :
  driver_succeeds 3 (driver s) = true ->
  let n := Z.of_nat MAX_FRAMES_IN_FLIGHT in
  exists s1 s2,
    constructor s = (Ret tt, s1)
    /\ calls s1 = calls s ++ [ vkCreateDescriptorSetLayout two_binding_layout true;
                              vkCreateDescriptorPool (pool_for n) true ]
    /\ layoutObjects s1 !! descriptorSetLayout s1 = Some two_binding_layout
    /\ poolObjects s1 !! descriptorPool s1 = Some (pool_for n)
    /\ descriptorSets s1 = descriptorSets s
    /\ pool_admits (pool_for n) (replicate MAX_FRAMES_IN_FLIGHT two_binding_layout) = true
    /\ pool_take (pool_for n) (replicate MAX_FRAMES_IN_FLIGHT two_binding_layout)
       = pool_for 0
    /\ (forall k, (MAX_FRAMES_IN_FLIGHT < k)%nat ->
          pool_admits (pool_for n) (replicate k two_binding_layout) = false)
    /\ createDescriptorSets (buffer0 :: buffer1 :: more) textureImageView textureSampler s1
       = (Ret tt, s2)
    /\ (exists updates,
          calls s2
          = calls s1
            ++ vkAllocateDescriptorSets (descriptorPool s1)
                 (replicate MAX_FRAMES_IN_FLIGHT (descriptorSetLayout s1)) true
               :: updates
          /\ forall c, c ∈ updates -> exists writes, c = vkUpdateDescriptorSets writes)
    /\ descriptorSets s2 = [nextHandle (driver s1); nextHandle (driver s1) + 1]
    /\ length (descriptorSets s2) = MAX_FRAMES_IN_FLIGHT
    /\ descriptorSetLayout s2 = descriptorSetLayout s1
    /\ descriptorPool s2 = descriptorPool s1
    /\ layoutObjects s2 !! descriptorSetLayout s2 = Some two_binding_layout
    /\ poolObjects s2 !! descriptorPool s2 = Some (pool_for 0)
    /\ (forall k, (0 < k)%nat ->
          pool_admits (pool_for 0) (replicate k two_binding_layout) = false)
    /\ (forall buffers imageView sampler,
          fst (driver_pop (driver s2)) = false ->
          exists s3,
            createDescriptorSets buffers imageView sampler s2
            = (Throw (runtime_error "failed to allocate descriptor sets!"), s3)
            /\ calls s3
               = calls s2
                 ++ [vkAllocateDescriptorSets (descriptorPool s2)
                       (replicate MAX_FRAMES_IN_FLIGHT (descriptorSetLayout s2)) false]
            /\ descriptorSets s3 = replicate MAX_FRAMES_IN_FLIGHT VK_NULL_HANDLE).
Proof.
  intros Hdriver n. subst n.
  pose proof (DescriptorManager_constructor_run s
                (driver_succeeds_weaken _ _ Hdriver)) as Hctor.
  assert (Hnext : fst (driver_pop (driver_served (driver_served (driver s)))) = true).
  { apply (driver_succeeds_pop 0), driver_succeeds_served, driver_succeeds_served,
      Hdriver. }
  match type of Hctor with _ = (_, ?t) => set (s1 := t) in * end.
  assert (Hlayout1 : layoutObjects s1 !! descriptorSetLayout s1 = Some two_binding_layout)
    by apply lookup_insert_eq.
  assert (Hpool1 : poolObjects s1 !! descriptorPool s1
                   = Some (pool_for (Z.of_nat MAX_FRAMES_IN_FLIGHT)))
    by apply lookup_insert_eq.
  pose proof (createDescriptorSets_run s1 _ buffer0 buffer1 more
                textureImageView textureSampler Hlayout1 Hpool1 Hnext) as Hsets.
  change (pool_take (pool_for (Z.of_nat MAX_FRAMES_IN_FLIGHT))
            [two_binding_layout; two_binding_layout]) with (pool_for 0) in Hsets.
  match type of Hsets with _ = (_, ?t) => set (s2 := t) in * end.
  assert (Hlayout2 : layoutObjects s2 !! descriptorSetLayout s2 = Some two_binding_layout)
    by exact Hlayout1.
  assert (Hpool2 : poolObjects s2 !! descriptorPool s2 = Some (pool_for 0))
    by apply lookup_insert_eq.
  exists s1, s2.
  split; [exact Hctor|]. split; [reflexivity|].
  split; [exact Hlayout1|]. split; [exact Hpool1|]. split; [reflexivity|].
  split; [reflexivity|]. split; [reflexivity|].
  split; [apply pool_admits_no_more|].
  split; [exact Hsets|].
  split.
  { eexists. split; [reflexivity|].
    intros c Hc. rewrite !elem_of_cons in Hc.
    destruct Hc as [->|[->|Hc]]; [eexists; reflexivity..|].
    apply elem_of_nil in Hc. destruct Hc. }
  split; [reflexivity|]. split; [reflexivity|].
  split; [reflexivity|]. split; [reflexivity|].
  split; [exact Hlayout2|]. split; [exact Hpool2|].
  split.
  { intros k Hk. unfold pool_admits. rewrite length_replicate.
    replace (Z.of_nat k <=? maxSets (pool_for 0)) with false; [reflexivity|].
    symmetry. apply Z.leb_gt. simpl. lia. }
  intros buffers imageView sampler Hrefused.
  eexists. split.
  { apply createDescriptorSets_refused with (remaining := pool_for 0);
      [exact Hlayout2 | exact Hpool2 | exact Hrefused]. }
  split; reflexivity.
Qed.

Lemma DescriptorManager_layout_and_pool_witness :
  exists s1 s2,
    constructor (DescriptorSamples.scripted [true; true; true; false]) = (Ret tt, s1)
    /\ calls s1 = [ vkCreateDescriptorSetLayout two_binding_layout true;
                   vkCreateDescriptorPool (pool_for 2) true ]
    /\ layoutObjects s1 !! descriptorSetLayout s1 = Some two_binding_layout
    /\ poolObjects s1 !! descriptorPool s1 = Some (pool_for 2)
    /\ createDescriptorSets [20; 22] 30 31 s1 = (Ret tt, s2)
    /\ descriptorSets s2 = [62; 63]
    /\ poolObjects s2 !! descriptorPool s2 = Some (pool_for 0)
    /\ fst (createDescriptorSets [20; 22] 32 31 s2)
       = Throw (runtime_error "failed to allocate descriptor sets!").
Proof.
  destruct (DescriptorManager_layout_and_pool
              (DescriptorSamples.scripted [true; true; true; false]) 20 22 [] 30 31)
    as (s1 & s2 & Hctor & Hcalls & Hlayout & Hpool & _ & _ & _ & _ & Hsets & _
        & Hhandles & _ & _ & _ & _ & Hleft & _ & Hagain).
  - reflexivity.
  - exists s1, s2.
    split; [exact Hctor|]. split; [exact Hcalls|]. split; [exact Hlayout|].
    split; [exact Hpool|]. split; [exact Hsets|].
    pose proof (f_equal snd Hctor) as Hs1. simpl in Hs1. subst s1.
    pose proof (f_equal snd Hsets) as Hs2. simpl in Hs2. subst s2.
    split; [vm_compute; reflexivity|]. split; [exact Hleft|].
    destruct (Hagain [20; 22] 32 31) as (s3 & Hthrow & _).
    + vm_compute. reflexivity.
    + rewrite Hthrow. reflexivity.
Defined.

(** C9, counterexample: the manager is constructed and its sets are
    allocated and in use, the driver serving all three calls; a later
    [createDescriptorSets], as after a texture reload, meets a pool
    with nothing left, is refused by the driver, and raises its runtime
    error then, long after construction. *)
Lemma createDescriptorSets_refused_after_construction :
  let built := constructor (DescriptorSamples.scripted [true; true; true; false]) in
  let once := createDescriptorSets [20; 22] 30 31 (snd built) in
  let twice := createDescriptorSets [20; 22] 32 31 (snd once) in
  fst built = Ret tt
  /\ descriptorSets (snd built) = []
  /\ fst once = Ret tt
  /\ getDescriptorSet 0 (descriptorSets (snd once)) = (Ret 62, [62; 63])
  /\ poolObjects (snd once) !! 61 = Some (pool_for 0)
  /\ fst twice = Throw (runtime_error "failed to allocate descriptor sets!")
  /\ descriptorSets (snd twice) = [VK_NULL_HANDLE; VK_NULL_HANDLE].
Proof. vm_compute. repeat split; reflexivity. Qed.

(** X13: on a constructed manager, [createDescriptorSets] allocates
    [MAX_FRAMES_IN_FLIGHT] sets in one call and writes each set once:
    binding 0 of set [i] is the [i]-th uniform buffer over the whole
    [UniformBufferObject], binding 1 the given view and sampler in the
    shader-read layout.  Nothing of the pool is left after it.  A
    second call asks the driver for as many sets again without freeing
    the first ones: when the driver refuses, the call raises its
    runtime error and [descriptorSets] holds null handles only, the
    sets of the first call being lost to the manager; when the driver
    serves it, [descriptorSets] holds the new sets. *)
Theorem createDescriptorSets_binds_each_frame
    (s : State) (buffer0 buffer1 : handle) (more : list handle)
    (textureImageView textureSampler : handle) :
  layoutObjects s !! descriptorSetLayout s = Some two_binding_layout ->
  poolObjects s !! descriptorPool s = Some (pool_for (Z.of_nat MAX_FRAMES_IN_FLIGHT)) ->
  fst (driver_pop (driver s)) = true ->
  exists s',
    let set0 := nextHandle (driver s) in
    let set1 := nextHandle (driver s) + 1 in
    createDescriptorSets (buffer0 :: buffer1 :: more) textureImageView textureSampler s
    = (Ret tt, s')
    /\ descriptorSets s' = [set0; set1]
    /\ calls s'
       = calls s
         ++ [ vkAllocateDescriptorSets (descriptorPool s)
                [descriptorSetLayout s; descriptorSetLayout s] true;
              vkUpdateDescriptorSets
                [ write_buffer set0 0 VK_DESCRIPTOR_TYPE_UNIFORM_BUFFER
                    buffer0 0 sizeof_UniformBufferObject;
                  write_image set0 1 VK_DESCRIPTOR_TYPE_COMBINED_IMAGE_SAMPLER
                    VK_IMAGE_LAYOUT_SHADER_READ_ONLY_OPTIMAL
                    textureImageView textureSampler ];
              vkUpdateDescriptorSets
                [ write_buffer set1 0 VK_DESCRIPTOR_TYPE_UNIFORM_BUFFER
                    buffer1 0 sizeof_UniformBufferObject;
                  write_image set1 1 VK_DESCRIPTOR_TYPE_COMBINED_IMAGE_SAMPLER
                    VK_IMAGE_LAYOUT_SHADER_READ_ONLY_OPTIMAL
                    textureImageView textureSampler ] ]
    /\ poolObjects s' !! descriptorPool s = Some (pool_for 0)
    /\ (forall buffers imageView sampler,
          fst (driver_pop (driver s')) = false ->
          exists s'',
            createDescriptorSets buffers imageView sampler s'
            = (Throw (runtime_error "failed to allocate descriptor sets!"), s'')
            /\ calls s''
               = calls s'
                 ++ [vkAllocateDescriptorSets (descriptorPool s)
                       [descriptorSetLayout s; descriptorSetLayout s] false]
            /\ descriptorSets s'' = [VK_NULL_HANDLE; VK_NULL_HANDLE])
    /\ (forall buffer0' buffer1' more' imageView sampler,
          fst (driver_pop (driver s')) = true ->
          exists s'',
            createDescriptorSets (buffer0' :: buffer1' :: more') imageView sampler s'
            = (Ret tt, s'')
            /\ descriptorSets s'' = [set1 + 1; set1 + 1 + 1]).
Proof.
  intros Hlayout Hpool Hok.
  pose proof (createDescriptorSets_run s _ buffer0 buffer1 more
                textureImageView textureSampler Hlayout Hpool Hok) as Hsets.
  change (pool_take (pool_for (Z.of_nat MAX_FRAMES_IN_FLIGHT))
            [two_binding_layout; two_binding_layout]) with (pool_for 0) in Hsets.
  match type of Hsets with _ = (_, ?t) => set (s' := t) in * end.
  assert (Hlayout' : layoutObjects s' !! descriptorSetLayout s' = Some two_binding_layout)
    by exact Hlayout.
  assert (Hpool' : poolObjects s' !! descriptorPool s' = Some (pool_for 0))
    by apply lookup_insert_eq.
  exists s'. cbv zeta.
  split; [exact Hsets|].
  split; [reflexivity|]. split; [reflexivity|].
  split; [exact Hpool'|].
  split.
  - intros buffers imageView sampler Hrefused. eexists.
    split; [apply createDescriptorSets_refused with (remaining := pool_for 0);
            [exact Hlayout' | exact Hpool' | exact Hrefused]|].
    split; reflexivity.
  - intros buffer0' buffer1' more' imageView sampler Hserved. eexists.
    split; [apply createDescriptorSets_run with (remaining := pool_for 0);
            [exact Hlayout' | exact Hpool' | exact Hserved]|].
    reflexivity.
Qed.

Lemma createDescriptorSets_binds_each_frame_witness :
  exists s',
    createDescriptorSets [20; 22] 30 31
      (snd (constructor (DescriptorSamples.scripted [true; true; true; false])))
    = (Ret tt, s')
    /\ descriptorSets s' = [62; 63]
    /\ exists s'',
         createDescriptorSets [20; 22] 30 31 s'
         = (Throw (runtime_error "failed to allocate descriptor sets!"), s'')
         /\ descriptorSets s'' = [VK_NULL_HANDLE; VK_NULL_HANDLE].
Proof.
  destruct (createDescriptorSets_binds_each_frame
              (snd (constructor (DescriptorSamples.scripted [true; true; true; false])))
              20 22 [] 30 31)
    as (s' & Hrun & Hsets & _ & _ & Hagain & _).
  - reflexivity.
  - reflexivity.
  - reflexivity.
  - exists s'. split; [exact Hrun|]. split; [exact Hsets|].
    destruct (Hagain [20; 22] 30 31) as (s'' & Hthrow & _ & Hnull).
    + pose proof (f_equal snd Hrun) as Hs'. simpl in Hs'. subst s'.
      vm_compute. reflexivity.
    + exists s''. split; [exact Hthrow | exact Hnull].
Defined.

(** X14: [createDescriptorSets] does not check how many uniform
    buffers it is given: with fewer than [MAX_FRAMES_IN_FLIGHT] it still
    allocates the sets and then reads [uniformBuffers[i]] past the end of
    the vector, which is undefined. *)
Theorem createDescriptorSets_reads_past_short_vector
    (s : State) (uniformBuffers : list handle)
    (textureImageView textureSampler : handle) :
  layoutObjects s !! descriptorSetLayout s = Some two_binding_layout ->
  poolObjects s !! descriptorPool s = Some (pool_for (Z.of_nat MAX_FRAMES_IN_FLIGHT)) ->
  fst (driver_pop (driver s)) = true ->
  (length uniformBuffers < MAX_FRAMES_IN_FLIGHT)%nat ->
  let r := createDescriptorSets uniformBuffers textureImageView textureSampler s in
  fst r = Undefined
  /\ vkAllocateDescriptorSets (descriptorPool s)
       [descriptorSetLayout s; descriptorSetLayout s] true ∈ calls (snd r).
Proof.
  intros Hlayout Hpool Hok Hshort r. subst r.
  unfold createDescriptorSets.
  erewrite bind_run by reflexivity.
  erewrite bind_run by reflexivity.
  erewrite bind_run by reflexivity.
  cbn [replicate MAX_FRAMES_IN_FLIGHT].
  erewrite bind_run.
  2:{ apply allocateDescriptorSets_served with (remaining := pool_for 2)
        (bindings := two_binding_layout);
        [exact Hpool | exact Hlayout | exact Hok]. }
  destruct s as [d c ls ps layout0 pool0 sets0].
  unfold MAX_FRAMES_IN_FLIGHT in Hshort.
  destruct uniformBuffers as [|buffer0 [|buffer1 more]]; [| |simpl in Hshort; lia];
    unfold bind, gets, modify, log, ret, undefined; cbn -[insert Z.add];
    (split; [reflexivity|]);
    rewrite ?elem_of_app, ?elem_of_cons; auto.
Qed.

Lemma createDescriptorSets_reads_past_short_vector_witness :
  fst (createDescriptorSets [20] 30 31 (snd (constructor DescriptorSamples.unbuilt)))
  = Undefined.
Proof.
  apply (createDescriptorSets_reads_past_short_vector
           (snd (constructor DescriptorSamples.unbuilt)) [20] 30 31).
  - reflexivity.
  - reflexivity.
  - reflexivity.
  - simpl. unfold MAX_FRAMES_IN_FLIGHT. lia.
Defined.

(** X15: [getDescriptorSet] never reads outside [descriptorSets]: an
    index at or past its size raises [out_of_range], a null set in range
    raises the runtime error naming the frame, and any other set in
    range is returned; the member is left as it was. *)
Theorem getDescriptorSet_checks_its_index (sets : list handle) (frameIndex : Z) :
  0 <= frameIndex ->
  getDescriptorSet frameIndex sets
  = (match sets !! Z.to_nat frameIndex with
     | None => Throw (out_of_range "Frame index is out of bounds!")
     | Some set =>
         if set =? VK_NULL_HANDLE
         then Throw (runtime_error
                       ("Descriptor set for frame " +:+ pretty frameIndex
                        +:+ " is not initialized!"))
         else Ret set
     end, sets).
Proof.
  intros Hindex. unfold getDescriptorSet, bind, get, throw, ret, undefined.
  unfold handle in *.
  destruct (sets !! Z.to_nat frameIndex) as [set|] eqn:Hset.
  - apply lookup_lt_Some in Hset.
    destruct (Z.leb_spec (Z.of_nat (length sets)) frameIndex) as [Hout|Hin]; [lia|].
    destruct (set =? VK_NULL_HANDLE); reflexivity.
  - apply lookup_ge_None in Hset.
    destruct (Z.leb_spec (Z.of_nat (length sets)) frameIndex) as [Hout|Hin]; [|lia].
    reflexivity.
Qed.

Lemma getDescriptorSet_checks_its_index_witness :
  getDescriptorSet 2 [62; 63]
  = (Throw (out_of_range "Frame index is out of bounds!"), [62; 63])
  /\ getDescriptorSet 1 [62; 63] = (Ret 63, [62; 63]).
Proof.
  split.
  - apply (getDescriptorSet_checks_its_index [62; 63] 2). lia.
  - apply (getDescriptorSet_checks_its_index [62; 63] 1). lia.
Defined.

End DescriptorSets.

(** ** Building and releasing the buffers *)

Section BufferTeardown.
Import BufferManager BufferManagerMore.

Ltac fold_handles :=
  rewrite <- ?Z.add_assoc;
  change (1 + 1) with 2; change (1 + 2) with 3; change (1 + 3) with 4.

Lemma createVertexBuffer_served (s : State) :
  driver_succeeds 3 (driver s) = true ->
  commandPool s <> VK_NULL_HANDLE ->
  createVertexBuffer s
  = (Ret true,
     device_local_built (vertices s) VK_BUFFER_USAGE_VERTEX_BUFFER_BIT with_vertex s).
Proof.
  intros Hdriver Hpool.
  destruct s as [[script n] c e h ma pool vs ixs vb va ib ia ubs ups ums].
  simpl in Hpool. unfold driver_succeeds in Hdriver. simpl in Hdriver.
  apply Z.eqb_neq in Hpool.
  destruct script as [|[] [|[] [|[] script]]]; simpl in Hdriver; try discriminate.
  all: unfold createVertexBuffer, createDeviceLocalBuffer, try_catch_runtime_error,
         bind, gets, modify, createBuffer, mapMemory, unmapMemory, destroyBuffer,
         copyBuffer, getCommandPool, host_memcpy, log, ret, throw, cerr_error,
         device_local_built, driver_after.
  all: cbn -[Z.add Z.eqb memcpy Z.of_nat]; rewrite Hpool;
       cbn -[Z.add Z.eqb memcpy Z.of_nat];
       rewrite <- ?app_assoc; fold_handles; reflexivity.
Qed.

Lemma createIndexBuffer_served (s : State) :
  driver_succeeds 3 (driver s) = true ->
  commandPool s <> VK_NULL_HANDLE ->
  createIndexBuffer s
  = (Ret true,
     device_local_built (indices s) VK_BUFFER_USAGE_INDEX_BUFFER_BIT with_index s).
Proof.
  intros Hdriver Hpool.
  destruct s as [[script n] c e h ma pool vs ixs vb va ib ia ubs ups ums].
  simpl in Hpool. unfold driver_succeeds in Hdriver. simpl in Hdriver.
  apply Z.eqb_neq in Hpool.
  destruct script as [|[] [|[] [|[] script]]]; simpl in Hdriver; try discriminate.
  all: unfold createIndexBuffer, createDeviceLocalBuffer, try_catch_runtime_error,
         bind, gets, modify, createBuffer, mapMemory, unmapMemory, destroyBuffer,
         copyBuffer, getCommandPool, host_memcpy, log, ret, throw, cerr_error,
         device_local_built, driver_after.
  all: cbn -[Z.add Z.eqb memcpy Z.of_nat]; rewrite Hpool;
       cbn -[Z.add Z.eqb memcpy Z.of_nat];
       rewrite <- ?app_assoc; fold_handles; reflexivity.
Qed.

Ltac run_uniform :=
  unfold createUniformBuffers, uniform_built, uniform_interrupted, uniform_create,
    driver_after, MAX_FRAMES_IN_FLIGHT;
  simpl seq; simpl createUniformBuffers_loop;
  unfold destroy_uniform_prefix, try_catch_runtime_error,
    bind, gets, modify, createBuffer, mapMemory, destroyBuffer, log, ret, throw,
    undefined, cerr_error, with_uniform, with_device;
  cbn -[Z.add Z.eqb Z.of_nat];
  rewrite <- ?app_assoc; fold_handles.

Lemma createUniformBuffers_served (s : State) :
  driver_succeeds 4 (driver s) = true ->
  members_sized s ->
  createUniformBuffers s = (Ret true, uniform_built s).
Proof.
  intros Hdriver (Hubs & Hups & Hums).
  destruct s as [[script n] c e h ma pool vs ixs vb va ib ia ubs ups ums].
  simpl in Hubs, Hups, Hums. subst ubs ups ums.
  unfold driver_succeeds in Hdriver. simpl in Hdriver.
  destruct script as [|[] [|[] [|[] [|[] script]]]]; simpl in Hdriver;
    try discriminate.
  all: run_uniform; reflexivity.
Qed.

Lemma createUniformBuffers_interrupted (s : State) (k : nat) (rest : list bool) :
  (1 <= k <= 3)%nat ->
  results (driver s) = replicate k true ++ false :: rest ->
  members_sized s ->
  createUniformBuffers s = (Ret false, uniform_interrupted k s).
Proof.
  intros Hk Hscript (Hubs & Hups & Hums).
  destruct s as [[script n] c e h ma pool vs ixs vb va ib ia ubs ups ums].
  simpl in Hscript, Hubs, Hups, Hums. subst script ubs ups ums.
  destruct k as [|[|[|[|k]]]]; try lia.
  all: run_uniform; reflexivity.
Qed.

Lemma BufferManager_destructor_run (s : State) (b0 b1 : handle) (p0 p1 : Z)
    (m0 m1 : handle) :
  uniformBuffers s = [b0; b1] ->
  uniformBuffersMapped s = [p0; p1] ->
  uniformBuffersMemory s = [m0; m1] ->
  destructor s
  = (Ret tt,
     logged (released_frame b0 p0 m0 ++ released_frame b1 p1 m1
             ++ released_buffer (vertexBuffer s) (vertexBufferAllocation s)
             ++ released_buffer (indexBuffer s) (indexBufferAllocation s)) s).
Proof.
  intros Hubs Hups Hums.
  destruct s as [d c e h ma pool vs ixs vb va ib ia ubs ups ums].
  simpl in Hubs, Hups, Hums. subst ubs ups ums.
  unfold destructor, released_frame, released_buffer, logged, MAX_FRAMES_IN_FLIGHT.
  simpl seq. cbn [for_each].
  unfold bind, gets, unmapMemory, destroyBuffer, log, modify, ret, with_device.
  cbn -[Z.eqb].
  repeat (match goal with
          | |- context [negb (?x =? ?y)] => destruct (x =? y)
          end; cbn -[Z.eqb]).
  all: rewrite <- ?app_assoc, ?app_nil_r; reflexivity.
Qed.

End BufferTeardown.

(** ** A buffer manager from construction to destruction *)

Section BufferLifecycle.
Import BufferManager BufferManagerMore.

Lemma driver_succeeds_after (k m : nat) (made : Z) (d : Driver) :
  driver_succeeds (k + m) d = true ->
  driver_succeeds m (driver_after k made d) = true.
Proof.
  unfold driver_succeeds, driver_after. simpl. intros H.
  rewrite <- (take_take_drop (results d) k m) in H.
  rewrite forallb_app in H. apply andb_true_iff in H as [_ H]. exact H.
Qed.

Lemma driver_succeeds_less (k m : nat) (d : Driver) :
  driver_succeeds (k + m) d = true -> driver_succeeds k d = true.
Proof.
  unfold driver_succeeds. intros H.
  rewrite <- (take_take_drop (results d) k m) in H.
  rewrite forallb_app in H. apply andb_true_iff in H as [H _]. exact H.
Qed.

Lemma constructor_built (s : State) :
  driver_succeeds 6 (driver s) = true ->
  commandPool s <> VK_NULL_HANDLE ->
  constructor s
  = bind createUniformBuffers (fun _ => ret tt)
      (device_local_built (indices s) VK_BUFFER_USAGE_INDEX_BUFFER_BIT with_index
         (device_local_built (vertices s) VK_BUFFER_USAGE_VERTEX_BUFFER_BIT
            with_vertex (sized s))).
Proof.
  intros Hdriver Hpool.
  unfold constructor.
  erewrite bind_run by reflexivity.
  erewrite bind_run.
  2:{ apply createVertexBuffer_served; [|exact Hpool].
      apply (driver_succeeds_less 3 3), Hdriver. }
  erewrite bind_run.
  2:{ apply createIndexBuffer_served.
      - destruct s as [d c e h ma pool vs ixs vb va ib ia ubs ups ums].
        apply (driver_succeeds_after 3 3), Hdriver.
      - destruct s. exact Hpool. }
  destruct s as [d c e h ma pool vs ixs vb va ib ia ubs ups ums]. reflexivity.
Qed.

Ltac buffer_state :=
  cbv [logged uniform_built uniform_interrupted device_local_built sized
       released_frame released_buffer
       driver_after with_device with_uniform with_vertex with_index
       driver calls stderr heap mapAddress commandPool vertices indices
       vertexBuffer vertexBufferAllocation indexBuffer indexBufferAllocation
       uniformBuffers uniformBuffersMapped uniformBuffersMemory
       nextHandle results vector_resize MAX_FRAMES_IN_FLIGHT
       fst snd];
  rewrite <- ?Z.add_assoc;
  repeat match goal with
         | |- context [Z.pos ?p + Z.pos ?q] =>
             let r := eval vm_compute in (Z.pos p + Z.pos q) in
             change (Z.pos p + Z.pos q) with r
         end.

Ltac null_tests :=
  repeat match goal with
         | |- context [?x =? ?y] =>
             destruct (Z.eqb_spec x y);
               [exfalso; unfold VK_NULL_HANDLE in *; first [congruence | lia] |]
         end.

(** X16: a [BufferManager] built against a driver that serves all ten
    fallible calls and then destructed destroys every buffer it created
    exactly once and unmaps every mapping once: the two staging buffers
    right after their copies, and in the destructor the two uniform
    buffers, each unmapped first, then the vertex and the index
    buffer. *)
Theorem BufferManager_releases_what_it_built (s : State) :
  driver_succeeds 10 (driver s) = true ->
  commandPool s <> VK_NULL_HANDLE ->
  unbuilt s ->
  0 < nextHandle (driver s) ->
  (forall allocation, 0 < allocation -> mapAddress s allocation <> 0) ->
  exists s',
    let n := nextHandle (driver s) in
    let vsize := Z.of_nat (length (vertices s)) in
    let isize := Z.of_nat (length (indices s)) in
    bind constructor (fun _ => destructor) s = (Ret tt, s')
    /\ calls s'
       = calls s
         ++ [ vmaCreateBuffer vsize VK_BUFFER_USAGE_TRANSFER_SRC_BIT
                VMA_MEMORY_USAGE_CPU_ONLY true;
              vmaMapMemory (n + 1) true;
              vmaUnmapMemory (n + 1);
              vmaCreateBuffer vsize
                (Z.lor VK_BUFFER_USAGE_TRANSFER_DST_BIT VK_BUFFER_USAGE_VERTEX_BUFFER_BIT)
                VMA_MEMORY_USAGE_GPU_ONLY true;
              copyBufferCmd n (n + 2) vsize (commandPool s);
              vmaDestroyBuffer n (n + 1);
              vmaCreateBuffer isize VK_BUFFER_USAGE_TRANSFER_SRC_BIT
                VMA_MEMORY_USAGE_CPU_ONLY true;
              vmaMapMemory (n + 5) true;
              vmaUnmapMemory (n + 5);
              vmaCreateBuffer isize
                (Z.lor VK_BUFFER_USAGE_TRANSFER_DST_BIT VK_BUFFER_USAGE_INDEX_BUFFER_BIT)
                VMA_MEMORY_USAGE_GPU_ONLY true;
              copyBufferCmd (n + 4) (n + 6) isize (commandPool s);
              vmaDestroyBuffer (n + 4) (n + 5);
              uniform_create; vmaMapMemory (n + 9) true;
              uniform_create; vmaMapMemory (n + 11) true;
              vmaUnmapMemory (n + 9); vmaDestroyBuffer (n + 8) (n + 9);
              vmaUnmapMemory (n + 11); vmaDestroyBuffer (n + 10) (n + 11);
              vmaDestroyBuffer (n + 2) (n + 3);
              vmaDestroyBuffer (n + 6) (n + 7) ].
Proof.
  intros Hdriver Hpool (Hubs & Hups & Hums) Hnext Hmap.
  eexists. cbv zeta. split.
  - assert (Hctor : constructor s
               = (Ret tt,
                  uniform_built
                    (device_local_built (indices s) VK_BUFFER_USAGE_INDEX_BUFFER_BIT
                       with_index
                       (device_local_built (vertices s)
                          VK_BUFFER_USAGE_VERTEX_BUFFER_BIT with_vertex (sized s))))).
    { rewrite constructor_built;
        [|apply (driver_succeeds_less 6 4), Hdriver | exact Hpool].
      erewrite bind_run; [reflexivity|].
      apply createUniformBuffers_served.
      - destruct s as [d c e h ma pool vs ixs vb va ib ia ubs ups ums].
        apply (driver_succeeds_after 3 4), (driver_succeeds_after 3 7), Hdriver.
      - destruct s as [d c e h ma pool vs ixs vb va ib ia ubs ups ums].
        simpl in Hubs, Hups, Hums. subst. repeat split. }
    rewrite (bind_run _ _ _ _ _ Hctor).
    apply BufferManager_destructor_run; reflexivity.
  - destruct s as [[script n] c e h ma pool vs ixs vb va ib ia ubs ups ums].
    simpl in Hubs, Hups, Hums, Hnext, Hmap, Hpool. subst.
    buffer_state.
    pose proof (Hmap (n + 9)) as Hmap9. pose proof (Hmap (n + 11)) as Hmap11.
    null_tests.
    cbn [negb app]. rewrite <- ?app_assoc. reflexivity.
Qed.

Lemma BufferManager_releases_what_it_built_witness :
  exists s',
    bind constructor (fun _ => destructor) (BufferSamples.unbuilt []) = (Ret tt, s')
    /\ List.filter (destroys 9) (calls s') = [vmaDestroyBuffer 9 10]
    /\ length (calls s') = 22%nat.
Proof.
  destruct (BufferManager_releases_what_it_built (BufferSamples.unbuilt []))
    as (s' & Hrun & Hcalls).
  - reflexivity.
  - discriminate.
  - repeat split.
  - simpl. lia.
  - intros allocation Hallocation. simpl. lia.
  - exists s'. split; [exact Hrun|]. rewrite Hcalls. split; reflexivity.
Defined.

Lemma destroy_count_app (b : handle) (before after : list VmaCall) :
  destroy_count b (before ++ after)
  = (destroy_count b before + destroy_count b after)%nat.
Proof. unfold destroy_count. rewrite List.filter_app, length_app. reflexivity. Qed.

Ltac count_destroys :=
  unfold destroy_count, uniform_create; cbn [List.filter destroys app length negb];
  repeat match goal with
         | |- context [?x =? ?y] =>
             destruct (Z.eqb_spec x y);
               unfold VK_NULL_HANDLE in *; try (exfalso; lia);
               cbn [List.filter destroys app length negb]
         end;
  try reflexivity.

(** X17: when [createUniformBuffers] is interrupted after its first
    buffer exists (the driver refuses the mapping of the first buffer,
    the creation of the second, or the mapping of the second), its
    handler destroys that buffer but leaves the handle in
    [uniformBuffers]; the constructor returns all the same, and the
    destructor, finding the handle non-null, destroys the buffer a
    second time. *)
Theorem interrupted_uniform_buffer_is_destroyed_twice
    (s : State) (k : nat) (rest : list bool) :
  (7 <= k <= 9)%nat ->
  results (driver s) = replicate k true ++ false :: rest ->
  commandPool s <> VK_NULL_HANDLE ->
  unbuilt s ->
  0 < nextHandle (driver s) ->
  exists s',
    let first := nextHandle (driver s) + 8 in
    bind constructor (fun _ => destructor) s = (Ret tt, s')
    /\ destroy_count first (calls s')
       = (destroy_count first (calls s) + 2)%nat.
Proof.
  intros Hk Hscript Hpool (Hubs & Hups & Hums) Hnext.
  assert (Hprefix : exists k', (1 <= k' <= 3)%nat /\ k = (6 + k')%nat)
    by (exists (k - 6)%nat; lia).
  destruct Hprefix as (k' & Hk' & ->).
  assert (Hsix : driver_succeeds 6 (driver s) = true).
  { unfold driver_succeeds. rewrite Hscript. reflexivity. }
  assert (Hctor : constructor s
             = (Ret tt,
                uniform_interrupted k'
                  (device_local_built (indices s) VK_BUFFER_USAGE_INDEX_BUFFER_BIT
                     with_index
                     (device_local_built (vertices s)
                        VK_BUFFER_USAGE_VERTEX_BUFFER_BIT with_vertex (sized s))))).
  { rewrite constructor_built; [|exact Hsix | exact Hpool].
    erewrite bind_run; [reflexivity|].
    apply createUniformBuffers_interrupted with (rest := rest); [exact Hk'| |].
    - destruct s as [[script n] c e h ma pool vs ixs vb va ib ia ubs ups ums].
      simpl in Hscript. subst script. reflexivity.
    - destruct s as [d c e h ma pool vs ixs vb va ib ia ubs ups ums].
      simpl in Hubs, Hups, Hums. subst. repeat split. }
  destruct s as [[script n] c e h ma pool vs ixs vb va ib ia ubs ups ums].
  simpl in Hubs, Hups, Hums, Hnext, Hpool. subst.
  destruct k' as [|[|[|[|k']]]]; try lia.
  all: eexists; cbv zeta;
    (split; [rewrite (bind_run _ _ _ _ _ Hctor);
             apply BufferManager_destructor_run; reflexivity|]).
  all: buffer_state; cbn [insert list_insert]; rewrite <- ?app_assoc.
  all: rewrite destroy_count_app; f_equal.
  all: count_destroys.
Qed.

Lemma interrupted_uniform_buffer_is_destroyed_twice_witness :
  exists s',
    bind constructor (fun _ => destructor)
      (BufferSamples.unbuilt [true; true; true; true; true; true; true; false])
    = (Ret tt, s')
    /\ destroy_count 9 (calls s') = 2%nat.
Proof.
  destruct (interrupted_uniform_buffer_is_destroyed_twice
              (BufferSamples.unbuilt [true; true; true; true; true; true; true; false])
              7 [])
    as (s' & Hrun & Hcount).
  - lia.
  - reflexivity.
  - discriminate.
  - repeat split.
  - simpl. lia.
  - exists s'. split; [exact Hrun | exact Hcount].
Defined.

End BufferLifecycle.

(** ** Resetting and waiting for a frame's fence *)

Section FenceProtocol.
Import CommandBufferManager CommandBufferManagerMore SyncFacts.

(** X18: [resetFences] leaves the frame's fence unsignaled, so a
    [waitForFences] on the same frame that follows it with no work
    submitted in between never returns: it waits without a timeout for
    a signal nothing is going to send. *)
Theorem resetFences_then_waitForFences_blocks
    (s : State) (frameIndex : Z) (fence : handle) :
  0 <= frameIndex ->
  inFlightFences s !! Z.to_nat frameIndex = Some fence ->
  fences s !! fence = Some true ->
  fence ∉ pending s ->
  deviceLost s = false ->
  driver_succeeds 1 (driver s) = true ->
  exists s1 s2 s3,
    waitForFences frameIndex s = (Ret tt, s1)
    /\ resetFences frameIndex s1 = (Ret tt, s2)
    /\ fences s2 !! fence = Some false
    /\ waitForFences frameIndex s2 = (Blocked, s3)
    /\ bind (waitForFences frameIndex)
         (fun _ => bind (resetFences frameIndex) (fun _ => waitForFences frameIndex)) s
       = (Blocked, s3).
Proof.
  intros Hindex Hfence Hsignaled Hidle Hlost Hdriver.
  apply driver_succeeds_pop in Hdriver.
  destruct s as [[script n] c fs ss p lost family pool cbs ias rfs iffs].
  simpl in Hfence, Hsignaled, Hidle, Hlost, Hdriver. subst lost.
  assert (H1 : waitForFences frameIndex
                 {| driver := {| results := script; nextHandle := n |};
                    calls := c; fences := fs; semaphores := ss; pending := p;
                    deviceLost := false; graphicsFamily := family;
                    commandPool := pool; commandBuffers := cbs;
                    imageAvailableSemaphores := ias; renderFinishedSemaphores := rfs;
                    inFlightFences := iffs |}
               = (Ret tt,
                  {| driver := {| results := script; nextHandle := n |};
                     calls := c ++ [vkWaitForFences fence UINT64_MAX false];
                     fences := fs; semaphores := ss; pending := p;
                     deviceLost := false; graphicsFamily := family;
                     commandPool := pool; commandBuffers := cbs;
                     imageAvailableSemaphores := ias; renderFinishedSemaphores := rfs;
                     inFlightFences := iffs |})).
  { unfold waitForFences, device_waitForFence, bind, gets, get, log, modify, ret.
    cbn [inFlightFences]. rewrite Hfence. cbn [deviceLost fences]. rewrite Hsignaled.
    reflexivity. }
  assert (H2 : resetFences frameIndex
                 {| driver := {| results := script; nextHandle := n |};
                    calls := c ++ [vkWaitForFences fence UINT64_MAX false];
                    fences := fs; semaphores := ss; pending := p;
                    deviceLost := false; graphicsFamily := family;
                    commandPool := pool; commandBuffers := cbs;
                    imageAvailableSemaphores := ias; renderFinishedSemaphores := rfs;
                    inFlightFences := iffs |}
               = (Ret tt,
                  {| driver := snd (driver_pop {| results := script; nextHandle := n |});
                     calls := c ++ [vkWaitForFences fence UINT64_MAX false];
                     fences := <[fence := false]> fs; semaphores := ss; pending := p;
                     deviceLost := false; graphicsFamily := family;
                     commandPool := pool; commandBuffers := cbs;
                     imageAvailableSemaphores := ias; renderFinishedSemaphores := rfs;
                     inFlightFences := iffs |})).
  { unfold resetFences, device_resetFence, bind, gets, get, pop_result, modify, ret.
    cbn [inFlightFences]. rewrite Hfence. cbn [fences pending]. rewrite Hsignaled.
    rewrite bool_decide_eq_false_2 by exact Hidle.
    destruct script as [|ok script]; simpl in Hdriver; [|subst ok]; reflexivity. }
  assert (H3 : waitForFences frameIndex
                 {| driver := snd (driver_pop {| results := script; nextHandle := n |});
                    calls := c ++ [vkWaitForFences fence UINT64_MAX false];
                    fences := <[fence := false]> fs; semaphores := ss; pending := p;
                    deviceLost := false; graphicsFamily := family;
                    commandPool := pool; commandBuffers := cbs;
                    imageAvailableSemaphores := ias; renderFinishedSemaphores := rfs;
                    inFlightFences := iffs |}
               = (Blocked,
                  {| driver := snd (driver_pop {| results := script; nextHandle := n |});
                     calls := c ++ [vkWaitForFences fence UINT64_MAX false];
                     fences := <[fence := false]> fs; semaphores := ss; pending := p;
                     deviceLost := false; graphicsFamily := family;
                     commandPool := pool; commandBuffers := cbs;
                     imageAvailableSemaphores := ias; renderFinishedSemaphores := rfs;
                     inFlightFences := iffs |})).
  { unfold waitForFences, device_waitForFence, bind, gets, get, log, modify, ret, blocked.
    cbn [inFlightFences]. rewrite Hfence. cbn [deviceLost fences pending].
    rewrite lookup_insert_eq.
    rewrite bool_decide_eq_false_2 by exact Hidle.
    reflexivity. }
  eexists. eexists. eexists.
  split; [exact H1|]. split; [exact H2|].
  split; [apply lookup_insert_eq|]. split; [exact H3|].
  rewrite (bind_run _ _ _ _ _ H1), (bind_run _ _ _ _ _ H2). exact H3.
Qed.

Lemma resetFences_then_waitForFences_blocks_witness :
  fst (bind (waitForFences 0)
         (fun _ => bind (resetFences 0) (fun _ => waitForFences 0)) idle)
  = Blocked.
Proof.
  destruct (resetFences_then_waitForFences_blocks idle 0 73)
    as (s1 & s2 & s3 & _ & _ & _ & _ & Hrun).
  - lia.
  - reflexivity.
  - reflexivity.
  - intros Hin. inversion Hin.
  - reflexivity.
  - reflexivity.
  - rewrite Hrun. reflexivity.
Defined.

End FenceProtocol.

(** ** Choosing the physical device *)

Section DeviceSelection.
Import VulkanPhysicalDevice.

Lemma rateDeviceSuitability_nonnegative (device : Gpu) :
  reported device -> 0 <= rateDeviceSuitability device.
Proof.
  intros (_ & Hlimit). unfold rateDeviceSuitability, to_int32, to_uint32.
  unfold INT_MAX in *.
  assert (Hsum : 0 <= (if deviceType device =? VK_PHYSICAL_DEVICE_TYPE_DISCRETE_GPU
                       then 0 + 1000 else 0) + maxImageDimension2D device
                 < 2147483647)
    by (destruct (deviceType device =? _); lia).
  rewrite Z.mod_small by lia.
  destruct (Z.ltb_spec 2147483647
              ((if deviceType device =? VK_PHYSICAL_DEVICE_TYPE_DISCRETE_GPU
                then 0 + 1000 else 0) + maxImageDimension2D device)); lia.
Qed.

Lemma select_device_spec (devices : list Gpu) :
  forall (bestScore : Z) (physicalDevice : handle),
    (select_device devices bestScore physicalDevice = physicalDevice
     /\ forall other, other ∈ devices -> isDeviceSuitable other = true ->
          rateDeviceSuitability other <= bestScore)
    \/ exists i device,
         first_best devices i device
         /\ select_device devices bestScore physicalDevice = gpu device
         /\ bestScore < rateDeviceSuitability device.
Proof.
  induction devices as [|device rest IH]; intros bestScore physicalDevice.
  - left. split; [reflexivity|]. intros other Hin. inversion Hin.
  - cbn [select_device].
    destruct ((bestScore <? rateDeviceSuitability device) && isDeviceSuitable device)
      eqn:Hbetter.
    + apply andb_true_iff in Hbetter as [Hscore Hsuitable].
      apply Z.ltb_lt in Hscore.
      destruct (IH (rateDeviceSuitability device) (gpu device))
        as [[Hkept Hrest] | (i & best & (Hat & Hsuit & Hmax & Hfirst) & Hsel & Hgt)].
      * right. exists 0%nat, device. split; [|split; [exact Hkept | exact Hscore]].
        split; [reflexivity|]. split; [exact Hsuitable|]. split.
        -- intros other Hin Hother. apply elem_of_cons in Hin as [->|Hin];
             [lia | apply Hrest; assumption].
        -- intros j other Hj. lia.
      * right. exists (S i), best. split; [|split; [exact Hsel | lia]].
        split; [exact Hat|]. split; [exact Hsuit|]. split.
        -- intros other Hin Hother. apply elem_of_cons in Hin as [->|Hin];
             [lia | apply Hmax; assumption].
        -- intros [|j] other Hj Hlookup Hother.
           ++ simpl in Hlookup. injection Hlookup as <-. lia.
           ++ apply (Hfirst j other); [lia | exact Hlookup | exact Hother].
    + assert (Hnot : isDeviceSuitable device = true ->
                     rateDeviceSuitability device <= bestScore).
      { intros Hsuitable. rewrite Hsuitable, andb_true_r in Hbetter.
        apply Z.ltb_ge in Hbetter. exact Hbetter. }
      destruct (IH bestScore physicalDevice)
        as [[Hkept Hrest] | (i & best & (Hat & Hsuit & Hmax & Hfirst) & Hsel & Hgt)].
      * left. split; [exact Hkept|].
        intros other Hin Hother. apply elem_of_cons in Hin as [->|Hin];
          [apply Hnot, Hother | apply Hrest; assumption].
      * right. exists (S i), best. split; [|split; [exact Hsel | exact Hgt]].
        split; [exact Hat|]. split; [exact Hsuit|]. split.
        -- intros other Hin Hother. apply elem_of_cons in Hin as [->|Hin];
             [specialize (Hnot Hother); lia | apply Hmax; assumption].
        -- intros [|j] other Hj Hlookup Hother.
           ++ simpl in Hlookup. injection Hlookup as <-.
              specialize (Hnot Hother). lia.
           ++ apply (Hfirst j other); [lia | exact Hlookup | exact Hother].
Qed.

(** X19: the [VulkanPhysicalDevice] constructor chooses the suitable
    device of the highest score, and among several of that score the
    one enumerated first.  With no device at all it raises its "no
    GPUs" error; with devices none of which is suitable, its "no
    suitable GPU" error.  A device counts as suitable exactly when
    [isDeviceSuitable] accepts it, whatever its score. *)
Theorem VulkanPhysicalDevice_picks_first_best_suitable (devices : list Gpu) :
  Forall reported devices ->
  match constructor devices with
  | Ret physicalDevice =>
      exists i device,
        first_best devices i device /\ gpu device = physicalDevice
  | Throw e =>
      (devices = []
       /\ e = runtime_error "Failed to find GPUs with Vulkan support!")
      \/ (devices <> []
          /\ e = runtime_error "Failed to find a suitable GPU!"
          /\ forall device, device ∈ devices -> isDeviceSuitable device = false)
  | _ => False
  end.
Proof.
  intros Hreported. unfold constructor.
  destruct devices as [|first rest] eqn:Hdevices.
  - left. split; reflexivity.
  - rewrite <- Hdevices in *.
    replace (Z.of_nat (length devices) =? 0) with false
      by (subst devices; reflexivity).
    destruct (select_device_spec devices (-1) VK_NULL_HANDLE)
      as [[Hkept Hnone] | (i & device & Hbest & Hsel & _)].
    + rewrite Hkept. cbn. right. split; [subst devices; discriminate|].
      split; [reflexivity|]. intros device Hin.
      destruct (isDeviceSuitable device) eqn:Hsuitable; [|reflexivity].
      pose proof (Hnone device Hin Hsuitable) as Hle.
      rewrite Forall_forall in Hreported.
      pose proof (rateDeviceSuitability_nonnegative device (Hreported device Hin)).
      lia.
    + rewrite Hsel.
      assert (Hin : device ∈ devices).
      { destruct Hbest as (Hat & _). eapply list_elem_of_lookup_2, Hat. }
      rewrite Forall_forall in Hreported.
      destruct (Hreported device Hin) as (Hnonnull & _).
      destruct (Z.eqb_spec (gpu device) VK_NULL_HANDLE) as [Hnull|_]; [contradiction|].
      exists i, device. split; [exact Hbest | reflexivity].
Qed.

Lemma VulkanPhysicalDevice_picks_first_best_suitable_witness :
  match constructor three_gpus with
  | Ret physicalDevice =>
      exists i device,
        first_best three_gpus i device /\ gpu device = physicalDevice
  | Throw e =>
      (three_gpus = []
       /\ e = runtime_error "Failed to find GPUs with Vulkan support!")
      \/ (three_gpus <> []
          /\ e = runtime_error "Failed to find a suitable GPU!"
          /\ forall device, device ∈ three_gpus -> isDeviceSuitable device = false)
  | _ => False
  end.
Proof.
  apply (VulkanPhysicalDevice_picks_first_best_suitable three_gpus).
  unfold three_gpus, reported, INT_MAX.
  repeat constructor; simpl; try discriminate; lia.
Defined.

End DeviceSelection.

(** ** Framebuffers over the swap chain's views *)

Section FramebufferLifecycle.
Import Framebuffers.

Lemma createFrameBuffers_body_run (views : list handle) (extent : VkExtent2D)
    (i : nat) (imageView : handle) (s : State) :
  views !! i = Some imageView ->
  fst (driver_pop (driver s)) = true ->
  match views !! i with
  | None => undefined
  | Some imageView =>
      (pass <- gets renderPass ;;
       let framebufferInfo :=
         {| fb_renderPass := pass; fb_pAttachments := [imageView];
            fb_width := width extent; fb_height := height extent;
            fb_layers := 1 |} in
       ok <- pop_result ;;
       log (vkCreateFramebuffer framebufferInfo ok) ;;;
       if ok then
         framebuffer <- fresh ;;
         modify (fun s => with_framebuffers (<[i := framebuffer]> (framebuffers s)) s)
       else throw (runtime_error "failed to create framebuffer!"))%cpp
  end s = (Ret tt, framebuffer_created i extent imageView s).
Proof.
  intros Hview Hok. rewrite Hview.
  unfold bind, gets, pop_result, log, fresh, modify, ret, framebuffer_created,
    framebuffer_for, driver_served.
  destruct s as [[[|ok rest] next] c pipeline layout pass fbs]; simpl in *;
    [reflexivity|]. subst ok. reflexivity.
Qed.

Lemma createFrameBuffers_loop (views : list handle) (extent : VkExtent2D) (m : nat) :
  forall (k : nat) (s : State) (done todo : list handle),
    framebuffers s = done ++ todo ->
    length done = k ->
    length todo = m ->
    length views = (k + m)%nat ->
    driver_succeeds m (driver s) = true ->
    exists s',
      for_each (seq k m) (fun i =>
        match views !! i with
        | None => undefined
        | Some imageView =>
            (pass <- gets renderPass ;;
             let framebufferInfo :=
               {| fb_renderPass := pass; fb_pAttachments := [imageView];
                  fb_width := width extent; fb_height := height extent;
                  fb_layers := 1 |} in
             ok <- pop_result ;;
             log (vkCreateFramebuffer framebufferInfo ok) ;;;
             if ok then
               framebuffer <- fresh ;;
               modify (fun s =>
                 with_framebuffers (<[i := framebuffer]> (framebuffers s)) s)
             else throw (runtime_error "failed to create framebuffer!"))%cpp
        end) s = (Ret tt, s')
      /\ framebuffers s' = done ++ SwapChainMore.fresh_handles m (driver s)
      /\ calls s' = calls s ++ map (framebuffer_for (renderPass s) extent) (drop k views)
      /\ renderPass s' = renderPass s
      /\ graphicsPipeline s' = graphicsPipeline s
      /\ pipelineLayout s' = pipelineLayout s.
Proof.
  induction m as [|m IH]; intros k s done todo Hfbs Hdone Htodo Hviews Hdriver.
  - exists s. destruct todo; [|discriminate]. simpl.
    rewrite drop_ge by lia. simpl. rewrite !app_nil_r in *.
    repeat split; try reflexivity. exact Hfbs.
  - destruct todo as [|stale todo]; [discriminate|].
    destruct (views !! k) as [imageView|] eqn:Hview.
    2:{ apply lookup_ge_None in Hview. exfalso. lia. }
    cbn [seq for_each].
    rewrite (bind_run _ _ _ _ _
               (createFrameBuffers_body_run views extent k imageView s Hview
                  (driver_succeeds_pop _ _ Hdriver))).
    destruct (IH (S k) (framebuffer_created k extent imageView s)
                (done ++ [nextHandle (driver s)]) todo)
      as (s' & Hrun & Hf & Hc & Hp & Hg & Hl).
    + simpl. rewrite Hfbs. unfold handle in *.
      rewrite insert_app_r_alt by (apply Nat.eq_le_incl, Hdone).
      rewrite Hdone, Nat.sub_diag. simpl.
      rewrite <- app_assoc. reflexivity.
    + rewrite length_app. simpl. lia.
    + simpl in Htodo. lia.
    + lia.
    + simpl. apply driver_succeeds_served, Hdriver.
    + exists s'. split; [exact Hrun|]. simpl in *.
      rewrite Hf, Hc, Hp, Hg, Hl. repeat split; try reflexivity.
      * rewrite <- app_assoc. f_equal. unfold SwapChainMore.fresh_handles. simpl.
        rewrite Z.add_0_r. f_equal.
        rewrite <- seq_shift, map_map. apply map_ext. intros j.
        destruct (driver s) as [[|ok r] next]; simpl; lia.
      * rewrite <- app_assoc. f_equal.
        rewrite (drop_S _ imageView k) by exact Hview. reflexivity.
Qed.

Lemma destroy_framebuffers_run (fbs : list handle) (s : State) :
  for_each fbs (fun framebuffer => log (vkDestroyFramebuffer framebuffer)) s
  = (Ret tt, logged (map vkDestroyFramebuffer fbs) s).
Proof.
  revert s. induction fbs as [|fb fbs IH]; intros s.
  - simpl. unfold ret, logged. rewrite app_nil_r. destruct s; reflexivity.
  - cbn [for_each]. unfold bind at 1. unfold log at 1, modify.
    rewrite IH. unfold logged. simpl. rewrite <- app_assoc. reflexivity.
Qed.

Lemma destructor_without_framebuffers (s : State) :
  framebuffers s = [] ->
  exists rest,
    destructor s = (Ret tt, logged rest s)
    /\ List.filter destroys_framebuffer rest = [].
Proof.
  intros Hfbs. destruct s as [d c pipeline layout pass fbs]. simpl in Hfbs. subst fbs.
  exists ((if negb (pipeline =? VK_NULL_HANDLE) then [vkDestroyPipeline pipeline] else [])
          ++ (if negb (layout =? VK_NULL_HANDLE)
              then [vkDestroyPipelineLayout layout] else [])
          ++ (if negb (pass =? VK_NULL_HANDLE) then [vkDestroyRenderPass pass] else [])).
  split.
  - unfold destructor, bind, gets, log, modify, ret, logged, with_device.
    cbn -[Z.eqb].
    repeat (match goal with
            | |- context [negb (?x =? ?y)] => destruct (x =? y)
            end; cbn -[Z.eqb]).
    all: rewrite <- ?app_assoc, ?app_nil_r; reflexivity.
  - destruct (pipeline =? VK_NULL_HANDLE), (layout =? VK_NULL_HANDLE),
      (pass =? VK_NULL_HANDLE); reflexivity.
Qed.

(** X20: [createFrameBuffers] against a driver that serves one
    creation per view makes one framebuffer per swap-chain view, in
    view order, each over that view alone, with the pipeline's render
    pass, the given extent and one layer.  [destroyFramebuffers] then
    destroys exactly these, in order, and empties the vector, so that
    the destructor afterwards destroys no framebuffer a second time. *)
Theorem GraphicsPipeline_framebuffers_created_then_destroyed
    (s : State) (views : list handle) (extent : VkExtent2D) :
  driver_succeeds (length views) (driver s) = true ->
  exists s1 s2 s3,
    createFrameBuffers views extent s = (Ret tt, s1)
    /\ framebuffers s1 = SwapChainMore.fresh_handles (length views) (driver s)
    /\ calls s1 = calls s ++ map (framebuffer_for (renderPass s) extent) views
    /\ destroyFramebuffers s1 = (Ret tt, s2)
    /\ calls s2 = calls s1 ++ map vkDestroyFramebuffer (framebuffers s1)
    /\ framebuffers s2 = []
    /\ destructor s2 = (Ret tt, s3)
    /\ List.filter destroys_framebuffer (calls s3)
       = List.filter destroys_framebuffer (calls s2).
Proof.
  intros Hdriver.
  set (n := length views) in *.
  destruct (createFrameBuffers_loop views extent n 0
              (with_framebuffers (vector_resize n VK_NULL_HANDLE (framebuffers s)) s)
              [] (vector_resize n VK_NULL_HANDLE (framebuffers s)))
    as (s1 & Hrun & Hf & Hc & Hp & Hg & Hl).
  - reflexivity.
  - reflexivity.
  - unfold vector_resize. rewrite length_app, length_take, length_replicate. lia.
  - reflexivity.
  - exact Hdriver.
  - simpl in Hf, Hc, Hp. rewrite drop_0 in Hc.
    set (s2 := with_framebuffers []
                 (logged (map vkDestroyFramebuffer (framebuffers s1)) s1)).
    destruct (destructor_without_framebuffers s2) as (rest & Hdtor & Hrest);
      [reflexivity|].
    exists s1, s2, (logged rest s2).
    split; [unfold createFrameBuffers; erewrite bind_run by reflexivity; exact Hrun|].
    split; [exact Hf|]. split; [exact Hc|].
    split.
    { unfold destroyFramebuffers. erewrite bind_run by reflexivity.
      erewrite bind_run by apply destroy_framebuffers_run. reflexivity. }
    split; [reflexivity|]. split; [reflexivity|].
    split; [exact Hdtor|].
    simpl. rewrite List.filter_app, Hrest, app_nil_r. reflexivity.
Qed.

Lemma GraphicsPipeline_framebuffers_created_then_destroyed_witness :
  exists s1 s2,
    createFrameBuffers [101; 102] {| width := 800; height := 600 |}
      without_framebuffers = (Ret tt, s1)
    /\ framebuffers s1 = [93; 94]
    /\ destroyFramebuffers s1 = (Ret tt, s2)
    /\ List.filter destroys_framebuffer (calls s2)
       = [vkDestroyFramebuffer 93; vkDestroyFramebuffer 94].
Proof.
  destruct (GraphicsPipeline_framebuffers_created_then_destroyed without_framebuffers [101; 102]
              {| width := 800; height := 600 |})
    as (s1 & s2 & s3 & Hrun & Hfbs & Hcalls & Hdestroy & Hcalls2 & _).
  - reflexivity.
  - exists s1, s2. split; [exact Hrun|]. split; [exact Hfbs|].
    split; [exact Hdestroy|]. rewrite Hcalls2, Hcalls, Hfbs. reflexivity.
Defined.

End FramebufferLifecycle.

(** ** The logical device and its queues *)

Section LogicalDevice.
Import VulkanLogicalDevice.

Lemma std_set_pair (a b : Z) :
  std_set [a; b] = if a =? b then [a] else [Z.min a b; Z.max a b].
Proof.
  unfold std_set. simpl.
  destruct (Z.ltb_spec b a), (Z.eqb_spec b a), (Z.eqb_spec a b);
    try lia; try reflexivity.
  - rewrite Z.min_r, Z.max_l by lia. reflexivity.
  - rewrite Z.min_l, Z.max_r by lia. reflexivity.
Qed.

(** X21: with both queue families known, free mutexes and a driver
    that accepts, [createLogicalDevice] asks for one queue per distinct
    family, never for the same family twice: one entry when graphics
    and presentation share a family, otherwise the two in ascending
    order.  It enables sampler anisotropy and the given extensions, and
    fetches queue 0 of each family, so the two queues are one and the
    same when the families are.  Both mutexes are free again. *)
Theorem createLogicalDevice_one_queue_per_family (s : State) (graphics present : Z) :
  SwapChain.graphicsFamily (indices s) = Some graphics ->
  SwapChain.presentFamily (indices s) = Some present ->
  deviceMutex s = false ->
  queueMutex s = false ->
  fst (driver_pop (driver s)) = true ->
  exists s' createInfo,
    let dev := nextHandle (driver s) in
    createLogicalDevice s = (Ret tt, s')
    /\ calls s'
       = calls s ++ [ vkCreateDevice (physicalDevice s) createInfo true;
                      vkGetDeviceQueue dev graphics 0;
                      vkGetDeviceQueue dev present 0 ]
    /\ map queueFamilyIndex (pQueueCreateInfos createInfo)
       = (if graphics =? present then [graphics]
          else [Z.min graphics present; Z.max graphics present])
    /\ NoDup (map queueFamilyIndex (pQueueCreateInfos createInfo))
    /\ Forall (fun info => queueCount info = 1) (pQueueCreateInfos createInfo)
    /\ enabled_samplerAnisotropy createInfo = true
    /\ ppEnabledExtensionNames createInfo = deviceExtensions s
    /\ ppEnabledLayerNames createInfo = validationLayers s
    /\ device s' = dev
    /\ graphicsQueue s' = queueOf s dev graphics 0
    /\ presentQueue s' = queueOf s dev present 0
    /\ deviceMutex s' = false /\ queueMutex s' = false.
Proof.
  intros Hgraphics Hpresent Hdm Hqm Hok.
  destruct s as [[script n] c out found qo phys layers exts dev0 gq pq dm qm].
  simpl in Hgraphics, Hpresent, Hdm, Hqm, Hok. subst dm qm.
  assert (Hscript : script = [] \/ exists rest, script = true :: rest).
  { destruct script as [|ok rest]; [left; reflexivity|].
    simpl in Hok. subst ok. right. exists rest. reflexivity. }
  clear Hok.
  destruct Hscript as [-> | (rest & ->)].
  all: eexists;
    exists {| pQueueCreateInfos :=
                map (fun queueFamily =>
                       {| queueFamilyIndex := queueFamily; queueCount := 1;
                          pQueuePriorities := [100] |})
                    (std_set [graphics; present]);
              enabled_samplerAnisotropy := true;
              ppEnabledExtensionNames := exts;
              ppEnabledLayerNames := if bool_decide (layers = []) then [] else layers |};
    cbv zeta;
    (split;
     [ unfold createLogicalDevice; unfold bind at 1; unfold gets at 1;
       cbn [indices]; rewrite Hgraphics, Hpresent;
       unfold lock_deviceMutex, lock_queueMutex, bind, gets, pop_result, log, fresh,
         cout, modify, ret, with_members, with_mutexes, with_device;
       cbn -[std_set]; reflexivity |]);
    cbn -[std_set]; rewrite <- !app_assoc;
    (split; [reflexivity|]);
    rewrite map_map; cbn [queueFamilyIndex]; rewrite map_id, std_set_pair;
    (split; [reflexivity|]).
  all: split;
    [ destruct (Z.eqb_spec graphics present) as [Heq|Hne];
      [ apply NoDup_singleton
      | apply NoDup_cons; split; [|apply NoDup_singleton];
        intros Hin; apply list_elem_of_singleton in Hin; lia ] |].
  all: split;
    [ apply Forall_forall; intros info Hin;
      apply list_elem_of_fmap_1 in Hin as (family & -> & _); reflexivity |].
  all: split; [reflexivity|]; split; [reflexivity|]; split;
    [ destruct (bool_decide_reflect (layers = [])) as [->|_]; reflexivity |].
  all: repeat split; reflexivity.
Qed.

Lemma createLogicalDevice_one_queue_per_family_witness :
  exists s' createInfo,
    createLogicalDevice uncreated = (Ret tt, s')
    /\ calls s' = [ vkCreateDevice 2 createInfo true;
                    vkGetDeviceQueue 40 1 0; vkGetDeviceQueue 40 0 0 ]
    /\ map queueFamilyIndex (pQueueCreateInfos createInfo) = [0; 1].
Proof.
  destruct (createLogicalDevice_one_queue_per_family uncreated 1 0)
    as (s' & createInfo & Hrun & Hcalls & Hfamilies & _).
  - reflexivity.
  - reflexivity.
  - reflexivity.
  - reflexivity.
  - reflexivity.
  - exists s', createInfo. split; [exact Hrun|]. split; [exact Hcalls | exact Hfamilies].
Defined.

(** When [findQueueFamilies] misses the graphics or the presentation
    family, [createLogicalDevice] raises its own runtime error before it
    touches the driver or a mutex; nothing is created. *)
Lemma createLogicalDevice_needs_both_families (s : State) :
  SwapChain.graphicsFamily (indices s) = None
  \/ SwapChain.presentFamily (indices s) = None ->
  createLogicalDevice s
  = (Throw (runtime_error "Failed to find required queue families."), s).
Proof.
  intros Hmissing. unfold createLogicalDevice, bind, gets, throw.
  destruct (SwapChain.graphicsFamily (indices s)), (SwapChain.presentFamily (indices s));
    destruct Hmissing; try discriminate; reflexivity.
Qed.

Lemma createLogicalDevice_needs_both_families_witness :
  createLogicalDevice headless
  = (Throw (runtime_error "Failed to find required queue families."), headless).
Proof.
  apply createLogicalDevice_needs_both_families. right. reflexivity.
Defined.

End LogicalDevice.

(** ** The texture's image view *)

Section TextureView.
Import TextureManager TextureManagerMore.

(** X22: [createTextureImageView] creates a view only when the
    manager has none: with a non-null view it issues nothing; without
    one, and the driver accepting, it creates one view of the texture
    image in [VK_FORMAT_R8G8B8A8_SRGB] and keeps it, so that calling it
    again issues nothing more. *)
Theorem createTextureImageView_creates_at_most_once (t : Texture) :
  fst (driver_pop (driver (manager t))) = true ->
  0 < nextHandle (driver (manager t)) ->
  exists t',
    createTextureImageView t = (Ret tt, t')
    /\ (if textureImageView t =? VK_NULL_HANDLE
        then textureImageView t' = nextHandle (driver (manager t))
             /\ viewCalls t'
                = viewCalls t
                  ++ [vkCreateImageView (textureImage (manager t))
                        VK_FORMAT_R8G8B8A8_SRGB true]
        else t' = t)
    /\ createTextureImageView t' = (Ret tt, t').
Proof.
  intros Hok Hnext.
  destruct t as [[[script n] c h ma fs pool held path img mem] imageView vc].
  simpl in Hok, Hnext.
  unfold createTextureImageView, createImageView, bind, gets, lift, pop_result, fresh,
    log_view, modify, ret, with_view, with_manager, with_device.
  cbn -[Z.eqb].
  destruct (Z.eqb_spec imageView VK_NULL_HANDLE) as [->|Hview].
  - destruct script as [|ok rest]; simpl in Hok; [|subst ok];
      cbn -[Z.eqb];
      (eexists; split; [reflexivity|]); cbn -[Z.eqb];
      (split; [split; reflexivity|]);
      destruct (Z.eqb_spec n VK_NULL_HANDLE) as [Hnull|_];
      try (unfold VK_NULL_HANDLE in Hnull; lia); reflexivity.
  - cbn -[Z.eqb]. eexists. split; [reflexivity|]. split; [reflexivity|].
    cbn -[Z.eqb].
    destruct (Z.eqb_spec imageView VK_NULL_HANDLE); [contradiction | reflexivity].
Qed.

Lemma createTextureImageView_creates_at_most_once_witness :
  exists t',
    createTextureImageView (with_view VK_NULL_HANDLE loaded) = (Ret tt, t')
    /\ textureImageView t' = 54
    /\ createTextureImageView t' = (Ret tt, t').
Proof.
  destruct (createTextureImageView_creates_at_most_once (with_view VK_NULL_HANDLE loaded))
    as (t' & Hrun & Hview & Hagain).
  - reflexivity.
  - simpl. lia.
  - exists t'. split; [exact Hrun|]. split; [|exact Hagain].
    simpl in Hview. apply Hview.
Defined.

End TextureView.

(** ** Releasing the logical device *)

Section LogicalDeviceRelease.
Import VulkanLogicalDevice.

(** X23: [~VulkanLogicalDevice] destroys the device when there is one
    and nulls the handle under [deviceMutex]; on the state it leaves it
    issues nothing, so the device is never destroyed twice. *)
Theorem VulkanLogicalDevice_destroys_device_once (s : State) :
  deviceMutex s = false ->
  exists s',
    destructor s = (Ret tt, s')
    /\ calls s'
       = calls s ++ (if device s =? VK_NULL_HANDLE then []
                     else [vkDestroyDevice (device s)])
    /\ device s' = VK_NULL_HANDLE
    /\ deviceMutex s' = false
    /\ destructor s' = (Ret tt, s').
Proof.
  intros Hfree.
  destruct s as [d c out found qo phys layers exts dev gq pq dm qm].
  simpl in Hfree. subst dm.
  unfold destructor, lock_deviceMutex, bind, gets, log, modify, ret, with_members,
    with_mutexes, with_device.
  cbn -[Z.eqb].
  destruct (Z.eqb_spec dev VK_NULL_HANDLE) as [->|Hdev]; cbn;
    (eexists; split; [reflexivity|]); cbn;
    rewrite ?app_nil_r; repeat split; reflexivity.
Qed.

Lemma VulkanLogicalDevice_destroys_device_once_witness :
  exists s1 s2,
    createLogicalDevice uncreated = (Ret tt, s1)
    /\ destructor s1 = (Ret tt, s2)
    /\ List.filter (fun c => match c with vkDestroyDevice _ => true | _ => false end)
         (calls s2) = [vkDestroyDevice 40]
    /\ destructor s2 = (Ret tt, s2).
Proof.
  destruct (VulkanLogicalDevice_destroys_device_once
              (snd (createLogicalDevice uncreated)))
    as (s2 & Hrun & Hcalls & _ & _ & Hagain).
  - vm_compute. reflexivity.
  - exists (snd (createLogicalDevice uncreated)), s2.
    split; [vm_compute; reflexivity|]. split; [exact Hrun|]. split; [|exact Hagain].
    rewrite Hcalls. vm_compute. reflexivity.
Defined.

End LogicalDeviceRelease.
